(** * Financial and quantity reconciliation of the clothing-store schemas

    A shallow embedding of the pre-save arithmetic found in the Mongoose
    schemas of the store (ProductSchema, OrderSchema, FinancialSchema,
    InventorySchema, SupplierSchema with the user schema, EmployeeSchema),
    followed by the properties established about it.

    Conventions of the embedding
    - a JavaScript [number] holding money, a rate or a line quantity is an
      exact rational ([Q]); equations between computed amounts are stated
      with [==];
    - the stock counters of a product are integers ([Z]);
    - a [Date] is its millisecond timestamp ([Z]);
    - an optional field ([f?: T], or a schema path without [required]) is an
      [option];
    - a nested path of a schema (the [discount] of an order item or of an
      invoice, with its [type], [value] and [amount]) is an object on every
      document, so it is truthy; [None] stands for the object none of whose
      paths is set, [Some d] for one with a type and a value;
    - validation runs before the [pre('save')] hooks; an assignment that
      cannot be cast to the type of its path ([NaN] to a Number, an invalid
      date to a Date) is refused and the path keeps its value;
    - a method that mutates [this] is a function from the document before the
      call to the document after it;
    - the clock ([new Date()], [Date.now()]) and the counts returned by the
      database are arguments of the hook that reads them, the clock being
      read as one instant per call. *)

From Stdlib Require Import QArith ZArith List String Bool Lia.
From Stdlib Require Import NArith Ascii DecimalString DecimalN Permutation.
From Stdlib Require Import Lqa.
Import ListNotations.

Open Scope Q_scope.

(** ** JavaScript coercions used by the hooks *)

Module Js.

(** [if (x)] on a number: every number but zero is truthy. *)
Definition truthy (x : Q) : bool := negb (Qeq_bool x 0).

(** [if (x)] on an optional number: [undefined] is falsy as well. *)
Definition truthy_opt (x : option Q) : bool :=
  match x with
  | Some q => truthy q
  | None => false
  end.

(** [x || 0] on an optional number. *)
Definition or0 (x : option Q) : Q :=
  match x with
  | Some q => if truthy q then q else 0
  | None => 0
  end.

(** [a > b] and [a <= b] on numbers. *)
Definition gt (a b : Q) : bool := negb (Qle_bool a b).
Definition le (a b : Q) : bool := Qle_bool a b.

(** The value of a local variable that may have become [NaN]. *)
Inductive Number : Type :=
| Num (q : Q)
| NaN.

(** [x += y] on such a variable, [y] being a number. *)
Definition add (x : Number) (y : Q) : Number :=
  match x with
  | Num q => Num (q + y)
  | NaN => NaN
  end.

(** [this.path = v] on a document path of type Number: the cast of [NaN]
    fails, the assignment is refused and the path keeps the value it
    held. *)
Definition assign (stored : Q) (v : Number) : Q :=
  match v with
  | Num q => q
  | NaN => stored
  end.

(** The value of a quotient whose divisor is not guarded by the code: a
    finite number, or an infinity when a non-zero number is divided by
    zero. *)
Inductive Quotient : Type :=
| Finite (q : Q)
| PlusInfinity
| MinusInfinity.

(** [a / b]; nothing stands for [NaN], the value of [0 / 0]. *)
Definition div (a b : Q) : option Quotient :=
  if Qeq_bool b 0 then
    if Qeq_bool a 0 then None
    else if Qle_bool 0 a then Some PlusInfinity else Some MinusInfinity
  else Some (Finite (a / b)).

End Js.

(** ** ProductSchema: the stock counters *)

Module Product.

(** The three counters of [IProduct]; the other paths of the schema are not
    read by the statements that write the counters. *)
Record IProduct : Type := mkProduct {
  quantity : Z;
  reservedQuantity : Z;
  availableQuantity : Z
}.

(** The [min: 0] validators the schema declares on the three counters.
    Mongoose runs document validation before the [pre('save')] hooks. *)
Definition validate (this : IProduct) : bool :=
  ((0 <=? quantity this) && (0 <=? reservedQuantity this)
     && (0 <=? availableQuantity this))%Z.

(** [ProductSchema.methods.calculateAvailableQuantity]. *)
Definition calculateAvailableQuantity (this : IProduct) : Z :=
  (quantity this - reservedQuantity this)%Z.

(** The statement of [ProductSchema.pre('save')] that writes a counter:
    [this.availableQuantity = this.quantity - this.reservedQuantity]. *)
Definition pre_save (this : IProduct) : IProduct :=
  {| quantity := quantity this;
     reservedQuantity := reservedQuantity this;
     availableQuantity := (quantity this - reservedQuantity this)%Z |}.

(** A save: validation, then the hook; a document that fails validation is
    rejected and nothing is stored. *)
Definition save (this : IProduct) : option IProduct :=
  if validate this then Some (pre_save this) else None.

End Product.

(** ** OrderSchema *)

Module Order.

Inductive DiscountType : Type :=
| PERCENTAGE | FIXED_AMOUNT | BUY_X_GET_Y | VOLUME_DISCOUNT.

Inductive PaymentStatus : Type :=
| PENDING | PROCESSING | COMPLETED | FAILED
| PARTIALLY_PAID | REFUNDED | CANCELLED.

Definition PaymentStatus_eqb (a b : PaymentStatus) : bool :=
  match a, b with
  | PENDING, PENDING | PROCESSING, PROCESSING | COMPLETED, COMPLETED
  | FAILED, FAILED | PARTIALLY_PAID, PARTIALLY_PAID
  | REFUNDED, REFUNDED | CANCELLED, CANCELLED => true
  | _, _ => false
  end.

(** [{ type, value, amount }], the shape shared by an item's [discount] and
    by the entries of the order's [discounts]. *)
Record Discount : Type := mkDiscount {
  discount_type : DiscountType;
  discount_value : Q;
  discount_amount : Q
}.

(** An item of an order; [item_discount] is its nested path [discount]. *)
Record IOrderItem : Type := mkItem {
  unitPrice : Q;
  quantity : Q;
  item_subtotal : Q;
  item_discount : option Discount;
  item_tax : option Q;
  item_total : Q
}.

Record IPayment : Type := mkPayment {
  payment_status : PaymentStatus;
  payment_amount : Q;
  payment_currency : string;
  refundAmount : option Q
}.

Record IOrder : Type := mkOrder {
  items : list IOrderItem;
  totalItems : Q;
  totalQuantity : Q;
  subtotal : Q;
  discountTotal : Q;
  taxTotal : Q;
  shippingCost : Q;
  handlingFee : option Q;
  total : Q;
  discounts : option (list Discount);
  paymentStatus : PaymentStatus;
  dueDate : option Z;
  payments : list IPayment;
  totalPaid : Q;
  balanceDue : Q
}.

(** The four local accumulators of [calculateTotals]; the discount total
    can become [NaN]. *)
Record Locals : Type := mkLocals {
  l_subtotal : Q;
  l_totalQuantity : Q;
  l_discountTotal : Js.Number;
  l_taxTotal : Q
}.

(** The amount written into a discount: a percentage of [base] for
    [PERCENTAGE], the plain [value] in the [else] branch. *)
Definition discountAmount (base : Q) (d : Discount) : Q :=
  match discount_type d with
  | PERCENTAGE => base * (discount_value d / 100)
  | _ => discount_value d
  end.

Definition setAmount (d : Discount) (a : Q) : Discount :=
  {| discount_type := discount_type d;
     discount_value := discount_value d;
     discount_amount := a |}.

(** Body of [this.items.forEach(item => ...)]: the item after the
    iteration and the accumulators after it.  [item.discount] is a nested
    path of the item, an object on every item: [None] stands for the object
    whose [type] and [value] are not set.  The branch [if (item.discount)]
    is taken for it as well; it copies the unset [value] into [amount] and
    adds it to the local total, which is [NaN] from then on. *)
Definition item_body (item : IOrderItem) (l : Locals) : IOrderItem * Locals :=
  let sub := unitPrice item * quantity item in
  let disc :=
    match item_discount item with
    | Some d => Some (setAmount d (discountAmount sub d))
    | None => None
    end in
  let dtot :=
    match disc with
    | Some d => Js.add (l_discountTotal l) (discount_amount d)
    | None => Js.NaN
    end in
  let ttot :=
    match item_tax item with
    | Some t => if Js.truthy t then l_taxTotal l + t else l_taxTotal l
    | None => l_taxTotal l
    end in
  let tot :=
    sub - Js.or0 (option_map discount_amount disc) + Js.or0 (item_tax item) in
  ({| unitPrice := unitPrice item;
      quantity := quantity item;
      item_subtotal := sub;
      item_discount := disc;
      item_tax := item_tax item;
      item_total := tot |},
   {| l_subtotal := l_subtotal l + sub;
      l_totalQuantity := l_totalQuantity l + quantity item;
      l_discountTotal := dtot;
      l_taxTotal := ttot |}).

Fixpoint forEach_items (its : list IOrderItem) (l : Locals)
  : list IOrderItem * Locals :=
  match its with
  | [] => ([], l)
  | item :: rest =>
      let '(item', l1) := item_body item l in
      let '(rest', l2) := forEach_items rest l1 in
      (item' :: rest', l2)
  end.

(** [this.discounts.forEach(discount => ...)]: every entry gets its amount,
    computed on [this.subtotal], and [this.discountTotal] grows by it. *)
Fixpoint forEach_discounts (sub : Q) (ds : list Discount) (dtot : Q)
  : list Discount * Q :=
  match ds with
  | [] => ([], dtot)
  | d :: rest =>
      let a := discountAmount sub d in
      let '(rest', dtot') := forEach_discounts sub rest (dtot + a) in
      (setAmount d a :: rest', dtot')
  end.

Definition isCompleted (p : IPayment) : bool :=
  PaymentStatus_eqb (payment_status p) COMPLETED.

(** [payments.filter(p => p.status === COMPLETED)
            .reduce((sum, p) => sum + p.amount, 0)]. *)
Definition sumCompleted (ps : list IPayment) : Q :=
  fold_left (fun sum p => sum + payment_amount p) (filter isCompleted ps) 0.

(** [OrderSchema.methods.calculateTotals].  The assignment
    [this.discountTotal = discountTotal] is refused when the local total is
    [NaN]; the order discounts are then added to the value the order
    held. *)
Definition calculateTotals (this : IOrder) : IOrder :=
  let '(items', l) :=
    forEach_items (items this) (mkLocals 0 0 (Js.Num 0) 0) in
  let subtotal' := l_subtotal l in
  let discountTotal0 := Js.assign (discountTotal this) (l_discountTotal l) in
  let '(discounts', discountTotal') :=
    match discounts this with
    | Some ds =>
        let '(ds', dt) := forEach_discounts subtotal' ds discountTotal0 in
        (Some ds', dt)
    | None => (None, discountTotal0)
    end in
  let total' :=
    subtotal' - discountTotal' + l_taxTotal l
    + shippingCost this + Js.or0 (handlingFee this) in
  let totalPaid' := sumCompleted (payments this) in
  let balanceDue' := total' - totalPaid' in
  let paymentStatus' :=
    if Js.le balanceDue' 0 then COMPLETED
    else if Js.gt totalPaid' 0 then PARTIALLY_PAID
    else paymentStatus this in
  {| items := items';
     totalItems := inject_Z (Z.of_nat (List.length (items this)));
     totalQuantity := l_totalQuantity l;
     subtotal := subtotal';
     discountTotal := discountTotal';
     taxTotal := l_taxTotal l;
     shippingCost := shippingCost this;
     handlingFee := handlingFee this;
     total := total';
     discounts := discounts';
     paymentStatus := paymentStatus';
     dueDate := dueDate this;
     payments := payments this;
     totalPaid := totalPaid';
     balanceDue := balanceDue' |}.

End Order.

(** ** FinancialSchema: invoices *)

Module Invoice.

Inductive InvoiceStatus : Type :=
| DRAFT | SENT | VIEWED | PARTIALLY_PAID | PAID | OVERDUE
| CANCELLED | REFUNDED.

Definition isCancelled (s : InvoiceStatus) : bool :=
  match s with
  | CANCELLED => true
  | _ => false
  end.

Inductive DiscountKind : Type := PERCENTAGE | FIXED.

Record Discount : Type := mkDiscount {
  discount_type : DiscountKind;
  discount_value : Q;
  discount_amount : Q
}.

Record IInvoiceItem : Type := mkItem {
  quantity : Q;
  unitPrice : Q;
  item_subtotal : Q;
  taxRate : option Q;
  taxAmount : option Q;
  item_total : Q
}.

(** An entry of [payments]: it has a date, an amount and a method, and no
    status. *)
Record Payment : Type := mkPayment {
  payment_date : Z;
  payment_amount : Q;
  payment_method : string
}.

(** The paths of an invoice the hook and the methods read or write;
    [discount] is a nested path. *)
Record IInvoice : Type := mkInvoice {
  status : InvoiceStatus;
  dueDate : Z;
  items : list IInvoiceItem;
  subtotal : Q;
  totalTax : Q;
  shippingCost : option Q;
  otherCharges : option Q;
  discount : option Discount;
  total : Q;
  currency : string;
  exchangeRate : option Q;
  totalInEuro : option Q;
  paidAmount : Q;
  outstandingAmount : Q;
  payments : option (list Payment)
}.

(** Body of the first [reduce]: the item is rewritten in place and its
    subtotal is added to the sum. *)
Definition item_body (sum : Q) (item : IInvoiceItem) : IInvoiceItem * Q :=
  let sub := quantity item * unitPrice item in
  let tax :=
    match taxRate item with
    | Some r => if Js.truthy r then Some (sub * (r / 100)) else taxAmount item
    | None => taxAmount item
    end in
  ({| quantity := quantity item;
      unitPrice := unitPrice item;
      item_subtotal := sub;
      taxRate := taxRate item;
      taxAmount := tax;
      item_total := sub + Js.or0 tax |},
   sum + sub).

Fixpoint reduce_items (its : list IInvoiceItem) (sum : Q)
  : list IInvoiceItem * Q :=
  match its with
  | [] => ([], sum)
  | item :: rest =>
      let '(item', sum1) := item_body sum item in
      let '(rest', sum2) := reduce_items rest sum1 in
      (item' :: rest', sum2)
  end.

(** [items.reduce((sum, item) => sum + (item.taxAmount || 0), 0)]. *)
Definition sumTax (its : list IInvoiceItem) : Q :=
  fold_left (fun sum item => sum + Js.or0 (taxAmount item)) its 0.

(** [payments.reduce((sum, p) => sum + p.amount, 0)]. *)
Definition sumPayments (ps : list Payment) : Q :=
  fold_left (fun sum p => sum + payment_amount p) ps 0.

(** The local [discountAmount] of [calculateTotals].  [this.discount] is a
    nested path, an object on every invoice, and the branch
    [if (this.discount)] is always taken: [None] stands for the object whose
    [type] and [value] are not set, for which [discountAmount] becomes the
    unset [value] and every sum it enters is [NaN]. *)
Definition discountAmount (subtotal' : Q) (d : option Discount) : Js.Number :=
  match d with
  | Some d =>
      match discount_type d with
      | PERCENTAGE => Js.Num (subtotal' * (discount_value d / 100))
      | FIXED => Js.Num (discount_value d)
      end
  | None => Js.NaN
  end.

(** [InvoiceSchema.methods.calculateTotals].  The assignment to
    [this.total] is refused when the sum is [NaN]; [outstandingAmount] and
    [totalInEuro] are then computed from the total the invoice held. *)
Definition calculateTotals (this : IInvoice) : IInvoice :=
  let '(items', subtotal') := reduce_items (items this) 0 in
  let totalTax' := sumTax items' in
  let amount := discountAmount subtotal' (discount this) in
  let discount' :=
    match discount this, amount with
    | Some d, Js.Num a => Some {| discount_type := discount_type d;
                                  discount_value := discount_value d;
                                  discount_amount := a |}
    | other, _ => other
    end in
  let total' :=
    Js.assign (total this)
      match amount with
      | Js.Num a =>
          Js.Num (subtotal' + totalTax' - a
                  + Js.or0 (shippingCost this) + Js.or0 (otherCharges this))
      | Js.NaN => Js.NaN
      end in
  let paidAmount' := Js.or0 (option_map sumPayments (payments this)) in
  let totalInEuro' :=
    if String.eqb (currency this) "EUR" then Some total'
    else
      match exchangeRate this with
      | Some x => if Js.truthy x then Some (total' / x) else totalInEuro this
      | None => totalInEuro this
      end in
  {| status := status this;
     dueDate := dueDate this;
     items := items';
     subtotal := subtotal';
     totalTax := totalTax';
     shippingCost := shippingCost this;
     otherCharges := otherCharges this;
     discount := discount';
     total := total';
     currency := currency this;
     exchangeRate := exchangeRate this;
     totalInEuro := totalInEuro';
     paidAmount := paidAmount';
     outstandingAmount := total' - paidAmount';
     payments := payments this |}.

Definition setStatus (this : IInvoice) (s : InvoiceStatus) : IInvoice :=
  {| status := s;
     dueDate := dueDate this;
     items := items this;
     subtotal := subtotal this;
     totalTax := totalTax this;
     shippingCost := shippingCost this;
     otherCharges := otherCharges this;
     discount := discount this;
     total := total this;
     currency := currency this;
     exchangeRate := exchangeRate this;
     totalInEuro := totalInEuro this;
     paidAmount := paidAmount this;
     outstandingAmount := outstandingAmount this;
     payments := payments this |}.

(** [InvoiceSchema.pre('save')], from [this.calculateTotals()] on; [now] is
    the value of [new Date()].  The numbering of a new invoice, which
    precedes it, writes [invoiceNumber] only. *)
Definition pre_save (now : Z) (this : IInvoice) : IInvoice :=
  let this1 := calculateTotals this in
  if Js.le (outstandingAmount this1) 0 then setStatus this1 PAID
  else if Js.gt (paidAmount this1) 0 then setStatus this1 PARTIALLY_PAID
  else if (dueDate this1 <? now)%Z && negb (isCancelled (status this1))
       then setStatus this1 OVERDUE
  else this1.

(** [InvoiceSchema.methods.markAsPaid]. *)
Definition markAsPaid (this : IInvoice) : IInvoice :=
  {| status := PAID;
     dueDate := dueDate this;
     items := items this;
     subtotal := subtotal this;
     totalTax := totalTax this;
     shippingCost := shippingCost this;
     otherCharges := otherCharges this;
     discount := discount this;
     total := total this;
     currency := currency this;
     exchangeRate := exchangeRate this;
     totalInEuro := totalInEuro this;
     paidAmount := total this;
     outstandingAmount := 0;
     payments := payments this |}.

End Invoice.

(** ** FinancialSchema: exchange rates and the conversion of an expense *)

Module Expense.

Record IExchangeRate : Type := mkRate {
  fromCurrency : string;
  toCurrency : string;
  rate : Q;
  date : Z;
  validFrom : Z;
  validTo : option Z;
  isActive : bool
}.

Record IExpense : Type := mkExpense {
  amount : Q;
  currency : string;
  amountInEuro : option Js.Quotient;
  expenseDate : Z
}.

(** The filter of the query:
    [{ fromCurrency: cur, toCurrency: 'EUR', date: { $lte: asOf },
       isActive: true }]. *)
Definition selected (cur : string) (asOf : Z) (r : IExchangeRate) : bool :=
  String.eqb (fromCurrency r) cur
  && String.eqb (toCurrency r) "EUR"
  && (date r <=? asOf)%Z
  && isActive r.

(** One step of the scan for the greatest [date]. *)
Definition later (best : option IExchangeRate) (r : IExchangeRate)
  : option IExchangeRate :=
  match best with
  | None => Some r
  | Some b => if (date b <? date r)%Z then Some r else Some b
  end.

(** [ExchangeRate.findOne(filter).sort({ date: -1 })] over the stored
    rates: the selected rate with the greatest [date], none when no rate is
    selected. *)
Definition findOne (store : list IExchangeRate) (cur : string) (asOf : Z)
  : option IExchangeRate :=
  fold_left later (filter (selected cur asOf) store) None.

(** The validators of the paths modelled: [amount] is not negative
    ([min: 0]) and [amountInEuro] is set ([required: true]).  Validation
    runs before the [pre('save')] hook. *)
Definition validate (this : IExpense) : bool :=
  Qle_bool 0 (amount this)
  && match amountInEuro this with
     | Some _ => true
     | None => false
     end.

Definition setAmountInEuro (this : IExpense) (v : Js.Quotient) : IExpense :=
  {| amount := amount this;
     currency := currency this;
     amountInEuro := Some v;
     expenseDate := expenseDate this |}.

(** The conversion in [ExpenseSchema.pre('save')]; the statements after
    it write [nextDueDate] only.  When the quotient is [NaN] the assignment
    is refused and [amountInEuro] keeps its value. *)
Definition pre_save (store : list IExchangeRate) (this : IExpense)
  : IExpense :=
  if negb (String.eqb (currency this) "EUR") then
    match findOne store (currency this) (expenseDate this) with
    | Some r =>
        match Js.div (amount this) (rate r) with
        | Some v => setAmountInEuro this v
        | None => this
        end
    | None => this
    end
  else setAmountInEuro this (Js.Finite (amount this)).

(** A save: validation, then the hook; an expense that fails validation is
    rejected with a validation error and the hook does not run. *)
Definition save (store : list IExchangeRate) (this : IExpense)
  : option IExpense :=
  if validate this then Some (pre_save store this) else None.

End Expense.

(** ** InventorySchema: the cost of a batch *)

Module Batch.

Inductive Unit : Type := KG | PIECES | BALES | CONTAINERS.

Definition isKG (u : Unit) : bool :=
  match u with
  | KG => true
  | _ => false
  end.

Record SortingWorker : Type := mkWorker {
  startTime : option Z;
  endTime : option Z
}.

Record IBatch : Type := mkBatch {
  receivedQuantity : option Q;
  sortedQuantity : option Q;
  unit : Unit;
  purchasePrice : Q;
  currency : string;
  euroEquivalent : Q;
  shippingCost : option Q;
  customsDuty : option Q;
  otherCosts : option Q;
  totalCost : option Q;
  costPerKg : option Q;
  orderDate : Z;
  sortingWorkers : option (list SortingWorker);
  sortingDuration : option Q;
  sortingProductivity : option Q
}.

(** Body of the [reduce] over the sorting workers. *)
Definition addHours (sum : Q) (w : SortingWorker) : Q :=
  match startTime w, endTime w with
  | Some s, Some e => sum + inject_Z (e - s) / inject_Z (1000 * 60 * 60)
  | _, _ => sum
  end.

(** [BatchSchema.pre('save')], from the cost computation on; the numbering
    of a new batch, which precedes it, writes [batchNumber] only. *)
Definition pre_save (this : IBatch) : IBatch :=
  let '(totalCost', costPerKg') :=
    if Js.truthy (purchasePrice this) then
      let tc :=
        purchasePrice this
        + Js.or0 (shippingCost this)
        + Js.or0 (customsDuty this)
        + Js.or0 (otherCosts this) in
      (Some tc,
       match receivedQuantity this with
       | Some rq =>
           if Js.truthy rq && isKG (unit this)
           then Some (tc / rq)
           else costPerKg this
       | None => costPerKg this
       end)
    else (totalCost this, costPerKg this) in
  let hasWorkers :=
    match sortingWorkers this with
    | Some (_ :: _) => true
    | _ => false
    end in
  let totalHours :=
    match sortingWorkers this with
    | Some ws => fold_left addHours ws 0
    | None => 0
    end in
  {| receivedQuantity := receivedQuantity this;
     sortedQuantity := sortedQuantity this;
     unit := unit this;
     purchasePrice := purchasePrice this;
     currency := currency this;
     euroEquivalent := euroEquivalent this;
     shippingCost := shippingCost this;
     customsDuty := customsDuty this;
     otherCosts := otherCosts this;
     totalCost := totalCost';
     costPerKg := costPerKg';
     orderDate := orderDate this;
     sortingWorkers := sortingWorkers this;
     sortingDuration :=
       if hasWorkers then Some totalHours else sortingDuration this;
     sortingProductivity :=
       match sortedQuantity this with
       | Some sq =>
           if hasWorkers && (Js.gt totalHours 0 && Js.truthy sq)
           then Some (sq / totalHours)
           else sortingProductivity this
       | None => sortingProductivity this
       end |}.

End Batch.

(** ** Reservation of stock *)

Module Reservation.

(** Modelled from the spec: the products the reservation manager works on,
    addressed by product id.  The schemas define the three counters of a
    product and no operation that reserves stock. *)
Definition Store : Type := string -> option Product.IProduct.

Definition update (s : Store) (id : string) (p : Product.IProduct) : Store :=
  fun k => if String.eqb k id then Some p else s k.

Inductive Outcome : Type :=
| Reserved (qty : Z)
| InsufficientStock.

(** Modelled from the spec: the [reserve] operation of the inventory
    reservation manager, which the schemas do not define.  It is one atomic
    check-and-update: it succeeds only if [available >= qty], and on
    success [reserved += qty] and [available -= qty]; otherwise it answers
    [InsufficientStock] and changes nothing. *)
Definition reserve (s : Store) (productId : string) (qty : Z)
  : Store * Outcome :=
  match s productId with
  | Some p =>
      if (qty <=? Product.availableQuantity p)%Z then
        (update s productId
           {| Product.quantity := Product.quantity p;
              Product.reservedQuantity := (Product.reservedQuantity p + qty)%Z;
              Product.availableQuantity := (Product.availableQuantity p - qty)%Z |},
         Reserved qty)
      else (s, InsufficientStock)
  | None => (s, InsufficientStock)
  end.

(** Modelled from the spec: concurrent callers of the atomic operation are
    served one after the other in some order.  A run is the list of calls in
    the order in which their check-and-update took place; it returns the
    final store and the outcome of every call. *)
Fixpoint run (s : Store) (calls : list (string * Z))
  : Store * list Outcome :=
  match calls with
  | [] => (s, [])
  | (productId, qty) :: rest =>
      let '(s1, o) := reserve s productId qty in
      let '(s2, os) := run s1 rest in
      (s2, o :: os)
  end.

Definition granted (o : Outcome) : Z :=
  match o with
  | Reserved q => q
  | InsufficientStock => 0
  end.

(** Units reserved on product [id] by a run: the granted quantities of the
    calls that name [id]. *)
Fixpoint reservedUnits (id : string) (calls : list (string * Z))
    (os : list Outcome) : Z :=
  match calls, os with
  | (productId, _) :: calls', o :: os' =>
      ((if String.eqb productId id then granted o else 0)
       + reservedUnits id calls' os')%Z
  | _, _ => 0%Z
  end.

Definition available (s : Store) (id : string) : Z :=
  match s id with
  | Some p => Product.availableQuantity p
  | None => 0%Z
  end.

Definition reserved (s : Store) (id : string) : Z :=
  match s id with
  | Some p => Product.reservedQuantity p
  | None => 0%Z
  end.

End Reservation.

(** ** Reference sums and the scenarios of the specification *)

(** The sum of [f] over a list, written by recursion on the list. *)
Fixpoint sumOf {A : Type} (f : A -> Q) (l : list A) : Q :=
  match l with
  | [] => 0
  | x :: rest => f x + sumOf f rest
  end.

(** The value of an optional amount, an absent one counting for nothing. *)
Definition orZero (x : option Q) : Q :=
  match x with
  | Some q => q
  | None => 0
  end.

Definition optList {A : Type} (l : option (list A)) : list A :=
  match l with
  | Some xs => xs
  | None => []
  end.

(** What a payment of an order adds to the paid amount: its amount when its
    status is [COMPLETED], nothing otherwise. *)
Definition paidContribution (p : Order.IPayment) : Q :=
  match Order.payment_status p with
  | Order.COMPLETED => Order.payment_amount p
  | _ => 0
  end.

Module Scenario.

Definition payment (s : Order.PaymentStatus) (a : Q) : Order.IPayment :=
  Order.mkPayment s a "EUR" None.

Definition orderItem (price qty : Q) (d : option Order.Discount)
    (tax : option Q) : Order.IOrderItem :=
  Order.mkItem price qty 0 d tax 0.

(** An order as it is before its totals are computed. *)
Definition order (its : list Order.IOrderItem) (shipping : Q)
    (ds : option (list Order.Discount)) (st : Order.PaymentStatus)
    (ps : list Order.IPayment) : Order.IOrder :=
  Order.mkOrder its 0 0 0 0 0 shipping None 0 ds st None ps 0 0.

Definition invoiceItem (qty price : Q) (rate : option Q)
  : Invoice.IInvoiceItem :=
  Invoice.mkItem qty price 0 rate None 0.

(** An invoice in euro without a discount, as it is before its totals are
    computed: the stored totals are 0. *)
Definition invoice (st : Invoice.InvoiceStatus) (due : Z)
    (its : list Invoice.IInvoiceItem) (ps : list Invoice.Payment)
  : Invoice.IInvoice :=
  Invoice.mkInvoice st due its 0 0 None None None 0 "EUR" None None 0 0
    (Some ps).

(** Scenario C: payments of 30 and 20, both completed, on a total of 50. *)
Definition orderC : Order.IOrder :=
  order [orderItem 50 1 None None] 0 None Order.PENDING
    [payment Order.COMPLETED 30; payment Order.COMPLETED 20].

(** The invoice carries a fixed discount of 0, with which its total is
    computed from its item. *)
Definition invoiceC : Invoice.IInvoice :=
  Invoice.mkInvoice Invoice.SENT 1000 [invoiceItem 1 50 None] 0 0 None None
    (Some (Invoice.mkDiscount Invoice.FIXED 0 0)) 0 "EUR" None None 0 0
    (Some [Invoice.mkPayment 10 30 "CASH"; Invoice.mkPayment 20 20 "CASH"]).

(** A completed payment of 50 followed by a refunded one of 20. *)
Definition orderRefund : Order.IOrder :=
  order [orderItem 100 1 None None] 0 None Order.PENDING
    [payment Order.COMPLETED 50; payment Order.REFUNDED 20].

(** An unpaid order without due date whose payment status is [FAILED]. *)
Definition orderFailed : Order.IOrder :=
  order [orderItem 50 1 None None] 0 None Order.FAILED [].

End Scenario.

(** ** Line items and totals, stated on the fields *)

Definition itemDiscount (it : Order.IOrderItem) : Q :=
  orZero (option_map Order.discount_amount (Order.item_discount it)).

Definition itemTax (it : Order.IOrderItem) : Q :=
  orZero (Order.item_tax it).

(** The amount of an order discount on a base amount: the percentage of the
    base for [PERCENTAGE], the value as it is for every other type. *)
Definition discountOn (base : Q) (d : Order.Discount) : Q :=
  match Order.discount_type d with
  | Order.PERCENTAGE => base * Order.discount_value d / 100
  | _ => Order.discount_value d
  end.

(** [it'] is the order item [it] with its derived fields computed. *)
Definition orderItemComputed (it it' : Order.IOrderItem) : Prop :=
  Order.unitPrice it' = Order.unitPrice it
  /\ Order.quantity it' = Order.quantity it
  /\ Order.item_tax it' = Order.item_tax it
  /\ Order.item_subtotal it' == Order.unitPrice it * Order.quantity it
  /\ match Order.item_discount it, Order.item_discount it' with
     | None, None => True
     | Some d, Some d' =>
         Order.discount_type d' = Order.discount_type d
         /\ Order.discount_value d' = Order.discount_value d
         /\ Order.discount_amount d' == discountOn (Order.item_subtotal it') d
     | _, _ => False
     end
  /\ Order.item_total it'
     == Order.item_subtotal it' - itemDiscount it' + itemTax it'.

Definition invoiceItemTax (it : Invoice.IInvoiceItem) : Q :=
  orZero (Invoice.taxAmount it).

(** [it'] is the invoice item [it] with its derived fields computed. *)
Definition invoiceItemComputed (it it' : Invoice.IInvoiceItem) : Prop :=
  Invoice.quantity it' = Invoice.quantity it
  /\ Invoice.unitPrice it' = Invoice.unitPrice it
  /\ Invoice.taxRate it' = Invoice.taxRate it
  /\ Invoice.item_subtotal it' == Invoice.quantity it * Invoice.unitPrice it
  /\ match Invoice.taxRate it with
     | Some r =>
         (~ r == 0 ->
          exists t, Invoice.taxAmount it' = Some t
                    /\ t == Invoice.item_subtotal it' * r / 100)
         /\ (r == 0 -> Invoice.taxAmount it' = Invoice.taxAmount it)
     | None => Invoice.taxAmount it' = Invoice.taxAmount it
     end
  /\ Invoice.item_total it' == Invoice.item_subtotal it' + invoiceItemTax it'.

Module ScenarioItems.

(** Scenario A on an order: unit price 25, quantity 2, a discount of 10
    percent, and a stored tax of 8.55. *)
Definition orderA : Order.IOrder :=
  Scenario.order
    [Scenario.orderItem 25 2 (Some (Order.mkDiscount Order.PERCENTAGE 10 0))
       (Some (855 # 100))]
    0 None Order.PENDING [].

(** Scenario A on an invoice: quantity 2, unit price 25, tax rate 19. *)
Definition invoiceA : Invoice.IInvoice :=
  Scenario.invoice Invoice.DRAFT 1000
    [Scenario.invoiceItem 2 25 (Some 19)] [].

(** A fixed discount of 100 on an item worth 50. *)
Definition orderFixed : Order.IOrder :=
  Scenario.order
    [Scenario.orderItem 50 1
       (Some (Order.mkDiscount Order.FIXED_AMOUNT 100 0)) None]
    0 None Order.PENDING [].

(** Scenario B: items worth 100, a fixed order discount of 10, shipping
    of 5. *)
Definition orderB : Order.IOrder :=
  Scenario.order
    [Scenario.orderItem 60 1 None None; Scenario.orderItem 20 2 None None]
    5 (Some [Order.mkDiscount Order.FIXED_AMOUNT 10 0]) Order.PENDING [].

Definition invoiceB : Invoice.IInvoice :=
  Invoice.mkInvoice Invoice.DRAFT 1000
    [Scenario.invoiceItem 1 60 None; Scenario.invoiceItem 2 20 None]
    0 0 (Some 5) None (Some (Invoice.mkDiscount Invoice.FIXED 10 0))
    0 "EUR" None None 0 0 None.

End ScenarioItems.

(** ** Conversion and batch scenarios *)

Module ScenarioRates.

(** The same rate with another validity interval. *)
Definition withValidity (r : Expense.IExchangeRate) (from : Z)
    (to : option Z) : Expense.IExchangeRate :=
  {| Expense.fromCurrency := Expense.fromCurrency r;
     Expense.toCurrency := Expense.toCurrency r;
     Expense.rate := Expense.rate r;
     Expense.date := Expense.date r;
     Expense.validFrom := from;
     Expense.validTo := to;
     Expense.isActive := Expense.isActive r |}.

(** Scenario E: the only rate from USD to EUR, quoted at date 10 and valid
    from 10 to 20, and an expense of 100 USD dated 30. *)
Definition usdRate : Expense.IExchangeRate :=
  Expense.mkRate "USD" "EUR" 2 10 10 (Some 20%Z) true.

Definition expenseE : Expense.IExpense :=
  Expense.mkExpense 100 "USD" None 30.

Definition expenseEUR : Expense.IExpense :=
  Expense.mkExpense 100 "EUR" None 30.

(** The expense of scenario E as a caller has to hand it to a save: the
    amount in euro is required, and holds 0 here. *)
Definition expenseFilled : Expense.IExpense :=
  Expense.mkExpense 100 "USD" (Some (Js.Finite 0)) 30.

End ScenarioRates.

Module ScenarioBatch.

(** The same batch bought in another currency at another date. *)
Definition withCurrency (b : Batch.IBatch) (cur : string) (euro : Q)
    (ordered : Z) : Batch.IBatch :=
  {| Batch.receivedQuantity := Batch.receivedQuantity b;
     Batch.sortedQuantity := Batch.sortedQuantity b;
     Batch.unit := Batch.unit b;
     Batch.purchasePrice := Batch.purchasePrice b;
     Batch.currency := cur;
     Batch.euroEquivalent := euro;
     Batch.shippingCost := Batch.shippingCost b;
     Batch.customsDuty := Batch.customsDuty b;
     Batch.otherCosts := Batch.otherCosts b;
     Batch.totalCost := Batch.totalCost b;
     Batch.costPerKg := Batch.costPerKg b;
     Batch.orderDate := ordered;
     Batch.sortingWorkers := Batch.sortingWorkers b;
     Batch.sortingDuration := Batch.sortingDuration b;
     Batch.sortingProductivity := Batch.sortingProductivity b |}.

Definition batch (u : Batch.Unit) (received : option Q) : Batch.IBatch :=
  Batch.mkBatch received None u 1000 "EUR" 1000 (Some 100) None None
    None None 0 None None None.

(** Scenario D: purchase price 1000 EUR, shipping 100 EUR, 500 KG
    received. *)
Definition batchD : Batch.IBatch := batch Batch.KG (Some 500).

(** The same costs for 500 pieces. *)
Definition batchPieces : Batch.IBatch := batch Batch.PIECES (Some 500).

End ScenarioBatch.

Module ScenarioStock.

(** A store with one product, ["p"], of which [k] units are available. *)
Definition store (k : Z) : Reservation.Store :=
  Reservation.update (fun _ => None) "p" (Product.mkProduct k 0 k).

(** A hundred callers, each asking for one unit of ["p"]. *)
Definition hundredCalls : list (string * Z) :=
  List.repeat ("p"%string, 1%Z) 100.

Definition isReserved (o : Reservation.Outcome) : bool :=
  match o with
  | Reservation.Reserved _ => true
  | Reservation.InsufficientStock => false
  end.

End ScenarioStock.

(** * The other methods and hooks of the schemas *)

(** ** ProductSchema: tracking, discount and margin *)

Module ProductMethods.

Record IRFIDReading : Type := mkReading {
  timestamp : Z;
  readerId : string;
  location : string;
  signalStrength : Q;
  temperature : option Q;
  humidity : option Q
}.

Record Discount : Type := mkDiscount {
  percentage : Q;
  reason : string;
  validUntil : option Z
}.

(** The paths of [IProduct] that [updateRFIDLocation], [applyDiscount] and
    the [profitMargin] virtual read or write. *)
Record IProduct : Type := mkProduct {
  purchasePrice : option Q;
  basePrice : Q;
  currentPrice : Q;
  discount : option Discount;
  rfidReadings : list IRFIDReading;
  lastSeenLocation : option string;
  lastSeenAt : option Z
}.

(** [a.slice(-n)]: the last [n] elements, the whole array when it is not
    longer than [n]. *)
Definition sliceLast {A : Type} (n : nat) (a : list A) : list A :=
  skipn (List.length a - n) a.

(** [ProductSchema.methods.updateRFIDLocation]. *)
Definition updateRFIDLocation (this : IProduct) (reading : IRFIDReading)
  : IProduct :=
  let pushed := rfidReadings this ++ [reading] in
  {| purchasePrice := purchasePrice this;
     basePrice := basePrice this;
     currentPrice := currentPrice this;
     discount := discount this;
     rfidReadings :=
       if (100 <? List.length pushed)%nat then sliceLast 100 pushed
       else pushed;
     lastSeenLocation := Some (location reading);
     lastSeenAt := Some (timestamp reading) |}.

(** [ProductSchema.methods.applyDiscount]; [now] is [Date.now()]. *)
Definition applyDiscount (now : Z) (this : IProduct) (pct : Q) (why : string)
  : IProduct :=
  {| purchasePrice := purchasePrice this;
     basePrice := basePrice this;
     currentPrice := basePrice this * (1 - pct / 100);
     discount :=
       Some {| percentage := pct;
               reason := why;
               validUntil := Some (now + 30 * 24 * 60 * 60 * 1000)%Z |};
     rfidReadings := rfidReadings this;
     lastSeenLocation := lastSeenLocation this;
     lastSeenAt := lastSeenAt this |}.

(** The getter of the [profitMargin] virtual. *)
Definition profitMargin (this : IProduct) : Q :=
  match purchasePrice this with
  | Some p =>
      if Js.truthy p && Js.truthy (currentPrice this)
      then (currentPrice this - p) / p * 100
      else 0
  | None => 0
  end.

End ProductMethods.

(** ** ProductSchema: the days in inventory *)

Module ProductAge.

Inductive ProductStatus : Type :=
| DRAFT | INCOMING | IN_SORTING | SORTED | IN_WAREHOUSE | LISTED | RESERVED
| SOLD | RETURNED | DAMAGED | LOST | DISPOSED.

Definition isSold (s : ProductStatus) : bool :=
  match s with
  | SOLD => true
  | _ => false
  end.

Record IProduct : Type := mkProduct {
  status : ProductStatus;
  createdAt : Z;
  soldAt : option Z;
  daysInInventory : option Z
}.

(** The statement of [ProductSchema.pre('save')] that writes
    [daysInInventory]. *)
Definition pre_save (this : IProduct) : IProduct :=
  {| status := status this;
     createdAt := createdAt this;
     soldAt := soldAt this;
     daysInInventory :=
       match soldAt this with
       | Some sold =>
           if isSold (status this)
           then Some ((sold - createdAt this) / (1000 * 60 * 60 * 24))%Z
           else daysInInventory this
       | None => daysInInventory this
       end |}.

End ProductAge.

(** ** OrderSchema: cancellation, return and the deadlines set on save *)

Module OrderLifecycle.

Inductive OrderStatus : Type :=
| DRAFT | PENDING_PAYMENT | PAYMENT_RECEIVED | PROCESSING | PACKED
| READY_FOR_PICKUP | SHIPPED | IN_TRANSIT | DELIVERED | COMPLETED
| CANCELLED | REFUNDED | RETURNED.

Definition OrderStatus_eqb (a b : OrderStatus) : bool :=
  match a, b with
  | DRAFT, DRAFT | PENDING_PAYMENT, PENDING_PAYMENT
  | PAYMENT_RECEIVED, PAYMENT_RECEIVED | PROCESSING, PROCESSING
  | PACKED, PACKED | READY_FOR_PICKUP, READY_FOR_PICKUP
  | SHIPPED, SHIPPED | IN_TRANSIT, IN_TRANSIT | DELIVERED, DELIVERED
  | COMPLETED, COMPLETED | CANCELLED, CANCELLED | REFUNDED, REFUNDED
  | RETURNED, RETURNED => true
  | _, _ => false
  end.

Inductive PaymentMethod : Type :=
| CASH | BANK_TRANSFER | CREDIT_CARD | DEBIT_CARD | PAYPAL | STRIPE
| INVOICE | STORE_CREDIT.

Definition isInvoice (m : option PaymentMethod) : bool :=
  match m with
  | Some INVOICE => true
  | _ => false
  end.

(** An order document: the paths [calculateTotals] works on, and the ones the
    hook and the two predicates read or write beside them. *)
Record IOrder : Type := mkOrder {
  totals : Order.IOrder;
  status : OrderStatus;
  paymentMethod : option PaymentMethod;
  paymentTerms : option Q;
  returnEligible : bool;
  returnDeadline : option Z
}.

(** The greatest time value of a [Date], in milliseconds either side of the
    epoch. *)
Definition maxTime : Z := 8640000000000000.

(** [new Date(x)] on a number: the time value is [x] without its fraction
    when [x] lies within the range of time values; outside it the date is
    invalid. *)
Definition toDate (x : Q) : option Z :=
  if Qle_bool (inject_Z (- maxTime)) x && Qle_bool x (inject_Z maxTime)
  then Some (Z.quot (Qnum x) (Z.pos (Qden x)))
  else None.

Definition setDueDate (o : Order.IOrder) (d : option Z) : Order.IOrder :=
  {| Order.items := Order.items o;
     Order.totalItems := Order.totalItems o;
     Order.totalQuantity := Order.totalQuantity o;
     Order.subtotal := Order.subtotal o;
     Order.discountTotal := Order.discountTotal o;
     Order.taxTotal := Order.taxTotal o;
     Order.shippingCost := Order.shippingCost o;
     Order.handlingFee := Order.handlingFee o;
     Order.total := Order.total o;
     Order.discounts := Order.discounts o;
     Order.paymentStatus := Order.paymentStatus o;
     Order.dueDate := d;
     Order.payments := Order.payments o;
     Order.totalPaid := Order.totalPaid o;
     Order.balanceDue := Order.balanceDue o |}.

(** [OrderSchema.pre('save')], from [this.calculateTotals()] on; [now] is
    [Date.now()].  The numbering of a new order, which precedes it, writes
    [orderNumber] only.  An invalid date is refused by [dueDate], which then
    keeps its value. *)
Definition pre_save (now : Z) (this : IOrder) : IOrder :=
  let totals1 := Order.calculateTotals (totals this) in
  let totals2 :=
    match paymentTerms this with
    | Some terms =>
        if isInvoice (paymentMethod this) && Js.truthy terms
        then
          match toDate (inject_Z now + terms * 24 * 60 * 60 * 1000) with
          | Some due => setDueDate totals1 (Some due)
          | None => totals1
          end
        else totals1
    | None => totals1
    end in
  {| totals := totals2;
     status := status this;
     paymentMethod := paymentMethod this;
     paymentTerms := paymentTerms this;
     returnEligible := returnEligible this;
     returnDeadline :=
       match returnDeadline this with
       | Some d => Some d
       | None =>
           if returnEligible this
           then Some (now + 14 * 24 * 60 * 60 * 1000)%Z
           else None
       end |}.

(** [OrderSchema.methods.canBeCancelled]. *)
Definition canBeCancelled (this : IOrder) : bool :=
  negb (existsb (OrderStatus_eqb (status this))
          [SHIPPED; DELIVERED; COMPLETED; CANCELLED; RETURNED]).

(** [OrderSchema.methods.canBeReturned], as the truth value of the
    conjunction it returns; [now] is [new Date()]. *)
Definition canBeReturned (now : Z) (this : IOrder) : bool :=
  returnEligible this
  && OrderStatus_eqb (status this) DELIVERED
  && match returnDeadline this with
     | Some d => (now <=? d)%Z
     | None => false
     end.

End OrderLifecycle.

(** ** SupplierSchema *)

Module Supplier.

Inductive ShipmentStatus : Type :=
| PENDING | IN_TRANSIT | DELIVERED | CANCELLED.

Definition isDelivered (s : ShipmentStatus) : bool :=
  match s with
  | DELIVERED => true
  | _ => false
  end.

Record IContract : Type := mkContract {
  contractNumber : string;
  endDate : option Z;
  isActive : bool
}.

(** An entry of [shipment.invoices], with the paths the methods read.  The
    entries declare no [euroEquivalent]. *)
Record ShipmentInvoice : Type := mkInvoice {
  issueDate : option Z;
  amount : Q;
  paymentDate : option Z
}.

Record IShipment : Type := mkShipment {
  expectedDeliveryDate : option Z;
  actualDeliveryDate : option Z;
  invoices : list ShipmentInvoice;
  qualityRating : option Q;
  status : ShipmentStatus
}.

Record IPaymentRecord : Type := mkPayment {
  payment_date : Z;
  payment_amount : Q;
  payment_euroEquivalent : Q
}.

Record ISupplierRating : Type := mkRating {
  qualityScore : Q;
  deliveryScore : Q;
  communicationScore : Q;
  priceScore : Q;
  overallScore : Q;
  totalShipments : Q;
  successfulShipments : Q;
  lastRatingUpdate : option Z
}.

Record ISupplier : Type := mkSupplier {
  currentBalance : Q;
  outstandingAmount : Q;
  contracts : list IContract;
  hasActiveContract : bool;
  shipments : list IShipment;
  payments : list IPaymentRecord;
  rating : ISupplierRating
}.

(** [array.length] as a number. *)
Definition len {A : Type} (a : list A) : Q :=
  inject_Z (Z.of_nat (List.length a)).

(** The predicate shared by the hook and [getActiveContract]:
    [contract.isActive && (!contract.endDate || contract.endDate > now)]. *)
Definition inForce (now : Z) (c : IContract) : bool :=
  isActive c
  && match endDate c with
     | Some e => (now <? e)%Z
     | None => true
     end.

(** [SupplierSchema.methods.getActiveContract]; [now] is [new Date()]. *)
Definition getActiveContract (now : Z) (this : ISupplier)
  : option IContract :=
  find (inForce now) (contracts this).

(** [invoice.euroEquivalent || invoice.amount]: an invoice has no
    [euroEquivalent], so the left operand is [undefined] and the value is
    the amount. *)
Definition invoiced (inv : ShipmentInvoice) : Q := amount inv.

(** The nested [reduce] of the hook. *)
Definition totalInvoiced (this : ISupplier) : Q :=
  fold_left
    (fun sum shipment =>
       sum + fold_left (fun invSum invoice => invSum + invoiced invoice)
               (invoices shipment) 0)
    (shipments this) 0.

(** [payments.reduce((sum, p) => sum + p.euroEquivalent, 0)]. *)
Definition totalPaid (this : ISupplier) : Q :=
  fold_left (fun sum p => sum + payment_euroEquivalent p) (payments this) 0.

Definition hasRating (s : IShipment) : bool :=
  match qualityRating s with
  | Some _ => true
  | None => false
  end.

(** The filter of [onTimeDeliveries]. *)
Definition onTime (s : IShipment) : bool :=
  match expectedDeliveryDate s, actualDeliveryDate s with
  | Some e, Some a => (a <=? e)%Z
  | _, _ => true
  end.

Definition sum (l : list Q) : Q := fold_left Qplus l 0.

Definition setRating (this : ISupplier) (r : ISupplierRating) : ISupplier :=
  {| currentBalance := currentBalance this;
     outstandingAmount := outstandingAmount this;
     contracts := contracts this;
     hasActiveContract := hasActiveContract this;
     shipments := shipments this;
     payments := payments this;
     rating := r |}.

(** [SupplierSchema.methods.updateRating]; [now] is [new Date()]. *)
Definition updateRating (now : Z) (this : ISupplier) : ISupplier :=
  let recentShipments := ProductMethods.sliceLast 10 (shipments this) in
  match recentShipments with
  | [] => this
  | _ :: _ =>
      let qualityScores :=
        map (fun s => orZero (qualityRating s))
          (filter hasRating recentShipments) in
      let quality :=
        match qualityScores with
        | [] => qualityScore (rating this)
        | _ :: _ => sum qualityScores / len qualityScores
        end in
      let deliveredShipments :=
        filter (fun s => isDelivered (status s)) recentShipments in
      let onTimeDeliveries := filter onTime deliveredShipments in
      let delivery :=
        match deliveredShipments with
        | [] => 0
        | _ :: _ => len onTimeDeliveries / len deliveredShipments * 5
        end in
      let communication :=
        if Js.truthy (communicationScore (rating this))
        then communicationScore (rating this) else 4 in
      let price :=
        if Js.truthy (priceScore (rating this))
        then priceScore (rating this) else 4 in
      setRating this
        {| qualityScore := quality;
           deliveryScore := delivery;
           communicationScore := communication;
           priceScore := price;
           overallScore := (quality + delivery + communication + price) / 4;
           totalShipments := len (shipments this);
           successfulShipments :=
             len (filter (fun s => isDelivered (status s)) (shipments this));
           lastRatingUpdate := Some now |}
  end.

(** [SupplierSchema.pre('save')]; [now] is [new Date()]. *)
Definition pre_save (now : Z) (this : ISupplier) : ISupplier :=
  let this1 :=
    {| currentBalance := currentBalance this;
       outstandingAmount := totalInvoiced this - totalPaid this;
       contracts := contracts this;
       hasActiveContract := existsb (inForce now) (contracts this);
       shipments := shipments this;
       payments := payments this;
       rating := rating this |} in
  match shipments this with
  | [] => this1
  | _ :: _ => updateRating now this1
  end.

(** [SupplierSchema.methods.calculateBalance]. *)
Definition calculateBalance (this : ISupplier) : Q := currentBalance this.

(** The getter of the [successRate] virtual. *)
Definition successRate (this : ISupplier) : Q :=
  if Qeq_bool (totalShipments (rating this)) 0 then 0
  else successfulShipments (rating this) / totalShipments (rating this) * 100.

(** The days pushed for one invoice by [calculateAveragePaymentTime]. *)
Definition paymentDays (inv : ShipmentInvoice) : list Q :=
  match paymentDate inv, issueDate inv with
  | Some paid, Some issued =>
      [inject_Z ((paid - issued) / (1000 * 60 * 60 * 24))%Z]
  | _, _ => []
  end.

(** [SupplierSchema.methods.calculateAveragePaymentTime]. *)
Definition calculateAveragePaymentTime (this : ISupplier) : Q :=
  let paymentTimes :=
    flat_map (fun shipment => flat_map paymentDays (invoices shipment))
      (shipments this) in
  match paymentTimes with
  | [] => 0
  | _ :: _ => sum paymentTimes / len paymentTimes
  end.



End Supplier.

(** ** EmployeeSchema: payroll *)

Module Payroll.

(** [allowances] and [deductions] are declared as
    [[{ type: String, amount: Number, ... }]] and [bonus] as
    [{ type: String, amount: Number, reason: String }]: with the key [type]
    holding a type these declare arrays of strings and a string, so an entry
    has no [amount]. *)
Record IPayroll : Type := mkPayroll {
  basicSalary : Q;
  allowances : list string;
  overtime_amount : Q;
  bonus : option string;
  commission : option Q;
  totalEarnings : Q;
  deductions : list string;
  tax_totalTax : Q;
  totalDeductions : Q;
  netPay : Q
}.

(** Body of both [reduce] calls, [(sum, a) => sum + a.amount]: [a.amount] is
    [undefined] on a string, so the sum is [NaN] after the first entry. *)
Definition addAmount (sum : Js.Number) (a : string) : Js.Number := Js.NaN.

(** [PayrollSchema.pre('save')].  [this.bonus?.amount] is [undefined], so
    the bonus counts for 0; an assignment of [NaN] to [totalEarnings] or
    [totalDeductions] is refused and the path keeps its value. *)
Definition pre_save (this : IPayroll) : IPayroll :=
  let allowancesTotal := fold_left addAmount (allowances this) (Js.Num 0) in
  let totalEarnings' :=
    Js.assign (totalEarnings this)
      match allowancesTotal with
      | Js.Num t =>
          Js.Num (basicSalary this + t + overtime_amount this
                  + 0 + Js.or0 (commission this))
      | Js.NaN => Js.NaN
      end in
  let deductionsTotal := fold_left addAmount (deductions this) (Js.Num 0) in
  let totalDeductions' :=
    Js.assign (totalDeductions this)
      (Js.add deductionsTotal (tax_totalTax this)) in
  {| basicSalary := basicSalary this;
     allowances := allowances this;
     overtime_amount := overtime_amount this;
     bonus := bonus this;
     commission := commission this;
     totalEarnings := totalEarnings';
     deductions := deductions this;
     tax_totalTax := tax_totalTax this;
     totalDeductions := totalDeductions';
     netPay := totalEarnings' - totalDeductions' |}.

End Payroll.

(** ** EmployeeSchema: attendance and leave *)

Module Employee.

Inductive AttendanceStatus : Type :=
| PRESENT | ABSENT | LATE | EARLY_LEAVE | HALF_DAY | HOLIDAY | WEEKEND
| ON_LEAVE.

Definition isPresentOrUnset (s : option AttendanceStatus) : bool :=
  match s with
  | None | Some PRESENT => true
  | _ => false
  end.

Record Break : Type := mkBreak {
  startTime : option Z;
  endTime : option Z;
  duration : option Q
}.

Record IAttendance : Type := mkAttendance {
  date : Z;
  scheduledStartTime : string;
  actualCheckIn : option Z;
  actualCheckOut : option Z;
  status : option AttendanceStatus;
  totalHours : option Q;
  regularHours : option Q;
  overtimeHours : option Q;
  lateMinutes : option Q;
  earlyLeaveMinutes : option Q;
  breaks : option (list Break);
  totalBreakTime : option Q;
  isOvertime : bool
}.







(** Body of the [reduce] of [calculateBreakTime]. *)
Definition addBreak (total : Q) (breakItem : Break) : Q :=
  match duration breakItem with
  | Some d =>
      if Js.truthy d then total + d
      else
        match startTime breakItem, endTime breakItem with
        | Some s, Some e => total + inject_Z (e - s) / inject_Z (1000 * 60)
        | _, _ => total
        end
  | None =>
      match startTime breakItem, endTime breakItem with
      | Some s, Some e => total + inject_Z (e - s) / inject_Z (1000 * 60)
      | _, _ => total
      end
  end.

(** [AttendanceSchema.methods.calculateBreakTime]. *)
Definition calculateBreakTime (this : IAttendance) : Q :=
  match breaks this with
  | None | Some [] => 0
  | Some bs => fold_left addBreak bs 0
  end.

Section Calendar.

(** The two operations of the hooks that depend on the time zone of the
    server.  [scheduledStart date hhmm] is the time value of
    [new Date(date)] after [setHours(h, m, 0, 0)] with [h] and [m] read from
    ["h:m"], and nothing when that date is invalid; [getFullYear t] is the
    year of the time value [t]. *)
Variable scheduledStart : Z -> string -> option Z.
Variable getFullYear : Z -> Z.

(** [AttendanceSchema.pre('save')]. *)
Definition pre_save (this : IAttendance) : IAttendance :=
  match actualCheckIn this, actualCheckOut this with
  | Some checkIn, Some checkOut =>
      let totalMs := (checkOut - checkIn)%Z in
      let breakMs := Js.or0 (totalBreakTime this) * 60 * 1000 in
      let workingMs := inject_Z totalMs - breakMs in
      let totalHours' := workingMs / inject_Z (1000 * 60 * 60) in
      let lateMinutes' :=
        match scheduledStart (date this) (scheduledStartTime this) with
        | Some start =>
            if (start <? checkIn)%Z
            then Some (inject_Z ((checkIn - start) / (1000 * 60))%Z)
            else lateMinutes this
        | None => lateMinutes this
        end in
      let over := Js.gt totalHours' 8 in
      let gt30 (x : option Q) :=
        match x with
        | Some m => Js.gt m 30
        | None => false
        end in
      {| date := date this;
         scheduledStartTime := scheduledStartTime this;
         actualCheckIn := actualCheckIn this;
         actualCheckOut := actualCheckOut this;
         status :=
           if isPresentOrUnset (status this) then
             if gt30 lateMinutes' then Some LATE
             else if gt30 (earlyLeaveMinutes this) then Some EARLY_LEAVE
             else status this
           else status this;
         totalHours := Some totalHours';
         regularHours := Some (if over then 8 else totalHours');
         overtimeHours := Some (if over then totalHours' - 8 else 0);
         lateMinutes := lateMinutes';
         earlyLeaveMinutes := earlyLeaveMinutes this;
         breaks := breaks this;
         totalBreakTime := totalBreakTime this;
         isOvertime := if over then true else isOvertime this |}
  | _, _ => this
  end.


End Calendar.

End Employee.

(** ** FinancialSchema: transactions *)

Module Transaction.

Record ITransaction : Type := mkTransaction {
  amount : Q;
  currency : string;
  exchangeRate : option Q;
  amountInEuro : Q
}.

(** [TransactionSchema.pre('save')]. *)
Definition pre_save (this : ITransaction) : ITransaction :=
  {| amount := amount this;
     currency := currency this;
     exchangeRate := exchangeRate this;
     amountInEuro :=
       if String.eqb (currency this) "EUR" then amount this
       else
         match exchangeRate this with
         | Some x =>
             if Js.truthy x then amount this / x else amountInEuro this
         | None => amountInEuro this
         end |}.

End Transaction.

(** ** The numbers given to new documents *)

Module Numbering.

(** [String(n)] on a natural number: its decimal digits. *)
Definition toString (n : N) : string :=
  NilZero.string_of_uint (N.to_uint n).

Fixpoint zeros (k : nat) : string :=
  match k with
  | O => EmptyString
  | S k' => String "0" (zeros k')
  end.

(** [s.padStart(k, '0')]: zeros in front up to the length [k], nothing when
    [s] is that long already. *)
Definition padStart (k : nat) (s : string) : string :=
  String.append (zeros (k - String.length s)) s.

(** The guard of the three numbering blocks, [this.isNew && !this.number]:
    only a new document without a number gets the generated one. *)
Definition assign (isNew : bool) (current : option string)
    (generated : string) : option string :=
  match current with
  | Some (String _ _ as n) => Some n
  | _ => if isNew then Some generated else current
  end.

(** The order number of [OrderSchema.pre('save')]:
    [`ORD-${year}${month}${day}-${sequence}`].  [year], [month0] and [day]
    are [getFullYear()], [getMonth()] and [getDate()] of the current date,
    [count] is the number of orders created on that day so far. *)
Definition orderNumber (year month0 day count : N) : string :=
  String.append "ORD-"
    (String.append (toString year)
       (String.append (padStart 2 (toString (month0 + 1)))
          (String.append (padStart 2 (toString day))
             (String.append "-" (padStart 4 (toString (count + 1))))))).

Inductive InvoiceType : Type :=
| PURCHASE | SALES | CREDIT_NOTE | DEBIT_NOTE | PROFORMA.

Definition invoicePrefix (t : InvoiceType) : string :=
  match t with
  | PURCHASE => "PINV"
  | _ => "SINV"
  end.

(** The invoice number of [InvoiceSchema.pre('save')]:
    [`${prefix}-${year}-${String(count + 1).padStart(5, '0')}`]; [count] is
    the number of invoices of that type created in that year so far. *)
Definition invoiceNumber (t : InvoiceType) (year count : N) : string :=
  String.append (invoicePrefix t)
    (String.append "-"
       (String.append (toString year)
          (String.append "-" (padStart 5 (toString (count + 1)))))).

(** The batch number of [BatchSchema.pre('save')]:
    [`BATCH-${year}${month}-${String(count + 1).padStart(4, '0')}`]. *)
Definition batchNumber (year month0 count : N) : string :=
  String.append "BATCH-"
    (String.append (toString year)
       (String.append (padStart 2 (toString (month0 + 1)))
          (String.append "-" (padStart 4 (toString (count + 1)))))).

Inductive UserRole : Type :=
| OWNER | LAWYER | ACCOUNTANT | MANAGER | WAREHOUSE_MANAGER
| SORTING_WORKER | PACKING_WORKER | TEMPORARY_WORKER | DRIVER
| CUSTOMER | SUPPLIER.

(** The string value of a role. *)
Definition roleName (r : UserRole) : string :=
  match r with
  | OWNER => "OWNER"
  | LAWYER => "LAWYER"
  | ACCOUNTANT => "ACCOUNTANT"
  | MANAGER => "MANAGER"
  | WAREHOUSE_MANAGER => "WAREHOUSE_MANAGER"
  | SORTING_WORKER => "SORTING_WORKER"
  | PACKING_WORKER => "PACKING_WORKER"
  | TEMPORARY_WORKER => "TEMPORARY_WORKER"
  | DRIVER => "DRIVER"
  | CUSTOMER => "CUSTOMER"
  | SUPPLIER => "SUPPLIER"
  end.

Definition isStaff (r : UserRole) : bool :=
  match r with
  | CUSTOMER | SUPPLIER => false
  | _ => true
  end.

(** [c.toUpperCase()] on a character of a role name. *)
Definition upper (c : ascii) : ascii :=
  let n := nat_of_ascii c in
  if ((97 <=? n) && (n <=? 122))%nat then ascii_of_nat (n - 32) else c.

Fixpoint toUpperCase (s : string) : string :=
  match s with
  | EmptyString => EmptyString
  | String c rest => String (upper c) (toUpperCase rest)
  end.

(** The employee id of [UserSchema.pre('save')]:
    [`${prefix}-${String(count + 1).padStart(5, '0')}`] with
    [prefix = role.substring(0, 3).toUpperCase()]; [count] is the number of
    users of that role so far. *)
Definition employeeIdOf (r : UserRole) (count : N) : string :=
  String.append (toUpperCase (String.substring 0 3 (roleName r)))
    (String.append "-" (padStart 5 (toString (count + 1)))).

(** The block that sets [employeeId]: a new user of a staff role without an
    id gets one. *)
Definition employeeId (isNew : bool) (r : UserRole)
    (current : option string) (count : N) : option string :=
  if isStaff r then assign isNew current (employeeIdOf r count)
  else current.

End Numbering.

(** ** Statements about the stored rates and the sorting hours *)

(** The unique index of the exchange rates: no two stored rates share the
    currency pair and the quotation date. *)
Definition uniqueRates (store : list Expense.IExchangeRate) : Prop :=
  forall r r',
    In r store -> In r' store ->
    Expense.fromCurrency r = Expense.fromCurrency r' ->
    Expense.toCurrency r = Expense.toCurrency r' ->
    Expense.date r = Expense.date r' ->
    r = r'.

(** The hours a sorting worker adds to the duration of a batch: the time
    between start and end, nothing while one of them is missing. *)
Definition workerHours (w : Batch.SortingWorker) : Q :=
  match Batch.startTime w, Batch.endTime w with
  | Some s, Some e => inject_Z (e - s) / inject_Z 3600000
  | _, _ => 0
  end.

(** ** Statements about suppliers *)

(** The same supplier with other shipments. *)
Definition withShipments (s : Supplier.ISupplier)
    (sh : list Supplier.IShipment) : Supplier.ISupplier :=
  {| Supplier.currentBalance := Supplier.currentBalance s;
     Supplier.outstandingAmount := Supplier.outstandingAmount s;
     Supplier.contracts := Supplier.contracts s;
     Supplier.hasActiveContract := Supplier.hasActiveContract s;
     Supplier.shipments := sh;
     Supplier.payments := Supplier.payments s;
     Supplier.rating := Supplier.rating s |}.

(** Every score of a rating lies between 0 and 5, the range the schema
    declares for them. *)
Definition scoresInRange (r : Supplier.ISupplierRating) : Prop :=
  0 <= Supplier.qualityScore r <= 5
  /\ 0 <= Supplier.deliveryScore r <= 5
  /\ 0 <= Supplier.communicationScore r <= 5
  /\ 0 <= Supplier.priceScore r <= 5
  /\ 0 <= Supplier.overallScore r <= 5.

(** The invoices of a supplier that carry both an issue and a payment
    date, with the time between the two. *)
Definition paidAfter (s : Supplier.ISupplier) (ms : Z) : Prop :=
  exists sh inv issued paid,
    In sh (Supplier.shipments s) /\ In inv (Supplier.invoices sh)
    /\ Supplier.issueDate inv = Some issued
    /\ Supplier.paymentDate inv = Some paid
    /\ ms = (paid - issued)%Z.

(** ** Statements about attendance and leave *)

(** The minutes one break counts for: its recorded duration when there is a
    non-zero one, else the time between its start and its end, else
    nothing. *)
Definition breakMinutes (b : Employee.Break) : Q :=
  let fromTimes :=
    match Employee.startTime b, Employee.endTime b with
    | Some s, Some e => inject_Z (e - s) / 60000
    | _, _ => 0
    end in
  match Employee.duration b with
  | Some d => if Qeq_bool d 0 then fromTimes else d
  | None => fromTimes
  end.


(** ** Statements about the numbers *)

(** The digits [d] behind [k] zeros. *)
Fixpoint leadingZeros (k : nat) (d : Decimal.uint) : Decimal.uint :=
  match k with
  | O => d
  | S k' => Decimal.D0 (leadingZeros k' d)
  end.

(** * Properties *)

(** ** Numbers *)

Lemma le_spec (a b : Q) : Js.le a b = true <-> a <= b.
Proof. unfold Js.le. apply Qle_bool_iff. Qed.

Lemma gt_spec (a b : Q) : Js.gt a b = true <-> b < a.
Proof.
  unfold Js.gt. rewrite negb_true_iff. split.
  - intros H. apply Qnot_le_lt. intros Hle.
    apply Qle_bool_iff in Hle. congruence.
  - intros H. destruct (Qle_bool a b) eqn:E; [|reflexivity].
    apply Qle_bool_iff in E. exfalso. exact (Qlt_not_le _ _ H E).
Qed.

Lemma truthy_spec (x : Q) : Js.truthy x = true <-> ~ x == 0.
Proof.
  unfold Js.truthy. rewrite negb_true_iff. split.
  - intros H E. apply Qeq_bool_iff in E. congruence.
  - intros H. destruct (Qeq_bool x 0) eqn:E; [|reflexivity].
    apply Qeq_bool_iff in E. contradiction.
Qed.

Lemma or0_orZero (x : option Q) : Js.or0 x == orZero x.
Proof.
  destruct x as [q|]; simpl; [|reflexivity].
  destruct (Js.truthy q) eqn:E; [reflexivity|].
  unfold Js.truthy in E. apply negb_false_iff in E.
  apply Qeq_bool_iff in E. symmetry. exact E.
Qed.

Lemma fold_left_sum {A : Type} (f : A -> Q) (l : list A) (a : Q) :
  fold_left (fun sum x => sum + f x) l a == a + sumOf f l.
Proof.
  revert a. induction l as [|x l IH]; intros a; simpl.
  - ring.
  - rewrite IH. ring.
Qed.

(** ** Products *)

(** What every save that goes through leaves on the counters. *)
Lemma product_save_counters (p p' : Product.IProduct) :
  Product.save p = Some p' ->
  (Product.availableQuantity p'
   = Product.quantity p' - Product.reservedQuantity p'
   /\ Product.availableQuantity p' = Product.calculateAvailableQuantity p'
   /\ 0 <= Product.quantity p'
   /\ 0 <= Product.reservedQuantity p')%Z.
Proof.
  unfold Product.save, Product.validate.
  destruct p as [q r a]; simpl.
  destruct (0 <=? q)%Z eqn:Hq; simpl; [|discriminate].
  destruct (0 <=? r)%Z eqn:Hr; simpl; [|discriminate].
  destruct (0 <=? a)%Z eqn:Ha; simpl; [|discriminate].
  intros H. injection H as <-. unfold Product.calculateAvailableQuantity. simpl.
  apply Z.leb_le in Hq, Hr. repeat split; lia.
Qed.

(** C1.  A save does not keep [0 <= reservedQuantity <= quantity].  The
    product with [quantity = 1], [reservedQuantity = 5] and
    [availableQuantity = 1] passes the validators, which look at each
    counter alone, and the hook, which runs after them, stores
    [availableQuantity = 1 - 5 = -4]: the stored product has more reserved
    than it holds, and its [availableQuantity] is below the minimum of 0
    that the schema itself declares for it, so the stored product would not
    pass the validators it was saved under. *)
Theorem C1_save_breaks_counters :
  Product.validate (Product.mkProduct 1 5 1) = true
  /\ Product.save (Product.mkProduct 1 5 1)
     = Some (Product.mkProduct 1 5 (-4))
  /\ (Product.availableQuantity (Product.mkProduct 1 5 (-4))
      = Product.quantity (Product.mkProduct 1 5 (-4))
        - Product.reservedQuantity (Product.mkProduct 1 5 (-4)))%Z
  /\ ~ (0 <= Product.reservedQuantity (Product.mkProduct 1 5 (-4))
        <= Product.quantity (Product.mkProduct 1 5 (-4)))%Z
  /\ Product.validate (Product.mkProduct 1 5 (-4)) = false.
Proof.
  split; [reflexivity|]. split; [reflexivity|]. split; [reflexivity|].
  split; [cbn; lia|reflexivity].
Qed.

(** ** Orders: the two loops *)

Lemma order_item_body_again (item : Order.IOrderItem) (l l' : Order.Locals) :
  Order.item_body (fst (Order.item_body item l)) l'
  = (fst (Order.item_body item l), snd (Order.item_body item l')).
Proof.
  destruct item as [up q sub [[ty v a]|] [t|] tot];
    try destruct ty; reflexivity.
Qed.

Lemma order_forEach_items_again (its : list Order.IOrderItem)
    (l l' : Order.Locals) :
  Order.forEach_items (fst (Order.forEach_items its l)) l'
  = (fst (Order.forEach_items its l), snd (Order.forEach_items its l')).
Proof.
  revert l l'.
  induction its as [|item rest IH]; intros l l'; cbn [Order.forEach_items].
  - reflexivity.
  - destruct (Order.item_body item l) as [i1 l1] eqn:E1.
    destruct (Order.item_body item l') as [i1' l1'] eqn:E1'.
    destruct (Order.forEach_items rest l1) as [r1 l2] eqn:E2.
    destruct (Order.forEach_items rest l1') as [r1' l2'] eqn:E2'.
    cbn [fst snd Order.forEach_items].
    assert (Hi : Order.item_body i1 l' = (i1, l1')).
    { pose proof (order_item_body_again item l l') as H.
      rewrite E1, E1' in H. exact H. }
    rewrite Hi.
    specialize (IH l1 l1'). rewrite E2, E2' in IH. cbn [fst snd] in IH.
    rewrite IH. reflexivity.
Qed.

Lemma order_forEach_items_length (its : list Order.IOrderItem)
    (l : Order.Locals) :
  List.length (fst (Order.forEach_items its l)) = List.length its.
Proof.
  revert l.
  induction its as [|item rest IH]; intros l; cbn [Order.forEach_items].
  - reflexivity.
  - destruct (Order.item_body item l) as [i1 l1].
    specialize (IH l1).
    destruct (Order.forEach_items rest l1) as [r1 l2].
    cbn [fst List.length] in *. now rewrite IH.
Qed.

(** On items that all carry a discount the local discount total stays a
    number. *)
Lemma order_forEach_items_number (its : list Order.IOrderItem)
    (l : Order.Locals) (q : Q) :
  Forall (fun it => Order.item_discount it <> None) its ->
  Order.l_discountTotal l = Js.Num q ->
  exists q', Order.l_discountTotal (snd (Order.forEach_items its l))
             = Js.Num q'.
Proof.
  intros Hall. revert l q.
  induction Hall as [|item rest Hitem _ IH]; intros l q Hq;
    cbn [Order.forEach_items].
  - exists q. exact Hq.
  - destruct (Order.item_body item l) as [i1 l1] eqn:E1.
    assert (H1 : exists q1, Order.l_discountTotal l1 = Js.Num q1).
    { destruct item as [up n sub [d|] t tot]; [|now elim Hitem].
      unfold Order.item_body in E1; cbn in E1.
      injection E1 as _ <-. cbn. rewrite Hq. cbn. eauto. }
    destruct H1 as [q1 H1].
    destruct (IH l1 q1 H1) as [q' H'].
    destruct (Order.forEach_items rest l1) as [r1 l2].
    exists q'. exact H'.
Qed.

(** On an item without a discount the local discount total is lost, and
    stays lost. *)
Lemma order_forEach_items_NaN_stays (its : list Order.IOrderItem)
    (l : Order.Locals) :
  Order.l_discountTotal l = Js.NaN ->
  Order.l_discountTotal (snd (Order.forEach_items its l)) = Js.NaN.
Proof.
  revert l.
  induction its as [|item rest IH]; intros l Hl; cbn [Order.forEach_items].
  - exact Hl.
  - destruct (Order.item_body item l) as [i1 l1] eqn:E1.
    assert (H1 : Order.l_discountTotal l1 = Js.NaN).
    { destruct item as [up n sub [d|] t tot];
        unfold Order.item_body in E1; cbn in E1;
        injection E1 as _ <-; cbn; [rewrite Hl|]; reflexivity. }
    specialize (IH l1 H1).
    destruct (Order.forEach_items rest l1) as [r1 l2]. exact IH.
Qed.

Lemma order_forEach_items_NaN (its : list Order.IOrderItem)
    (l : Order.Locals) :
  Exists (fun it => Order.item_discount it = None) its ->
  Order.l_discountTotal (snd (Order.forEach_items its l)) = Js.NaN.
Proof.
  intros Hex. revert l.
  induction Hex as [item rest Hitem|item rest _ IH]; intros l;
    cbn [Order.forEach_items];
    destruct (Order.item_body item l) as [i1 l1] eqn:E1.
  - assert (H1 : Order.l_discountTotal l1 = Js.NaN).
    { destruct item as [up n sub [d|] t tot]; [discriminate Hitem|].
      unfold Order.item_body in E1; cbn in E1.
      injection E1 as _ <-. reflexivity. }
    pose proof (order_forEach_items_NaN_stays rest l1 H1) as H.
    destruct (Order.forEach_items rest l1) as [r1 l2]. exact H.
  - specialize (IH l1).
    destruct (Order.forEach_items rest l1) as [r1 l2]. exact IH.
Qed.

Lemma order_forEach_discounts_again (sub : Q) (ds : list Order.Discount)
    (t t' : Q) :
  Order.forEach_discounts sub (fst (Order.forEach_discounts sub ds t)) t'
  = (fst (Order.forEach_discounts sub ds t),
     snd (Order.forEach_discounts sub ds t')).
Proof.
  revert t t'. induction ds as [|d rest IH]; intros t t'; simpl.
  - reflexivity.
  - specialize (IH (t + Order.discountAmount sub d)
                   (t' + Order.discountAmount sub d)).
    destruct (Order.forEach_discounts sub rest
                (t + Order.discountAmount sub d)) as [r1 t1].
    destruct (Order.forEach_discounts sub rest
                (t' + Order.discountAmount sub d)) as [r1' t1'].
    simpl in *.
    replace (Order.discountAmount sub
               (Order.setAmount d (Order.discountAmount sub d)))
      with (Order.discountAmount sub d) by (destruct d as [[] v a]; reflexivity).
    rewrite IH.
    destruct d as [ty v a]; reflexivity.
Qed.

(** A second [calculateTotals] changes nothing on an order whose items all
    carry a discount. *)
Lemma order_calculateTotals_again (o : Order.IOrder) :
  Forall (fun it => Order.item_discount it <> None) (Order.items o) ->
  Order.calculateTotals (Order.calculateTotals o) = Order.calculateTotals o.
Proof.
  intros Hall.
  unfold Order.calculateTotals at 2 3.
  pose proof (order_forEach_items_again (Order.items o)
                (Order.mkLocals 0 0 (Js.Num 0) 0)
                (Order.mkLocals 0 0 (Js.Num 0) 0)) as Hi.
  pose proof (order_forEach_items_length (Order.items o)
                (Order.mkLocals 0 0 (Js.Num 0) 0)) as Hl.
  destruct (order_forEach_items_number (Order.items o)
              (Order.mkLocals 0 0 (Js.Num 0) 0) 0 Hall eq_refl) as [q Hq].
  destruct (Order.forEach_items (Order.items o)
              (Order.mkLocals 0 0 (Js.Num 0) 0))
    as [its l] eqn:E.
  simpl in Hi, Hl, Hq. rewrite Hq. cbn [Js.assign].
  destruct (Order.discounts o) as [ds|] eqn:Ed.
  - pose proof (order_forEach_discounts_again (Order.l_subtotal l) ds
                  q q) as Hd.
    destruct (Order.forEach_discounts (Order.l_subtotal l) ds q)
      as [ds' dt] eqn:E'.
    simpl in Hd.
    unfold Order.calculateTotals; simpl.
    rewrite Hi, Hq, Hl. cbn [Js.assign]. rewrite Hd.
    destruct (Js.le _ 0); [reflexivity|].
    destruct (Js.gt _ 0); reflexivity.
  - unfold Order.calculateTotals; simpl.
    rewrite Hi, Hq, Hl. cbn [Js.assign].
    destruct (Js.le _ 0); [reflexivity|].
    destruct (Js.gt _ 0); reflexivity.
Qed.

(** ** Invoices: the loop over the items *)

Lemma invoice_item_body_again (item : Invoice.IInvoiceItem) (s s' : Q) :
  Invoice.item_body s' (fst (Invoice.item_body s item))
  = (fst (Invoice.item_body s item), snd (Invoice.item_body s' item)).
Proof.
  destruct item as [q up sub [r|] ta tot]; simpl; [|reflexivity].
  unfold Invoice.item_body; simpl.
  destruct (Js.truthy r); reflexivity.
Qed.

Lemma invoice_reduce_items_again (its : list Invoice.IInvoiceItem) (s s' : Q) :
  Invoice.reduce_items (fst (Invoice.reduce_items its s)) s'
  = (fst (Invoice.reduce_items its s), snd (Invoice.reduce_items its s')).
Proof.
  revert s s'.
  induction its as [|item rest IH]; intros s s'; cbn [Invoice.reduce_items].
  - reflexivity.
  - destruct (Invoice.item_body s item) as [i1 s1] eqn:E1.
    destruct (Invoice.item_body s' item) as [i1' s1'] eqn:E1'.
    destruct (Invoice.reduce_items rest s1) as [r1 s2] eqn:E2.
    destruct (Invoice.reduce_items rest s1') as [r1' s2'] eqn:E2'.
    cbn [fst snd Invoice.reduce_items].
    assert (Hi : Invoice.item_body s' i1 = (i1, s1')).
    { pose proof (invoice_item_body_again item s s') as H.
      rewrite E1, E1' in H. exact H. }
    rewrite Hi.
    specialize (IH s1 s1'). rewrite E2, E2' in IH. cbn [fst snd] in IH.
    rewrite IH. reflexivity.
Qed.

Lemma invoice_calculateTotals_again (i : Invoice.IInvoice) :
  Invoice.calculateTotals (Invoice.calculateTotals i)
  = Invoice.calculateTotals i.
Proof.
  unfold Invoice.calculateTotals at 2 3.
  pose proof (invoice_reduce_items_again (Invoice.items i) 0 0) as Hi.
  destruct (Invoice.reduce_items (Invoice.items i) 0) as [its s] eqn:E.
  simpl in Hi.
  unfold Invoice.calculateTotals; simpl.
  rewrite Hi.
  destruct (Invoice.discount i) as [[[] v a]|]; simpl;
    destruct (String.eqb (Invoice.currency i) "EUR"); try reflexivity;
    destruct (Invoice.exchangeRate i) as [x|]; try reflexivity;
    destruct (Js.truthy x); reflexivity.
Qed.

(** C2.  Recomputing totals is not idempotent on an order whose items carry
    no discount.  On the order of scenario B (items of 60 and of 2 times 20
    without discount, a fixed order discount of 10, shipping of 5, stored
    totals 0) the first [calculateTotals] leaves [discountTotal] 10 and
    [total] 95, the second leaves [discountTotal] 20 and [total] 85: the
    local discount total is [NaN], its assignment is refused, and the order
    discount is added to the [discountTotal] the first call stored.  The
    item fields, [subtotal], [taxTotal] and [totalPaid] are the same after
    both calls. *)
Theorem C2_calculateTotals_twice :
  let once := Order.calculateTotals ScenarioItems.orderB in
  let twice := Order.calculateTotals once in
  (Order.discountTotal once == 10 /\ Order.total once == 95
   /\ Order.balanceDue once == 95)
  /\ (Order.discountTotal twice == 20 /\ Order.total twice == 85
      /\ Order.balanceDue twice == 85)
  /\ Order.items twice = Order.items once
  /\ Order.subtotal twice = Order.subtotal once
  /\ Order.taxTotal twice = Order.taxTotal once
  /\ Order.totalPaid twice = Order.totalPaid once
  /\ twice <> once.
Proof.
  cbv zeta.
  split; [|split; [|split; [|split; [|split; [|split]]]]];
    try (vm_compute; tauto); try reflexivity.
  intros H. apply (f_equal Order.discountTotal) in H.
  vm_compute in H. discriminate H.
Qed.

(** ** Payments *)

(** Reading a field of a recomputed order: name the results of the two loops
    and let the projection compute. *)
Ltac order_field o :=
  unfold Order.calculateTotals;
  destruct (Order.forEach_items _ _) as [? ?];
  destruct (Order.discounts o) as [?|];
  [destruct (Order.forEach_discounts _ _ _) as [? ?]|].

Ltac invoice_field :=
  unfold Invoice.calculateTotals;
  destruct (Invoice.reduce_items _ _) as [? ?].

Lemma sumCompleted_spec (ps : list Order.IPayment) :
  Order.sumCompleted ps == sumOf paidContribution ps.
Proof.
  unfold Order.sumCompleted. rewrite fold_left_sum, Qplus_0_l.
  induction ps as [|p rest IH]; cbn [filter sumOf].
  - reflexivity.
  - unfold paidContribution at 1, Order.isCompleted.
    destruct (Order.payment_status p);
      cbn [Order.PaymentStatus_eqb sumOf]; rewrite IH; ring.
Qed.

Lemma order_totalPaid (o : Order.IOrder) :
  Order.totalPaid (Order.calculateTotals o)
  = Order.sumCompleted (Order.payments o).
Proof.
  order_field o; reflexivity.
Qed.

Lemma invoice_paidAmount (i : Invoice.IInvoice) :
  Invoice.paidAmount (Invoice.calculateTotals i)
  = Js.or0 (option_map Invoice.sumPayments (Invoice.payments i)).
Proof.
  invoice_field. reflexivity.
Qed.

(** C3, as amended.  The paid amount of an order is the sum of the amounts of
    its payments whose status is [COMPLETED]; a payment of any other status,
    [REFUNDED] included, adds nothing and subtracts nothing.  The payments of
    an invoice carry no status, and its paid amount is the sum of all of
    them. *)
Theorem C3_paid_amount :
  (forall o : Order.IOrder,
      Order.totalPaid (Order.calculateTotals o)
      == sumOf paidContribution (Order.payments o))
  /\ (forall i : Invoice.IInvoice,
         Invoice.paidAmount (Invoice.calculateTotals i)
         == sumOf Invoice.payment_amount (optList (Invoice.payments i))).
Proof.
  split.
  - intros o. rewrite order_totalPaid. apply sumCompleted_spec.
  - intros i. rewrite invoice_paidAmount, or0_orZero.
    destruct (Invoice.payments i) as [ps|]; simpl; [|reflexivity].
    unfold Invoice.sumPayments. rewrite fold_left_sum. ring.
Qed.

(** C3 as stated fails: with a completed payment of 50 and a refunded one of
    20 the paid amount of the order is 50, not 50 - 20. *)
Lemma C3_refund_not_subtracted :
  Order.totalPaid (Order.calculateTotals Scenario.orderRefund) == 50
  /\ ~ Order.totalPaid (Order.calculateTotals Scenario.orderRefund) == 50 - 20.
Proof.
  split.
  - vm_compute. reflexivity.
  - vm_compute. discriminate.
Qed.

(** ** Payment status *)

Lemma order_paymentStatus (o : Order.IOrder) :
  Order.balanceDue (Order.calculateTotals o)
  = Order.total (Order.calculateTotals o)
    - Order.totalPaid (Order.calculateTotals o)
  /\ Order.paymentStatus (Order.calculateTotals o)
     = if Js.le (Order.balanceDue (Order.calculateTotals o)) 0
       then Order.COMPLETED
       else if Js.gt (Order.totalPaid (Order.calculateTotals o)) 0
            then Order.PARTIALLY_PAID
            else Order.paymentStatus o.
Proof.
  order_field o; split; reflexivity.
Qed.

Lemma invoice_outstandingAmount (i : Invoice.IInvoice) :
  Invoice.outstandingAmount (Invoice.calculateTotals i)
  = Invoice.total (Invoice.calculateTotals i)
    - Invoice.paidAmount (Invoice.calculateTotals i)
  /\ Invoice.status (Invoice.calculateTotals i) = Invoice.status i
  /\ Invoice.dueDate (Invoice.calculateTotals i) = Invoice.dueDate i.
Proof.
  invoice_field. repeat split.
Qed.

Lemma invoice_pre_save_status (now : Z) (i : Invoice.IInvoice) :
  Invoice.pre_save now i
  = Invoice.setStatus (Invoice.calculateTotals i)
      (Invoice.status (Invoice.pre_save now i)).
Proof.
  unfold Invoice.pre_save.
  destruct (Js.le _ 0); [reflexivity|].
  destruct (Js.gt _ 0); [reflexivity|].
  destruct (_ && _); [reflexivity|].
  destruct (Invoice.calculateTotals i); reflexivity.
Qed.

Lemma not_le_of_lt (a b : Q) : a < b -> Js.le b a = false.
Proof.
  intros H. destruct (Js.le b a) eqn:E; [|reflexivity].
  apply le_spec in E. exfalso. exact (Qlt_not_le _ _ H E).
Qed.

Lemma not_gt_of_le (a b : Q) : a <= b -> Js.gt a b = false.
Proof.
  intros H. destruct (Js.gt a b) eqn:E; [|reflexivity].
  apply gt_spec in E. exfalso. exact (Qlt_not_le _ _ E H).
Qed.

(** C4, as amended.  After recomputation the payment status follows from the
    totals in these cases only: a balance due that is zero or negative gives
    [COMPLETED] on an order and [PAID] on an invoice; a positive balance with
    a positive paid amount gives [PARTIALLY_PAID]; on an invoice, a positive
    balance with nothing paid, a due date in the past and a status other than
    [CANCELLED] gives [OVERDUE].  In every other case the status the document
    had before is kept (an order is never marked overdue).  Payments of 30
    and 20 against a total of 50 give a paid amount of 50, a balance of 0,
    and the status [COMPLETED] on the order, [PAID] on the invoice. *)
Theorem C4_status_after_recompute :
  (forall o : Order.IOrder,
      let o' := Order.calculateTotals o in
      Order.balanceDue o' = Order.total o' - Order.totalPaid o'
      /\ (Order.balanceDue o' <= 0 -> Order.paymentStatus o' = Order.COMPLETED)
      /\ (0 < Order.balanceDue o' -> 0 < Order.totalPaid o' ->
          Order.paymentStatus o' = Order.PARTIALLY_PAID)
      /\ (0 < Order.balanceDue o' -> Order.totalPaid o' <= 0 ->
          Order.paymentStatus o' = Order.paymentStatus o))
  /\ (forall (now : Z) (i : Invoice.IInvoice),
         let i' := Invoice.pre_save now i in
         Invoice.outstandingAmount i' = Invoice.total i' - Invoice.paidAmount i'
         /\ (Invoice.outstandingAmount i' <= 0 -> Invoice.status i' = Invoice.PAID)
         /\ (0 < Invoice.outstandingAmount i' -> 0 < Invoice.paidAmount i' ->
             Invoice.status i' = Invoice.PARTIALLY_PAID)
         /\ (0 < Invoice.outstandingAmount i' -> Invoice.paidAmount i' <= 0 ->
             (Invoice.dueDate i < now)%Z ->
             Invoice.status i <> Invoice.CANCELLED ->
             Invoice.status i' = Invoice.OVERDUE)
         /\ (0 < Invoice.outstandingAmount i' -> Invoice.paidAmount i' <= 0 ->
             (now <= Invoice.dueDate i)%Z
             \/ Invoice.status i = Invoice.CANCELLED ->
             Invoice.status i' = Invoice.status i))
  /\ (Order.totalPaid (Order.calculateTotals Scenario.orderC) == 50
      /\ Order.balanceDue (Order.calculateTotals Scenario.orderC) == 0
      /\ Order.paymentStatus (Order.calculateTotals Scenario.orderC)
         = Order.COMPLETED)
  /\ (Invoice.total (Invoice.pre_save 0 Scenario.invoiceC) == 50
      /\ Invoice.paidAmount (Invoice.pre_save 0 Scenario.invoiceC) == 50
      /\ Invoice.outstandingAmount (Invoice.pre_save 0 Scenario.invoiceC) == 0
      /\ Invoice.status (Invoice.pre_save 0 Scenario.invoiceC) = Invoice.PAID).
Proof.
  split; [|split; [|split]].
  - intros o o'. subst o'.
    destruct (order_paymentStatus o) as [Hb Hs].
    split; [exact Hb|]. rewrite Hs. repeat split.
    + intros H. apply le_spec in H. now rewrite H.
    + intros H1 H2. rewrite (not_le_of_lt _ _ H1).
      apply gt_spec in H2. now rewrite H2.
    + intros H1 H2. rewrite (not_le_of_lt _ _ H1).
      now rewrite (not_gt_of_le _ _ H2).
  - intros now i i'. subst i'.
    rewrite (invoice_pre_save_status now i).
    destruct (invoice_outstandingAmount i) as (Ho & Hst & Hd).
    cbn [Invoice.setStatus Invoice.outstandingAmount Invoice.total
           Invoice.paidAmount Invoice.status].
    split; [exact Ho|].
    unfold Invoice.pre_save. rewrite Hst, Hd.
    repeat split.
    + intros H. apply le_spec in H. now rewrite H.
    + intros H1 H2. rewrite (not_le_of_lt _ _ H1).
      apply gt_spec in H2. now rewrite H2.
    + intros H1 H2 H3 H4. rewrite (not_le_of_lt _ _ H1).
      rewrite (not_gt_of_le _ _ H2).
      apply Z.ltb_lt in H3. rewrite H3.
      destruct (Invoice.status i); try reflexivity. congruence.
    + intros H1 H2 H3. rewrite (not_le_of_lt _ _ H1).
      rewrite (not_gt_of_le _ _ H2).
      destruct H3 as [H3|H3].
      * apply Z.ltb_ge in H3. rewrite H3. simpl. exact Hst.
      * rewrite H3, andb_false_r. rewrite <- H3. exact Hst.
  - repeat split; vm_compute; reflexivity.
  - repeat split; vm_compute; reflexivity.
Qed.

Lemma C4_status_after_recompute_witness :
  (0 < Order.balanceDue (Order.calculateTotals Scenario.orderRefund)
   /\ 0 < Order.totalPaid (Order.calculateTotals Scenario.orderRefund))
  /\ Order.paymentStatus (Order.calculateTotals Scenario.orderRefund)
     = Order.PARTIALLY_PAID.
Proof.
  assert (H1 : 0 < Order.balanceDue (Order.calculateTotals Scenario.orderRefund))
    by (vm_compute; reflexivity).
  assert (H2 : 0 < Order.totalPaid (Order.calculateTotals Scenario.orderRefund))
    by (vm_compute; reflexivity).
  split; [split; assumption|].
  exact (proj1 (proj2 (proj2 (proj1 C4_status_after_recompute
                                Scenario.orderRefund))) H1 H2).
Defined.

(** C4 as stated fails: an unpaid order without due date whose payment status
    was [FAILED] keeps it; the status is not brought back to [PENDING]. *)
Lemma C4_status_not_rederived :
  0 < Order.balanceDue (Order.calculateTotals Scenario.orderFailed)
  /\ Order.totalPaid (Order.calculateTotals Scenario.orderFailed) == 0
  /\ Order.dueDate (Order.calculateTotals Scenario.orderFailed) = None
  /\ Order.paymentStatus (Order.calculateTotals Scenario.orderFailed)
     <> Order.PENDING.
Proof.
  repeat split; vm_compute; discriminate.
Qed.

(** ** Line items *)

Lemma order_item_body_computed (it : Order.IOrderItem) (l : Order.Locals) :
  orderItemComputed it (fst (Order.item_body it l)).
Proof.
  unfold orderItemComputed, itemDiscount, itemTax.
  destruct it as [up q sub [[ty v a]|] tax tot];
    cbn [Order.item_body fst Order.unitPrice Order.quantity Order.item_tax
           Order.item_subtotal Order.item_discount Order.item_total
           Order.setAmount Order.discount_type Order.discount_value
           Order.discount_amount option_map orZero];
    repeat split; try reflexivity.
  - unfold Order.discountAmount, discountOn; destruct ty; simpl;
      try reflexivity.
    field.
  - rewrite !or0_orZero. reflexivity.
  - rewrite !or0_orZero. reflexivity.
Qed.

Lemma order_forEach_items_computed (its : list Order.IOrderItem)
    (l : Order.Locals) :
  Forall2 orderItemComputed its (fst (Order.forEach_items its l)).
Proof.
  revert l.
  induction its as [|it rest IH]; intros l; cbn [Order.forEach_items].
  - constructor.
  - pose proof (order_item_body_computed it l) as Hit.
    destruct (Order.item_body it l) as [i1 l1].
    specialize (IH l1).
    destruct (Order.forEach_items rest l1) as [r1 l2].
    constructor; assumption.
Qed.

Lemma order_items (o : Order.IOrder) :
  Order.items (Order.calculateTotals o)
  = fst (Order.forEach_items (Order.items o) (Order.mkLocals 0 0 (Js.Num 0) 0)).
Proof.
  order_field o; reflexivity.
Qed.

Lemma invoice_item_body_computed (it : Invoice.IInvoiceItem) (s : Q) :
  invoiceItemComputed it (fst (Invoice.item_body s it)).
Proof.
  unfold invoiceItemComputed, invoiceItemTax.
  destruct it as [q up sub [r|] ta tot];
    cbn [Invoice.item_body fst Invoice.unitPrice Invoice.quantity
           Invoice.taxRate Invoice.item_subtotal Invoice.taxAmount
           Invoice.item_total];
    repeat split; try reflexivity.
  - intros Hr. apply truthy_spec in Hr. rewrite Hr.
    eexists. split; [reflexivity|]. field.
  - intros Hr. destruct (Js.truthy r) eqn:E; [|reflexivity].
    apply truthy_spec in E. contradiction.
  - rewrite or0_orZero. reflexivity.
  - rewrite or0_orZero. reflexivity.
Qed.

Lemma invoice_reduce_items_computed (its : list Invoice.IInvoiceItem) (s : Q) :
  Forall2 invoiceItemComputed its (fst (Invoice.reduce_items its s)).
Proof.
  revert s.
  induction its as [|it rest IH]; intros s; cbn [Invoice.reduce_items].
  - constructor.
  - pose proof (invoice_item_body_computed it s) as Hit.
    destruct (Invoice.item_body s it) as [i1 s1].
    specialize (IH s1).
    destruct (Invoice.reduce_items rest s1) as [r1 s2].
    constructor; assumption.
Qed.

Lemma invoice_items (i : Invoice.IInvoice) :
  Invoice.items (Invoice.calculateTotals i)
  = fst (Invoice.reduce_items (Invoice.items i) 0).
Proof.
  invoice_field. reflexivity.
Qed.

(** C5, as amended.  On every line item of an order the calculator sets
    subtotal = unitPrice * quantity; the discount amount is
    subtotal * value / 100 for a [PERCENTAGE] discount and the value itself,
    without a cap, for any other type; the tax of the item is a stored amount
    that is read, not computed from a rate; and
    total = subtotal - discountAmount + tax.  On every line item of an
    invoice, which has no discount, subtotal = quantity * unitPrice, the tax
    amount is subtotal * taxRate / 100 when the rate is set and not zero (and
    is left as stored otherwise), and total = subtotal + taxAmount.  In
    particular the order item with unit price 25, quantity 2, a discount of
    10 percent and a stored tax of 8.55 gets subtotal 50, discount amount 5
    and total 53.55, and the invoice item with quantity 2, unit price 25 and
    tax rate 19 gets subtotal 50, tax amount 9.5 and total 59.5. *)
Theorem C5_line_items :
  (forall o : Order.IOrder,
      Forall2 orderItemComputed
        (Order.items o) (Order.items (Order.calculateTotals o)))
  /\ (forall i : Invoice.IInvoice,
         Forall2 invoiceItemComputed
           (Invoice.items i) (Invoice.items (Invoice.calculateTotals i)))
  /\ (exists it,
         Order.items (Order.calculateTotals ScenarioItems.orderA) = [it]
         /\ Order.item_subtotal it == 50
         /\ itemDiscount it == 5
         /\ itemTax it == 855 # 100
         /\ Order.item_total it == 5355 # 100)
  /\ (exists it,
         Invoice.items (Invoice.calculateTotals ScenarioItems.invoiceA) = [it]
         /\ Invoice.item_subtotal it == 50
         /\ invoiceItemTax it == 95 # 10
         /\ Invoice.item_total it == 595 # 10).
Proof.
  split; [|split; [|split]].
  - intros o. rewrite order_items. apply order_forEach_items_computed.
  - intros i. rewrite invoice_items. apply invoice_reduce_items_computed.
  - eexists. split; [vm_compute; reflexivity|].
    repeat split; vm_compute; reflexivity.
  - eexists. split; [vm_compute; reflexivity|].
    repeat split; vm_compute; reflexivity.
Qed.

(** C5 as stated fails: a fixed discount of 100 on an item worth 50 is taken
    in full, so the discount amount exceeds the subtotal and the total of the
    item is negative. *)
Lemma C5_fixed_discount_not_capped :
  exists it,
    Order.items (Order.calculateTotals ScenarioItems.orderFixed) = [it]
    /\ Order.item_subtotal it == 50
    /\ ~ itemDiscount it <= Order.item_subtotal it
    /\ Order.item_total it < 0.
Proof.
  eexists. split; [vm_compute; reflexivity|].
  repeat split; vm_compute; congruence.
Qed.

(** ** Totals of a document *)

Lemma order_item_body_locals (it : Order.IOrderItem) (l : Order.Locals) :
  let it' := fst (Order.item_body it l) in
  let l' := snd (Order.item_body it l) in
  Order.l_subtotal l' == Order.l_subtotal l + Order.item_subtotal it'
  /\ Order.l_taxTotal l' == Order.l_taxTotal l + itemTax it'
  /\ (Order.item_discount it <> None ->
      Order.l_discountTotal l'
      = Js.add (Order.l_discountTotal l) (itemDiscount it')).
Proof.
  unfold itemDiscount, itemTax.
  destruct it as [up q sub [[ty v a]|] [t|] tot]; simpl;
    repeat split; try reflexivity; try ring; try (intros H; now elim H).
  - destruct (Js.truthy t) eqn:E; [reflexivity|].
    unfold Js.truthy in E. apply negb_false_iff, Qeq_bool_iff in E.
    rewrite E. ring.
  - destruct (Js.truthy t) eqn:E; [reflexivity|].
    unfold Js.truthy in E. apply negb_false_iff, Qeq_bool_iff in E.
    rewrite E. ring.
Qed.

Lemma order_forEach_items_locals (its : list Order.IOrderItem)
    (l : Order.Locals) :
  let its' := fst (Order.forEach_items its l) in
  let l' := snd (Order.forEach_items its l) in
  Order.l_subtotal l' == Order.l_subtotal l + sumOf Order.item_subtotal its'
  /\ Order.l_taxTotal l' == Order.l_taxTotal l + sumOf itemTax its'.
Proof.
  revert l.
  induction its as [|it rest IH]; intros l; cbn [Order.forEach_items].
  - cbn. repeat split; ring.
  - pose proof (order_item_body_locals it l) as Hit.
    destruct (Order.item_body it l) as [i1 l1].
    specialize (IH l1).
    destruct (Order.forEach_items rest l1) as [r1 l2].
    cbn [fst snd sumOf] in *.
    destruct Hit as (H1 & H3 & _). destruct IH as (I1 & I3).
    rewrite I1, I3, H1, H3. repeat split; ring.
Qed.

(** On items that all carry a discount the local discount total is the sum
    of their discount amounts. *)
Lemma order_forEach_items_discounts (its : list Order.IOrderItem)
    (l : Order.Locals) (q : Q) :
  Forall (fun it => Order.item_discount it <> None) its ->
  Order.l_discountTotal l = Js.Num q ->
  exists q',
    Order.l_discountTotal (snd (Order.forEach_items its l)) = Js.Num q'
    /\ q' == q + sumOf itemDiscount (fst (Order.forEach_items its l)).
Proof.
  intros Hall. revert l q.
  induction Hall as [|it rest Hit _ IH]; intros l q Hq;
    cbn [Order.forEach_items].
  - exists q. split; [exact Hq|]. cbn. ring.
  - pose proof (order_item_body_locals it l) as Hb.
    destruct (Order.item_body it l) as [i1 l1].
    cbn [fst snd] in Hb. destruct Hb as (_ & _ & Hd).
    specialize (Hd Hit). rewrite Hq in Hd. cbn [Js.add] in Hd.
    destruct (IH l1 _ Hd) as (q' & H1 & H2).
    destruct (Order.forEach_items rest l1) as [r1 l2].
    cbn [fst snd sumOf] in *.
    exists q'. split; [exact H1|]. rewrite H2. ring.
Qed.

Lemma order_forEach_discounts_total (sub : Q) (ds : list Order.Discount)
    (t : Q) :
  let ds' := fst (Order.forEach_discounts sub ds t) in
  snd (Order.forEach_discounts sub ds t) == t + sumOf Order.discount_amount ds'
  /\ Forall (fun d => Order.discount_amount d == discountOn sub d) ds'.
Proof.
  revert t.
  induction ds as [|d rest IH]; intros t; cbn [Order.forEach_discounts].
  - cbn. split; [ring|constructor].
  - specialize (IH (t + Order.discountAmount sub d)).
    destruct (Order.forEach_discounts sub rest _) as [r1 t1].
    cbn [fst snd sumOf] in *. destruct IH as [I1 I2]. split.
    + rewrite I1. destruct d as [ty v a]; simpl. ring.
    + constructor; [|exact I2].
      destruct d as [[] v a]; unfold discountOn, Order.discountAmount; simpl;
        try reflexivity.
      field.
Qed.

(** What [calculateTotals] leaves on every order: the subtotal and the tax
    total are the sums over the items, an order discount is taken on the
    subtotal, and the total is put together from the stored totals. *)
Lemma order_total (o : Order.IOrder) :
  let o' := Order.calculateTotals o in
  Order.total o'
  == Order.subtotal o' - Order.discountTotal o' + Order.taxTotal o'
     + Order.shippingCost o' + orZero (Order.handlingFee o')
  /\ Order.subtotal o' == sumOf Order.item_subtotal (Order.items o')
  /\ Order.taxTotal o' == sumOf itemTax (Order.items o')
  /\ Forall (fun d => Order.discount_amount d == discountOn (Order.subtotal o') d)
       (optList (Order.discounts o')).
Proof.
  unfold Order.calculateTotals.
  pose proof (order_forEach_items_locals (Order.items o)
                (Order.mkLocals 0 0 (Js.Num 0) 0)) as Hl.
  destruct (Order.forEach_items _ _) as [its l].
  cbn [fst snd Order.l_subtotal Order.l_discountTotal Order.l_taxTotal] in Hl.
  destruct Hl as (H1 & H3).
  destruct (Order.discounts o) as [ds|].
  - pose proof (order_forEach_discounts_total (Order.l_subtotal l) ds
                  (Js.assign (Order.discountTotal o)
                     (Order.l_discountTotal l))) as Hd.
    destruct (Order.forEach_discounts _ _ _) as [ds' dt].
    cbn [fst snd] in Hd. destruct Hd as [D1 D2].
    cbn [Order.total Order.items Order.discounts Order.shippingCost
           Order.handlingFee Order.subtotal Order.taxTotal
           Order.discountTotal optList].
    rewrite or0_orZero, H1, H3. repeat split; try ring.
    exact D2.
  - cbn [Order.total Order.items Order.discounts Order.shippingCost
           Order.handlingFee Order.subtotal Order.taxTotal
           Order.discountTotal optList sumOf].
    rewrite or0_orZero, H1, H3. repeat split; try ring. constructor.
Qed.

(** The discount total [calculateTotals] leaves: recomputed from the items
    and the order discounts when every item carries a discount; the order
    discounts added to the discount total the order held when an item
    carries none. *)
Lemma order_discountTotal (o : Order.IOrder) :
  let o' := Order.calculateTotals o in
  (Forall (fun it => Order.item_discount it <> None) (Order.items o) ->
   Order.discountTotal o'
   == sumOf itemDiscount (Order.items o')
      + sumOf Order.discount_amount (optList (Order.discounts o')))
  /\ (Exists (fun it => Order.item_discount it = None) (Order.items o) ->
      Order.discountTotal o'
      == Order.discountTotal o
         + sumOf Order.discount_amount (optList (Order.discounts o'))).
Proof.
  unfold Order.calculateTotals.
  pose proof (order_forEach_items_discounts (Order.items o)
                (Order.mkLocals 0 0 (Js.Num 0) 0) 0) as Hnum.
  pose proof (order_forEach_items_NaN (Order.items o)
                (Order.mkLocals 0 0 (Js.Num 0) 0)) as Hnan.
  destruct (Order.forEach_items _ _) as [its l].
  cbn [fst snd] in Hnum, Hnan.
  assert (Hd : forall t : Q,
             let '(discounts', discountTotal') :=
               match Order.discounts o with
               | Some ds =>
                   let '(ds', dt) :=
                     Order.forEach_discounts (Order.l_subtotal l) ds t in
                   (Some ds', dt)
               | None => (None, t)
               end in
             discountTotal'
             == t + sumOf Order.discount_amount (optList discounts')).
  { intros t. destruct (Order.discounts o) as [ds|].
    - pose proof (order_forEach_discounts_total (Order.l_subtotal l) ds t)
        as [D1 _].
      destruct (Order.forEach_discounts _ _ _) as [ds' dt].
      cbn [fst snd optList] in *. exact D1.
    - cbn. ring. }
  split.
  - intros Hall. destruct (Hnum Hall eq_refl) as (q & Hq & Hsum).
    rewrite Hq. cbn [Js.assign]. specialize (Hd q).
    destruct (match Order.discounts o with Some _ => _ | None => _ end)
      as [discounts' discountTotal'].
    cbn [Order.discountTotal Order.items Order.discounts].
    rewrite Hd, Hsum. ring.
  - intros Hex. rewrite (Hnan Hex). cbn [Js.assign].
    specialize (Hd (Order.discountTotal o)).
    destruct (match Order.discounts o with Some _ => _ | None => _ end)
      as [discounts' discountTotal'].
    cbn [Order.discountTotal Order.items Order.discounts].
    exact Hd.
Qed.

Lemma invoice_reduce_items_sum (its : list Invoice.IInvoiceItem) (s : Q) :
  snd (Invoice.reduce_items its s)
  == s + sumOf Invoice.item_subtotal (fst (Invoice.reduce_items its s)).
Proof.
  revert s.
  induction its as [|it rest IH]; intros s; cbn [Invoice.reduce_items].
  - cbn. ring.
  - destruct (Invoice.item_body s it) as [i1 s1] eqn:E.
    specialize (IH s1).
    destruct (Invoice.reduce_items rest s1) as [r1 s2].
    cbn [fst snd sumOf] in *. rewrite IH.
    unfold Invoice.item_body in E. injection E as <- <-.
    cbn [Invoice.item_subtotal]. ring.
Qed.

Lemma invoice_sumTax (its : list Invoice.IInvoiceItem) :
  Invoice.sumTax its == sumOf invoiceItemTax its.
Proof.
  unfold Invoice.sumTax. rewrite fold_left_sum, Qplus_0_l.
  induction its as [|it rest IH]; cbn [sumOf]; [reflexivity|].
  rewrite IH. unfold invoiceItemTax at 2. rewrite or0_orZero. reflexivity.
Qed.

(** What [calculateTotals] leaves on every invoice: the subtotal and the tax
    total are the sums over the items; with a discount its amount is
    computed and the total is put together; without one the total is the
    total the invoice held. *)
Lemma invoice_total (i : Invoice.IInvoice) :
  let i' := Invoice.calculateTotals i in
  Invoice.subtotal i' == sumOf Invoice.item_subtotal (Invoice.items i')
  /\ Invoice.totalTax i' == sumOf invoiceItemTax (Invoice.items i')
  /\ match Invoice.discount i with
     | Some d0 =>
         exists d,
           Invoice.discount i' = Some d
           /\ Invoice.discount_amount d
              == match Invoice.discount_type d with
                 | Invoice.PERCENTAGE =>
                     Invoice.subtotal i' * Invoice.discount_value d / 100
                 | Invoice.FIXED => Invoice.discount_value d
                 end
           /\ Invoice.total i'
              == Invoice.subtotal i' + Invoice.totalTax i'
                 - Invoice.discount_amount d
                 + orZero (Invoice.shippingCost i')
                 + orZero (Invoice.otherCharges i')
     | None =>
         Invoice.discount i' = None /\ Invoice.total i' = Invoice.total i
     end.
Proof.
  unfold Invoice.calculateTotals.
  pose proof (invoice_reduce_items_sum (Invoice.items i) 0) as Hs.
  destruct (Invoice.reduce_items _ _) as [its s].
  cbn [fst snd] in Hs.
  pose proof (invoice_sumTax its) as Ht.
  cbn [Invoice.total Invoice.items Invoice.discount Invoice.shippingCost
         Invoice.otherCharges Invoice.subtotal Invoice.totalTax].
  split; [rewrite Hs; ring|]. split; [exact Ht|].
  destruct (Invoice.discount i) as [[[] v a]|];
    cbn [Invoice.discountAmount Js.assign Invoice.discount_type
           Invoice.discount_value].
  - eexists. split; [reflexivity|].
    cbn [Invoice.discount_amount Invoice.discount_type
           Invoice.discount_value].
    rewrite !or0_orZero. split; [field|reflexivity].
  - eexists. split; [reflexivity|].
    cbn [Invoice.discount_amount Invoice.discount_type
           Invoice.discount_value].
    rewrite !or0_orZero. split; reflexivity.
  - split; reflexivity.
Qed.

(** C6.  The total of a recomputed document is not always put together from
    its items, discounts, tax, shipping and handling.  The order of
    scenario B (items worth 100 without discount, a fixed order discount of
    10, shipping of 5), once its totals have been computed and stored, is
    given a total of 85 by the next [calculateTotals], where the sum of the
    claim is 95: the discount total of the items is [NaN], its assignment is
    refused, and the order discount is added to the stored discount total.
    The invoice of scenario A (2 items of 25 at a tax rate of 19, no
    discount, shipping and other charges unset, stored total 0) keeps the
    total 0, where the sum of the claim is 59.5: without a discount the sum
    is [NaN] and its assignment is refused. *)
Theorem C6_total_not_recomputed :
  (let o := Order.calculateTotals ScenarioItems.orderB in
   let o' := Order.calculateTotals o in
   Order.total o == 95
   /\ sumOf Order.item_subtotal (Order.items o')
      - sumOf itemDiscount (Order.items o')
      - sumOf Order.discount_amount (optList (Order.discounts o'))
      + sumOf itemTax (Order.items o')
      + Order.shippingCost o' + orZero (Order.handlingFee o') == 95
   /\ Order.total o' == 85)
  /\ (let i' := Invoice.calculateTotals ScenarioItems.invoiceA in
      sumOf Invoice.item_subtotal (Invoice.items i')
      - orZero (option_map Invoice.discount_amount (Invoice.discount i'))
      + sumOf invoiceItemTax (Invoice.items i')
      + orZero (Invoice.shippingCost i')
      + orZero (Invoice.otherCharges i') == 595 # 10
      /\ Invoice.total i' == 0).
Proof.
  cbv zeta. split; [split; [|split]|split]; vm_compute; reflexivity.
Qed.

(** ** Exchange rates *)

Lemma later_scan (l : list Expense.IExchangeRate)
    (b : option Expense.IExchangeRate) :
  match fold_left Expense.later l b with
  | Some r =>
      (In r l \/ b = Some r)
      /\ (forall r', In r' l -> (Expense.date r' <= Expense.date r)%Z)
      /\ (forall b0, b = Some b0 -> (Expense.date b0 <= Expense.date r)%Z)
  | None => l = [] /\ b = None
  end.
Proof.
  revert b. induction l as [|x l IH]; intros b; cbn [fold_left].
  - destruct b as [b0|]; [|split; reflexivity].
    split; [right; reflexivity|]. split; [intros r' []|].
    intros b1 H. injection H as <-. lia.
  - specialize (IH (Expense.later b x)).
    destruct (fold_left Expense.later l (Expense.later b x)) as [r|].
    + destruct IH as (Hin & Hmax & Hb).
      assert (Hx : (Expense.date x <= Expense.date r)%Z).
      { destruct b as [b0|]; cbn [Expense.later] in Hb.
        - destruct (Expense.date b0 <? Expense.date x)%Z eqn:E.
          + apply (Hb x eq_refl).
          + apply Z.ltb_ge in E. specialize (Hb b0 eq_refl). lia.
        - apply (Hb x eq_refl). }
      split; [|split].
      * destruct Hin as [Hin|Hin]; [left; right; exact Hin|].
        destruct b as [b0|]; cbn [Expense.later] in Hin.
        -- destruct (Expense.date b0 <? Expense.date x)%Z;
             injection Hin as <-; [left; left; reflexivity|right; reflexivity].
        -- injection Hin as <-. left; left; reflexivity.
      * intros r' [<-|Hr']; [exact Hx|apply Hmax, Hr'].
      * intros b0 ->. cbn [Expense.later] in Hb.
        destruct (Expense.date b0 <? Expense.date x)%Z eqn:E.
        -- apply Z.ltb_lt in E. lia.
        -- apply (Hb b0 eq_refl).
    + destruct IH as [_ Hb]. destruct b as [b0|]; cbn [Expense.later] in Hb.
      * destruct (Expense.date b0 <? Expense.date x)%Z; discriminate.
      * discriminate.
Qed.

Lemma selected_spec (cur : string) (asOf : Z) (r : Expense.IExchangeRate) :
  Expense.selected cur asOf r = true
  <-> Expense.fromCurrency r = cur
      /\ Expense.toCurrency r = "EUR"%string
      /\ (Expense.date r <= asOf)%Z
      /\ Expense.isActive r = true.
Proof.
  unfold Expense.selected.
  rewrite !andb_true_iff, !String.eqb_eq, Z.leb_le. tauto.
Qed.

Lemma findOne_spec (store : list Expense.IExchangeRate) (cur : string)
    (asOf : Z) :
  match Expense.findOne store cur asOf with
  | Some r =>
      In r store
      /\ Expense.selected cur asOf r = true
      /\ (forall r', In r' store -> Expense.selected cur asOf r' = true ->
                     (Expense.date r' <= Expense.date r)%Z)
  | None =>
      forall r', In r' store -> Expense.selected cur asOf r' = false
  end.
Proof.
  unfold Expense.findOne.
  pose proof (later_scan (filter (Expense.selected cur asOf) store) None) as H.
  destruct (fold_left Expense.later _ None) as [r|].
  - destruct H as ([Hin|Hin] & Hmax & _); [|discriminate].
    apply filter_In in Hin. destruct Hin as [Hin Hsel].
    repeat split; try assumption.
    intros r' Hr' Hs. apply Hmax, filter_In. split; assumption.
  - destruct H as [Hnil _]. intros r' Hr'.
    destruct (Expense.selected cur asOf r') eqn:E; [|reflexivity].
    assert (Hin : In r' (filter (Expense.selected cur asOf) store))
      by (apply filter_In; split; assumption).
    rewrite Hnil in Hin. destruct Hin.
Qed.

Lemma selected_withValidity (cur : string) (asOf : Z)
    (from : Expense.IExchangeRate -> Z)
    (to : Expense.IExchangeRate -> option Z) (l : list Expense.IExchangeRate) :
  filter (Expense.selected cur asOf)
    (map (fun r => ScenarioRates.withValidity r (from r) (to r)) l)
  = map (fun r => ScenarioRates.withValidity r (from r) (to r))
      (filter (Expense.selected cur asOf) l).
Proof.
  induction l as [|r l IH]; cbn [map filter]; [reflexivity|].
  change (Expense.selected cur asOf
            (ScenarioRates.withValidity r (from r) (to r)))
    with (Expense.selected cur asOf r).
  destruct (Expense.selected cur asOf r); cbn [map]; now rewrite IH.
Qed.

Lemma later_withValidity (from : Expense.IExchangeRate -> Z)
    (to : Expense.IExchangeRate -> option Z) (l : list Expense.IExchangeRate)
    (b : option Expense.IExchangeRate) :
  fold_left Expense.later
    (map (fun r => ScenarioRates.withValidity r (from r) (to r)) l)
    (option_map (fun r => ScenarioRates.withValidity r (from r) (to r)) b)
  = option_map (fun r => ScenarioRates.withValidity r (from r) (to r))
      (fold_left Expense.later l b).
Proof.
  revert b. induction l as [|r l IH]; intros b; cbn [map fold_left].
  - reflexivity.
  - rewrite <- IH. f_equal.
    destruct b as [b0|]; cbn [option_map Expense.later]; [|reflexivity].
    change (Expense.date (ScenarioRates.withValidity b0 (from b0) (to b0)))
      with (Expense.date b0).
    change (Expense.date (ScenarioRates.withValidity r (from r) (to r)))
      with (Expense.date r).
    destruct (Expense.date b0 <? Expense.date r)%Z; reflexivity.
Qed.

Lemma findOne_withValidity (from : Expense.IExchangeRate -> Z)
    (to : Expense.IExchangeRate -> option Z)
    (store : list Expense.IExchangeRate) (cur : string) (asOf : Z) :
  Expense.findOne
    (map (fun r => ScenarioRates.withValidity r (from r) (to r)) store)
    cur asOf
  = option_map (fun r => ScenarioRates.withValidity r (from r) (to r))
      (Expense.findOne store cur asOf).
Proof.
  unfold Expense.findOne. rewrite selected_withValidity.
  exact (later_withValidity from to _ None).
Qed.

Lemma pre_save_withValidity (from : Expense.IExchangeRate -> Z)
    (to : Expense.IExchangeRate -> option Z)
    (store : list Expense.IExchangeRate) (e : Expense.IExpense) :
  Expense.pre_save
    (map (fun r => ScenarioRates.withValidity r (from r) (to r)) store) e
  = Expense.pre_save store e.
Proof.
  unfold Expense.pre_save. rewrite findOne_withValidity.
  destruct (Expense.findOne store _ _) as [r|]; reflexivity.
Qed.

(** C7, as amended.  A save of an expense is rejected by validation when its
    amount is negative or its amount in euro is not set, before any
    conversion; no other failure is raised.  A save that goes through
    converts with the active rate from the expense's currency to EUR whose
    quotation [date] is the latest one not after the expense date, and the
    amount in euro is the amount divided by that rate (for a rate other
    than 0).  When the store holds no such rate the expense is stored as it
    was handed in.  An expense already in EUR gets its own amount.
    [validFrom] and [validTo] play no part: with any other validity
    intervals on the stored rates the save gives the same expense. *)
Theorem C7_expense_conversion (store : list Expense.IExchangeRate)
    (e : Expense.IExpense) :
  (Expense.save store e = None
   <-> (Expense.amount e < 0 \/ Expense.amountInEuro e = None))
  /\ (forall e' : Expense.IExpense,
         Expense.save store e = Some e' ->
         (Expense.currency e = "EUR"%string ->
          Expense.amountInEuro e' = Some (Js.Finite (Expense.amount e)))
         /\ (Expense.currency e <> "EUR"%string ->
             ((exists r0,
                  In r0 store
                  /\ Expense.fromCurrency r0 = Expense.currency e
                  /\ Expense.toCurrency r0 = "EUR"%string
                  /\ (Expense.date r0 <= Expense.expenseDate e)%Z
                  /\ Expense.isActive r0 = true) ->
              exists r,
                In r store
                /\ Expense.fromCurrency r = Expense.currency e
                /\ Expense.toCurrency r = "EUR"%string
                /\ (Expense.date r <= Expense.expenseDate e)%Z
                /\ Expense.isActive r = true
                /\ (forall r',
                       In r' store ->
                       Expense.fromCurrency r' = Expense.currency e ->
                       Expense.toCurrency r' = "EUR"%string ->
                       (Expense.date r' <= Expense.expenseDate e)%Z ->
                       Expense.isActive r' = true ->
                       (Expense.date r' <= Expense.date r)%Z)
                /\ (~ Expense.rate r == 0 ->
                    Expense.amountInEuro e'
                    = Some (Js.Finite (Expense.amount e / Expense.rate r))))
             /\ ((forall r0,
                     In r0 store ->
                     ~ (Expense.fromCurrency r0 = Expense.currency e
                        /\ Expense.toCurrency r0 = "EUR"%string
                        /\ (Expense.date r0 <= Expense.expenseDate e)%Z
                        /\ Expense.isActive r0 = true)) ->
                 e' = e))
         /\ (forall (from : Expense.IExchangeRate -> Z)
                    (to : Expense.IExchangeRate -> option Z),
                Expense.save
                  (map (fun r => ScenarioRates.withValidity r (from r) (to r))
                     store) e
                = Some e')).
Proof.
  split.
  - unfold Expense.save, Expense.validate.
    destruct (Qle_bool 0 (Expense.amount e)) eqn:Ea; cbn [andb].
    + apply Qle_bool_iff in Ea.
      destruct (Expense.amountInEuro e) as [v|]; split;
        try discriminate; try (intros _; reflexivity).
      * intros [H|H]; [|discriminate H].
        exfalso. exact (Qlt_not_le _ _ H Ea).
      * intros _. right. reflexivity.
    + split; [|reflexivity]. intros _. left.
      apply Qnot_le_lt. intros H. apply Qle_bool_iff in H. congruence.
  - intros e' Hs. unfold Expense.save in Hs.
    destruct (Expense.validate e) eqn:Ev; [|discriminate Hs].
    injection Hs as <-.
    split; [|split].
    + intros H. unfold Expense.pre_save.
      apply String.eqb_eq in H. rewrite H. reflexivity.
    + intros H. unfold Expense.pre_save.
      apply String.eqb_neq in H. rewrite H. cbn [negb].
      pose proof (findOne_spec store (Expense.currency e)
                    (Expense.expenseDate e)) as Hf.
      destruct (Expense.findOne store _ _) as [r|].
      * destruct Hf as (Hin & Hsel & Hmax).
        apply selected_spec in Hsel. destruct Hsel as (H1 & H2 & H3 & H4).
        split.
        -- intros _. exists r.
           split; [exact Hin|]. split; [exact H1|]. split; [exact H2|].
           split; [exact H3|]. split; [exact H4|]. split.
           ++ intros r' I' F' T' D' A'. apply (Hmax r' I').
              apply selected_spec. tauto.
           ++ intros Hr. unfold Js.div.
              destruct (Qeq_bool (Expense.rate r) 0) eqn:E;
                [|reflexivity].
              apply Qeq_bool_iff in E. contradiction.
        -- intros Hnone. exfalso. apply (Hnone r Hin). tauto.
      * split; [|reflexivity].
        intros (r0 & I0 & F0 & T0 & D0 & A0). exfalso.
        assert (S0 : Expense.selected (Expense.currency e)
                       (Expense.expenseDate e) r0 = true)
          by (apply selected_spec; tauto).
        rewrite (Hf r0 I0) in S0. discriminate S0.
    + intros from to. unfold Expense.save.
      now rewrite Ev, pre_save_withValidity.
Qed.

Lemma C7_expense_conversion_witness :
  Expense.save [ScenarioRates.usdRate] ScenarioRates.expenseFilled
  = Some (Expense.mkExpense 100 "USD" (Some (Js.Finite (100 / 2))) 30)
  /\ Expense.save
       [ScenarioRates.withValidity ScenarioRates.usdRate 0 None]
       ScenarioRates.expenseFilled
     = Some (Expense.mkExpense 100 "USD" (Some (Js.Finite (100 / 2))) 30).
Proof.
  split; [reflexivity|].
  exact (proj2 (proj2 (proj2 (C7_expense_conversion [ScenarioRates.usdRate]
                                ScenarioRates.expenseFilled)
                         _ eq_refl))
           (fun _ => 0%Z) (fun _ => None)).
Defined.

(** C7 as stated fails: the only rate from USD to EUR stopped being valid at
    20, the expense of 100 USD is dated 30, and the save goes through and
    converts with that rate all the same, to 50; with no rate at all the
    save goes through as well and stores the expense as it was handed in. *)
Lemma C7_expired_rate_is_used :
  Expense.validTo ScenarioRates.usdRate = Some 20%Z
  /\ (20 < Expense.expenseDate ScenarioRates.expenseFilled)%Z
  /\ (exists q,
         Expense.save [ScenarioRates.usdRate] ScenarioRates.expenseFilled
         = Some (Expense.mkExpense 100 "USD" (Some (Js.Finite q)) 30)
         /\ q == 50)
  /\ Expense.save [] ScenarioRates.expenseFilled
     = Some ScenarioRates.expenseFilled.
Proof.
  split; [reflexivity|]. split; [reflexivity|]. split; [|reflexivity].
  exists (100 / 2). split; reflexivity.
Qed.

(** ** Batches *)

Lemma truthy_false (x : Q) : x == 0 -> Js.truthy x = false.
Proof.
  intros H. destruct (Js.truthy x) eqn:E; [|reflexivity].
  apply truthy_spec in E. contradiction.
Qed.

(** C8, as amended.  For every batch whose purchase price is not zero,
    [totalCost] is the sum of [purchasePrice], [shippingCost], [customsDuty]
    and [otherCosts], an absent cost counting for nothing, in the figures as
    entered: the currency of the batch, its euro equivalent and its order
    date play no part.  The cost per unit is computed for a batch measured
    in KG only, as [costPerKg = totalCost / receivedQuantity], and only when
    the received quantity is set and not zero; in every other case
    [costPerKg] is left as it was.  A purchase price of 1000 plus shipping
    of 100 over 500 KG received gives a cost of 2.20 per KG. *)
Theorem C8_batch_cost (b : Batch.IBatch) :
  let cost :=
    Batch.purchasePrice b + orZero (Batch.shippingCost b)
    + orZero (Batch.customsDuty b) + orZero (Batch.otherCosts b) in
  (~ Batch.purchasePrice b == 0 ->
   exists tc, Batch.totalCost (Batch.pre_save b) = Some tc /\ tc == cost)
  /\ (forall rq,
         ~ Batch.purchasePrice b == 0 ->
         Batch.receivedQuantity b = Some rq -> ~ rq == 0 ->
         Batch.unit b = Batch.KG ->
         exists c, Batch.costPerKg (Batch.pre_save b) = Some c
                   /\ c == cost / rq)
  /\ (Batch.purchasePrice b == 0
      \/ Batch.receivedQuantity b = None
      \/ (exists rq, Batch.receivedQuantity b = Some rq /\ rq == 0)
      \/ Batch.unit b <> Batch.KG ->
      Batch.costPerKg (Batch.pre_save b) = Batch.costPerKg b)
  /\ (forall (cur : string) (euro : Q) (ordered : Z),
         Batch.totalCost
           (Batch.pre_save (ScenarioBatch.withCurrency b cur euro ordered))
         = Batch.totalCost (Batch.pre_save b)
         /\ Batch.costPerKg
              (Batch.pre_save (ScenarioBatch.withCurrency b cur euro ordered))
            = Batch.costPerKg (Batch.pre_save b))
  /\ (exists c,
         Batch.costPerKg (Batch.pre_save ScenarioBatch.batchD) = Some c
         /\ c == 22 # 10).
Proof.
  intros cost. subst cost. unfold Batch.pre_save.
  split; [|split; [|split; [|split]]].
  - intros Hp. apply truthy_spec in Hp. rewrite Hp.
    cbn [Batch.totalCost]. eexists. split; [reflexivity|].
    rewrite !or0_orZero. reflexivity.
  - intros rq Hp Hrq Hnz Hu. apply truthy_spec in Hp, Hnz.
    rewrite Hp, Hrq, Hnz, Hu. cbn [Batch.isKG andb Batch.costPerKg].
    eexists. split; [reflexivity|].
    rewrite !or0_orZero. reflexivity.
  - intros [Hp|[Hr|[(rq & Hr & Hz)|Hu]]].
    + rewrite (truthy_false _ Hp). reflexivity.
    + rewrite Hr. destruct (Js.truthy (Batch.purchasePrice b)); reflexivity.
    + rewrite Hr, (truthy_false _ Hz).
      destruct (Js.truthy (Batch.purchasePrice b)); reflexivity.
    + destruct (Batch.unit b); try congruence;
        destruct (Js.truthy (Batch.purchasePrice b));
        destruct (Batch.receivedQuantity b);
        cbn [Batch.isKG Batch.costPerKg]; rewrite ?andb_false_r; reflexivity.
  - intros cur euro ordered.
    cbn [ScenarioBatch.withCurrency Batch.purchasePrice Batch.shippingCost
           Batch.customsDuty Batch.otherCosts Batch.receivedQuantity
           Batch.unit Batch.totalCost Batch.costPerKg].
    destruct (Js.truthy (Batch.purchasePrice b)); split; reflexivity.
  - eexists. split; [vm_compute; reflexivity|]. vm_compute. reflexivity.
Qed.

Lemma C8_batch_cost_witness :
  ~ Batch.purchasePrice ScenarioBatch.batchD == 0
  /\ exists tc,
      Batch.totalCost (Batch.pre_save ScenarioBatch.batchD) = Some tc
      /\ tc == Batch.purchasePrice ScenarioBatch.batchD
               + orZero (Batch.shippingCost ScenarioBatch.batchD)
               + orZero (Batch.customsDuty ScenarioBatch.batchD)
               + orZero (Batch.otherCosts ScenarioBatch.batchD).
Proof.
  assert (H : ~ Batch.purchasePrice ScenarioBatch.batchD == 0)
    by (vm_compute; discriminate).
  split; [exact H|].
  exact (proj1 (C8_batch_cost ScenarioBatch.batchD) H).
Defined.

(** C8 as stated fails: for a batch of 500 pieces received, with the same
    costs, the total cost is computed and yet no cost per unit is. *)
Lemma C8_no_unit_cost_for_pieces :
  (exists rq,
      Batch.receivedQuantity ScenarioBatch.batchPieces = Some rq /\ ~ rq == 0)
  /\ (exists tc,
         Batch.totalCost (Batch.pre_save ScenarioBatch.batchPieces) = Some tc
         /\ tc == 1100)
  /\ Batch.costPerKg (Batch.pre_save ScenarioBatch.batchPieces) = None.
Proof.
  split; [|split].
  - exists 500. split; [reflexivity|]. vm_compute. discriminate.
  - eexists. split; [vm_compute; reflexivity|]. vm_compute. reflexivity.
  - reflexivity.
Qed.

(** ** Reservations *)

Lemma reserve_step (s : Reservation.Store) (productId : string) (qty : Z) :
  match snd (Reservation.reserve s productId qty) with
  | Reservation.Reserved q =>
      q = qty
      /\ (qty <= Reservation.available s productId)%Z
      /\ Reservation.reserved (fst (Reservation.reserve s productId qty))
           productId
         = (Reservation.reserved s productId + qty)%Z
      /\ Reservation.available (fst (Reservation.reserve s productId qty))
           productId
         = (Reservation.available s productId - qty)%Z
  | Reservation.InsufficientStock =>
      fst (Reservation.reserve s productId qty) = s
  end.
Proof.
  unfold Reservation.reserve, Reservation.available, Reservation.reserved.
  destruct (s productId) as [p|] eqn:Ep; [|reflexivity].
  destruct (qty <=? Product.availableQuantity p)%Z eqn:E; [|reflexivity].
  cbn [fst snd]. unfold Reservation.update. cbn beta.
  rewrite String.eqb_refl. cbn.
  apply Z.leb_le in E. repeat split. exact E.
Qed.

Lemma reserve_other (s : Reservation.Store) (productId id : string) (qty : Z) :
  String.eqb productId id = false ->
  Reservation.available (fst (Reservation.reserve s productId qty)) id
  = Reservation.available s id.
Proof.
  intros Hne. unfold Reservation.reserve.
  destruct (s productId) as [p|]; [|reflexivity].
  destruct (qty <=? Product.availableQuantity p)%Z; [|reflexivity].
  cbn [fst]. unfold Reservation.available, Reservation.update.
  rewrite String.eqb_sym, Hne. reflexivity.
Qed.

Lemma run_available (calls : list (string * Z)) (s : Reservation.Store)
    (id : string) :
  (0 <= Reservation.available s id)%Z ->
  (0 <= Reservation.available (fst (Reservation.run s calls)) id)%Z
  /\ Reservation.available (fst (Reservation.run s calls)) id
     = (Reservation.available s id
        - Reservation.reservedUnits id calls (snd (Reservation.run s calls)))%Z.
Proof.
  revert s. induction calls as [|[productId qty] rest IH]; intros s H0.
  - cbn. split; lia.
  - cbn [Reservation.run].
    pose proof (reserve_step s productId qty) as Hstep.
    pose proof (reserve_other s productId id qty) as Hother.
    destruct (Reservation.reserve s productId qty) as [s1 o].
    cbn [fst snd] in Hstep, Hother.
    assert (H1 : (0 <= Reservation.available s1 id)%Z
                 /\ Reservation.available s1 id
                    = (Reservation.available s id
                       - (if String.eqb productId id
                          then Reservation.granted o else 0))%Z).
    { destruct (String.eqb productId id) eqn:E.
      - apply String.eqb_eq in E. subst id.
        destruct o as [q|]; cbn [Reservation.granted].
        + destruct Hstep as (-> & Hle & _ & Ha). rewrite Ha. lia.
        + subst s1. lia.
      - rewrite (Hother eq_refl). lia. }
    destruct H1 as [H1 H2]. specialize (IH s1 H1).
    destruct (Reservation.run s1 rest) as [s2 os].
    cbn [fst snd Reservation.reservedUnits] in *.
    destruct IH as [I1 I2]. split; [exact I1|]. rewrite I2, H2. lia.
Qed.

(** C9.  With [reserve] an atomic check-and-update and the concurrent calls
    served in any order: a call succeeds only if the quantity asked is
    available at that instant, and then [reserved] grows and [available]
    shrinks by that quantity, while a refused call changes nothing; on a
    product with [K] units available the calls that succeed reserve at most
    [K] units together, whatever the calls and their order.  A hundred
    calls for one unit against ten available units see exactly ten
    succeed. *)
Theorem C9_reserve_never_oversells :
  (forall (s : Reservation.Store) (productId : string) (qty : Z),
      match snd (Reservation.reserve s productId qty) with
      | Reservation.Reserved q =>
          q = qty
          /\ (qty <= Reservation.available s productId)%Z
          /\ Reservation.reserved (fst (Reservation.reserve s productId qty))
               productId
             = (Reservation.reserved s productId + qty)%Z
          /\ Reservation.available (fst (Reservation.reserve s productId qty))
               productId
             = (Reservation.available s productId - qty)%Z
      | Reservation.InsufficientStock =>
          fst (Reservation.reserve s productId qty) = s
      end)
  /\ (forall (s : Reservation.Store) (id : string) (K : Z)
             (calls : list (string * Z)),
         Reservation.available s id = K -> (0 <= K)%Z ->
         (Reservation.reservedUnits id calls (snd (Reservation.run s calls))
          <= K)%Z
         /\ Reservation.available (fst (Reservation.run s calls)) id
            = (K - Reservation.reservedUnits id calls
                     (snd (Reservation.run s calls)))%Z)
  /\ (List.length
        (filter ScenarioStock.isReserved
           (snd (Reservation.run (ScenarioStock.store 10)
                   ScenarioStock.hundredCalls))) = 10%nat
      /\ Reservation.reservedUnits "p" ScenarioStock.hundredCalls
           (snd (Reservation.run (ScenarioStock.store 10)
                   ScenarioStock.hundredCalls)) = 10%Z).
Proof.
  split; [|split].
  - exact reserve_step.
  - intros s id K calls HK H0. subst K.
    destruct (run_available calls s id H0) as [H1 H2].
    split; [lia|exact H2].
  - split; vm_compute; reflexivity.
Qed.

Lemma C9_reserve_never_oversells_witness :
  (Reservation.available (ScenarioStock.store 10) "p" = 10%Z /\ (0 <= 10)%Z)
  /\ (Reservation.reservedUnits "p" ScenarioStock.hundredCalls
        (snd (Reservation.run (ScenarioStock.store 10)
                ScenarioStock.hundredCalls)) <= 10)%Z.
Proof.
  assert (H0 : (0 <= 10)%Z) by lia.
  split; [split; [reflexivity|exact H0]|].
  exact (proj1 (proj1 (proj2 C9_reserve_never_oversells)
                  (ScenarioStock.store 10) "p"%string 10%Z
                  ScenarioStock.hundredCalls eq_refl H0)).
Defined.

(** ** Marking an invoice as paid *)

(** C10.  [markAsPaid] sets [paidAmount] to [total], [outstandingAmount] to
    0 and [status] to [PAID], whatever the invoice; it adds no payment and
    leaves every other field as it was.  The stored paid amount may then
    differ from the sum of the payments, and the next [calculateTotals]
    makes it that sum again. *)
Theorem C10_markAsPaid :
  (forall i : Invoice.IInvoice,
      let i' := Invoice.markAsPaid i in
      Invoice.paidAmount i' = Invoice.total i
      /\ Invoice.outstandingAmount i' = 0
      /\ Invoice.status i' = Invoice.PAID
      /\ Invoice.payments i' = Invoice.payments i
      /\ Invoice.items i' = Invoice.items i
      /\ Invoice.subtotal i' = Invoice.subtotal i
      /\ Invoice.totalTax i' = Invoice.totalTax i
      /\ Invoice.shippingCost i' = Invoice.shippingCost i
      /\ Invoice.otherCharges i' = Invoice.otherCharges i
      /\ Invoice.discount i' = Invoice.discount i
      /\ Invoice.total i' = Invoice.total i
      /\ Invoice.currency i' = Invoice.currency i
      /\ Invoice.exchangeRate i' = Invoice.exchangeRate i
      /\ Invoice.totalInEuro i' = Invoice.totalInEuro i
      /\ Invoice.dueDate i' = Invoice.dueDate i)
  /\ (exists i : Invoice.IInvoice,
         ~ Invoice.paidAmount (Invoice.markAsPaid i)
           == sumOf Invoice.payment_amount
                (optList (Invoice.payments (Invoice.markAsPaid i))))
  /\ (forall i : Invoice.IInvoice,
         Invoice.paidAmount (Invoice.calculateTotals (Invoice.markAsPaid i))
         == sumOf Invoice.payment_amount (optList (Invoice.payments i))).
Proof.
  split; [|split].
  - intros i. cbn. repeat split.
  - exists (Invoice.calculateTotals ScenarioItems.invoiceB).
    vm_compute. discriminate.
  - intros i. rewrite invoice_paidAmount, or0_orZero.
    cbn [Invoice.markAsPaid Invoice.payments].
    destruct (Invoice.payments i) as [ps|]; simpl; [|reflexivity].
    unfold Invoice.sumPayments. rewrite fold_left_sum. ring.
Qed.

(** * Properties of the other methods and hooks *)

(** ** Products: tracking, discount and margin *)

Lemma sliceLast_suffix {A : Type} (n : nat) (a : list A) :
  a = firstn (List.length a - n) a ++ ProductMethods.sliceLast n a.
Proof.
  unfold ProductMethods.sliceLast. symmetry. apply firstn_skipn.
Qed.

Lemma sliceLast_length {A : Type} (n : nat) (a : list A) :
  List.length (ProductMethods.sliceLast n a) = Nat.min (List.length a) n.
Proof.
  unfold ProductMethods.sliceLast. rewrite length_skipn. lia.
Qed.

(** X1.  However many readings a product holds, after
    [updateRFIDLocation] it holds at most 100: one more than before, capped
    at 100.  The new reading is the last one, the readings kept are the end
    of the former list followed by the new reading (only the oldest ones are
    dropped), and the last seen location and time are those of the new
    reading. *)
Theorem X1_rfid_window (p : ProductMethods.IProduct)
    (r : ProductMethods.IRFIDReading) :
  let p' := ProductMethods.updateRFIDLocation p r in
  List.length (ProductMethods.rfidReadings p')
  = Nat.min (List.length (ProductMethods.rfidReadings p) + 1) 100
  /\ List.last (ProductMethods.rfidReadings p') r = r
  /\ (exists kept dropped,
         ProductMethods.rfidReadings p = dropped ++ kept
         /\ ProductMethods.rfidReadings p' = kept ++ [r])
  /\ ProductMethods.lastSeenLocation p' = Some (ProductMethods.location r)
  /\ ProductMethods.lastSeenAt p' = Some (ProductMethods.timestamp r).
Proof.
  cbn [ProductMethods.updateRFIDLocation ProductMethods.rfidReadings
         ProductMethods.lastSeenLocation ProductMethods.lastSeenAt].
  set (old := ProductMethods.rfidReadings p).
  assert (Hlen : List.length (old ++ [r]) = (List.length old + 1)%nat)
    by (rewrite length_app; reflexivity).
  destruct (100 <? List.length (old ++ [r]))%nat eqn:E.
  - apply Nat.ltb_lt in E.
    assert (Hk : ProductMethods.sliceLast 100 (old ++ [r])
                 = skipn (List.length old - 99) old ++ [r]).
    { unfold ProductMethods.sliceLast. rewrite Hlen.
      replace (List.length old + 1 - 100)%nat
        with (List.length old - 99)%nat by lia.
      rewrite skipn_app.
      replace (List.length old - 99 - List.length old)%nat with 0%nat by lia.
      reflexivity. }
    rewrite Hk. repeat split.
    + rewrite length_app, length_skipn. cbn. lia.
    + apply last_last.
    + exists (skipn (List.length old - 99) old),
        (firstn (List.length old - 99) old).
      split; [symmetry; apply firstn_skipn|reflexivity].
  - apply Nat.ltb_ge in E. repeat split.
    + lia.
    + apply last_last.
    + exists old, []. split; reflexivity.
Qed.

(** X2.  A discount between 0 and 100 percent on a base price that is not
    negative gives a current price between 0 and the base price; and
    discounts do not add up: a later discount is taken on the base price
    again and replaces the earlier one altogether. *)
Theorem X2_discount_on_base_price :
  (forall (now : Z) (p : ProductMethods.IProduct) (pct : Q) (why : string),
      0 <= pct -> pct <= 100 -> 0 <= ProductMethods.basePrice p ->
      0 <= ProductMethods.currentPrice
             (ProductMethods.applyDiscount now p pct why)
      /\ ProductMethods.currentPrice
           (ProductMethods.applyDiscount now p pct why)
         <= ProductMethods.basePrice p)
  /\ (forall (n1 n2 : Z) (p : ProductMethods.IProduct) (p1 p2 : Q)
             (w1 w2 : string),
         ProductMethods.applyDiscount n2
           (ProductMethods.applyDiscount n1 p p1 w1) p2 w2
         = ProductMethods.applyDiscount n2 p p2 w2).
Proof.
  split.
  - intros now p pct why H0 H100 Hb.
    cbn [ProductMethods.applyDiscount ProductMethods.currentPrice].
    assert (Hx0 : 0 <= pct / 100)
      by (apply Qle_shift_div_l; [reflexivity|lra]).
    assert (Hx1 : pct / 100 <= 1)
      by (apply Qle_shift_div_r; [reflexivity|lra]).
    generalize dependent (pct / 100). intros x Hx0 Hx1.
    split; nra.
  - intros. reflexivity.
Qed.

Lemma X2_discount_on_base_price_witness :
  (0 <= 25 /\ 25 <= 100 /\ 0 <= 80)
  /\ ProductMethods.currentPrice
       (ProductMethods.applyDiscount 0
          (ProductMethods.mkProduct (Some 40) 80 80 None [] None None)
          25 "sale")
     <= 80.
Proof.
  assert (H0 : 0 <= 25) by discriminate.
  assert (H1 : 25 <= 100) by discriminate.
  assert (H2 : 0 <= 80) by discriminate.
  split; [repeat split; assumption|].
  exact (proj2 (proj1 X2_discount_on_base_price 0%Z
                  (ProductMethods.mkProduct (Some 40) 80 80 None [] None None)
                  25 "sale"%string H0 H1 H2)).
Defined.

(** X3.  For a product bought at a positive price and not priced at zero
    the margin is positive exactly when the current price is above the
    purchase price and negative exactly when it is below; a product priced
    at zero reports a margin of 0, not of -100, so a discount of 100 percent
    always shows a margin of 0. *)
Theorem X3_profit_margin :
  (forall (x : ProductMethods.IProduct) (p : Q),
      ProductMethods.purchasePrice x = Some p -> 0 < p ->
      ~ ProductMethods.currentPrice x == 0 ->
      (0 < ProductMethods.profitMargin x
       <-> p < ProductMethods.currentPrice x)
      /\ (ProductMethods.profitMargin x < 0
          <-> ProductMethods.currentPrice x < p))
  /\ (forall (now : Z) (x : ProductMethods.IProduct) (why : string),
         ProductMethods.profitMargin
           (ProductMethods.applyDiscount now x 100 why) == 0).
Proof.
  split.
  - intros x p Hp Hpos Hc. unfold ProductMethods.profitMargin. rewrite Hp.
    assert (Hp0 : ~ p == 0) by lra.
    apply truthy_spec in Hp0, Hc. rewrite Hp0, Hc. cbn [andb].
    set (c := ProductMethods.currentPrice x).
    assert (E : (c - p) / p * 100 == (c - p) * (100 / p)) by (field; lra).
    rewrite E.
    assert (Hk : 0 < 100 / p) by (apply Qlt_shift_div_l; lra).
    generalize dependent (100 / p). intros k _ Hk.
    split; split; intros H; nra.
  - intros now x why. unfold ProductMethods.profitMargin.
    cbn [ProductMethods.applyDiscount ProductMethods.purchasePrice
           ProductMethods.currentPrice].
    destruct (ProductMethods.purchasePrice x) as [p|]; [|reflexivity].
    assert (Hz : ProductMethods.basePrice x * (1 - 100 / 100) == 0)
      by (field).
    rewrite (truthy_false _ Hz), andb_false_r. reflexivity.
Qed.

Lemma X3_profit_margin_witness :
  (0 < 40 /\ ~ 80 == 0)
  /\ 0 < ProductMethods.profitMargin
           (ProductMethods.mkProduct (Some 40) 80 80 None [] None None).
Proof.
  assert (H0 : 0 < 40) by reflexivity.
  assert (H1 : ~ 80 == 0) by discriminate.
  split; [split; assumption|].
  apply (proj1 (proj1 X3_profit_margin
                  (ProductMethods.mkProduct (Some 40) 80 80 None [] None None)
                  40 eq_refl H0 H1)).
  reflexivity.
Defined.

(** ** Orders: cancellation, return and deadlines *)

(** X4.  An order is never open to both: whenever it can be returned it can
    no longer be cancelled.  An order that is shipped, delivered, completed,
    cancelled or returned cannot be cancelled, whatever else it holds, and
    every other status, [IN_TRANSIT] and [REFUNDED] included, leaves it
    cancellable. *)
Theorem X4_cancel_or_return :
  (forall (now : Z) (o : OrderLifecycle.IOrder),
      OrderLifecycle.canBeReturned now o = true ->
      OrderLifecycle.canBeCancelled o = false)
  /\ (forall o : OrderLifecycle.IOrder,
         OrderLifecycle.canBeCancelled o = false
         <-> In (OrderLifecycle.status o)
               [OrderLifecycle.SHIPPED; OrderLifecycle.DELIVERED;
                OrderLifecycle.COMPLETED; OrderLifecycle.CANCELLED;
                OrderLifecycle.RETURNED]).
Proof.
  split.
  - intros now o. unfold OrderLifecycle.canBeReturned,
      OrderLifecycle.canBeCancelled.
    destruct (OrderLifecycle.status o); cbn;
      rewrite ?andb_false_r; try discriminate; reflexivity.
  - intros o. unfold OrderLifecycle.canBeCancelled.
    destruct (OrderLifecycle.status o); cbn; split; intros H;
      try discriminate; try reflexivity; try tauto;
      repeat (destruct H as [H|H]; try discriminate); contradiction.
Qed.

Lemma X4_cancel_or_return_witness :
  OrderLifecycle.canBeReturned 5
    (OrderLifecycle.mkOrder Scenario.orderC OrderLifecycle.DELIVERED None
       None true (Some 10%Z)) = true
  /\ OrderLifecycle.canBeCancelled
       (OrderLifecycle.mkOrder Scenario.orderC OrderLifecycle.DELIVERED None
          None true (Some 10%Z)) = false.
Proof.
  split; [reflexivity|].
  exact (proj1 X4_cancel_or_return 5%Z
           (OrderLifecycle.mkOrder Scenario.orderC OrderLifecycle.DELIVERED
              None None true (Some 10%Z)) eq_refl).
Defined.

(** X5.  The return deadline is fixed by the first save and never moved by a
    later one.  For an order open to return that had no deadline, the save
    at time [now] opens a window of 14 days: once delivered, the order can be
    returned at time [t] exactly when [t] is not later than
    [now] + 14 days. *)
Theorem X5_return_window :
  (forall (n1 n2 : Z) (o : OrderLifecycle.IOrder),
      OrderLifecycle.returnDeadline
        (OrderLifecycle.pre_save n2 (OrderLifecycle.pre_save n1 o))
      = OrderLifecycle.returnDeadline (OrderLifecycle.pre_save n1 o))
  /\ (forall (now t : Z) (o : OrderLifecycle.IOrder),
         OrderLifecycle.returnEligible o = true ->
         OrderLifecycle.returnDeadline o = None ->
         OrderLifecycle.status o = OrderLifecycle.DELIVERED ->
         (OrderLifecycle.canBeReturned t (OrderLifecycle.pre_save now o) = true
          <-> (t <= now + 14 * 86400000)%Z)).
Proof.
  split.
  - intros n1 n2 o.
    cbn [OrderLifecycle.pre_save OrderLifecycle.returnDeadline
           OrderLifecycle.returnEligible].
    destruct (OrderLifecycle.returnDeadline o); [reflexivity|].
    destruct (OrderLifecycle.returnEligible o); reflexivity.
  - intros now t o He Hd Hs. unfold OrderLifecycle.canBeReturned.
    cbn [OrderLifecycle.pre_save OrderLifecycle.returnDeadline
           OrderLifecycle.returnEligible OrderLifecycle.status].
    rewrite He, Hd, Hs. cbn [OrderLifecycle.OrderStatus_eqb andb].
    rewrite Z.leb_le. lia.
Qed.

Lemma X5_return_window_witness :
  (5 <= 3 + 14 * 86400000)%Z
  /\ OrderLifecycle.canBeReturned 5
       (OrderLifecycle.pre_save 3
          (OrderLifecycle.mkOrder Scenario.orderC OrderLifecycle.DELIVERED
             None None true None)) = true.
Proof.
  assert (H : (5 <= 3 + 14 * 86400000)%Z) by lia.
  split; [exact H|].
  exact (proj2 (proj2 X5_return_window 3%Z 5%Z
                  (OrderLifecycle.mkOrder Scenario.orderC
                     OrderLifecycle.DELIVERED None None true None)
                  eq_refl eq_refl eq_refl) H).
Defined.

Lemma order_calculateTotals_setDueDate (o : Order.IOrder) (d : option Z) :
  Order.calculateTotals (OrderLifecycle.setDueDate o d)
  = OrderLifecycle.setDueDate (Order.calculateTotals o) d.
Proof.
  unfold Order.calculateTotals.
  cbn [OrderLifecycle.setDueDate Order.items Order.discounts
         Order.shippingCost Order.handlingFee Order.payments
         Order.paymentStatus Order.dueDate].
  destruct (Order.forEach_items _ _) as [its l].
  destruct (Order.discounts o) as [ds|];
    [destruct (Order.forEach_discounts _ _ _) as [ds' dt]|]; reflexivity.
Qed.

Lemma order_calculateTotals_dueDate (o : Order.IOrder) :
  Order.dueDate (Order.calculateTotals o) = Order.dueDate o.
Proof.
  order_field o; reflexivity.
Qed.

Lemma order_calculateTotals_items_discount (o : Order.IOrder) :
  Forall (fun it => Order.item_discount it <> None) (Order.items o) ->
  Forall (fun it => Order.item_discount it <> None)
    (Order.items (Order.calculateTotals o)).
Proof.
  intros Hall. rewrite order_items.
  generalize (Order.mkLocals 0 0 (Js.Num 0) 0).
  induction Hall as [|it rest Hit _ IH]; intros l; cbn [Order.forEach_items].
  - constructor.
  - destruct (Order.item_body it l) as [i1 l1] eqn:E.
    specialize (IH l1).
    destruct (Order.forEach_items rest l1) as [r1 l2].
    cbn [fst] in *. constructor; [|exact IH].
    destruct it as [up q sub [d|] t tot]; [|now elim Hit].
    unfold Order.item_body in E. cbn in E. injection E as <- _.
    discriminate.
Qed.

Lemma days_in_milliseconds (now k : Z) :
  inject_Z now + inject_Z k * 24 * 60 * 60 * 1000
  == inject_Z (now + k * 86400000).
Proof.
  unfold Qeq. cbn. lia.
Qed.

Lemma toDate_days (now k : Z) :
  (- OrderLifecycle.maxTime <= now + k * 86400000
   <= OrderLifecycle.maxTime)%Z ->
  OrderLifecycle.toDate (inject_Z now + inject_Z k * 24 * 60 * 60 * 1000)
  = Some (now + k * 86400000)%Z.
Proof.
  intros [H1 H2]. unfold OrderLifecycle.toDate.
  assert (L1 : Qle_bool (inject_Z (- OrderLifecycle.maxTime))
                 (inject_Z now + inject_Z k * 24 * 60 * 60 * 1000) = true).
  { apply Qle_bool_iff. rewrite days_in_milliseconds, <- Zle_Qle.
    exact H1. }
  assert (L2 : Qle_bool (inject_Z now + inject_Z k * 24 * 60 * 60 * 1000)
                 (inject_Z OrderLifecycle.maxTime) = true).
  { apply Qle_bool_iff. rewrite days_in_milliseconds, <- Zle_Qle.
    exact H2. }
  rewrite L1, L2. cbn [andb]. f_equal. cbn. rewrite Z.quot_1_r. lia.
Qed.

Lemma toDate_out_of_range (now k : Z) :
  (now + k * 86400000 < - OrderLifecycle.maxTime
   \/ OrderLifecycle.maxTime < now + k * 86400000)%Z ->
  OrderLifecycle.toDate (inject_Z now + inject_Z k * 24 * 60 * 60 * 1000)
  = None.
Proof.
  intros H. unfold OrderLifecycle.toDate.
  destruct (Qle_bool (inject_Z (- OrderLifecycle.maxTime)) _) eqn:L1;
    [|reflexivity].
  destruct (Qle_bool _ (inject_Z OrderLifecycle.maxTime)) eqn:L2;
    [|reflexivity].
  exfalso.
  apply Qle_bool_iff in L1, L2.
  rewrite days_in_milliseconds, <- Zle_Qle in L1.
  rewrite days_in_milliseconds, <- Zle_Qle in L2.
  lia.
Qed.

(** X6.  For an order paid by invoice with a whole, non-zero number of days
    as payment terms, a save sets the due date to the time of that save plus
    the terms, whatever due date the order had, as long as that instant is a
    time value a [Date] can hold (at most 8 640 000 000 000 000 ms either
    side of the epoch): the due date moves with each save.  When the instant
    lies outside that range the date is invalid and the order keeps the due
    date it had.  On an order whose items all carry a discount a second save
    at the same instant changes nothing. *)
Theorem X6_due_date_on_save :
  (forall (now k : Z) (o : OrderLifecycle.IOrder),
      OrderLifecycle.paymentMethod o = Some OrderLifecycle.INVOICE ->
      OrderLifecycle.paymentTerms o = Some (inject_Z k) -> k <> 0%Z ->
      (- OrderLifecycle.maxTime <= now + k * 86400000
       <= OrderLifecycle.maxTime)%Z ->
      Order.dueDate (OrderLifecycle.totals (OrderLifecycle.pre_save now o))
      = Some (now + k * 86400000)%Z)
  /\ (forall (now k : Z) (o : OrderLifecycle.IOrder),
         OrderLifecycle.paymentMethod o = Some OrderLifecycle.INVOICE ->
         OrderLifecycle.paymentTerms o = Some (inject_Z k) ->
         (now + k * 86400000 < - OrderLifecycle.maxTime
          \/ OrderLifecycle.maxTime < now + k * 86400000)%Z ->
         Order.dueDate (OrderLifecycle.totals (OrderLifecycle.pre_save now o))
         = Order.dueDate (OrderLifecycle.totals o))
  /\ (forall (now : Z) (o : OrderLifecycle.IOrder),
         Forall (fun it => Order.item_discount it <> None)
           (Order.items (OrderLifecycle.totals o)) ->
         OrderLifecycle.pre_save now (OrderLifecycle.pre_save now o)
         = OrderLifecycle.pre_save now o).
Proof.
  split; [|split].
  - intros now k o Hm Ht Hk Hr.
    cbn [OrderLifecycle.pre_save OrderLifecycle.totals].
    rewrite Hm, Ht. cbn [OrderLifecycle.isInvoice andb].
    assert (Htr : Js.truthy (inject_Z k) = true).
    { apply truthy_spec. intros E. apply Hk.
      unfold Qeq in E. cbn in E. lia. }
    rewrite Htr, (toDate_days now k Hr).
    reflexivity.
  - intros now k o Hm Ht Hr.
    cbn [OrderLifecycle.pre_save OrderLifecycle.totals].
    rewrite Hm, Ht. cbn [OrderLifecycle.isInvoice andb].
    rewrite (toDate_out_of_range now k Hr).
    destruct (Js.truthy (inject_Z k)); apply order_calculateTotals_dueDate.
  - intros now o Hall. unfold OrderLifecycle.pre_save.
    cbn [OrderLifecycle.totals OrderLifecycle.status
           OrderLifecycle.paymentMethod OrderLifecycle.paymentTerms
           OrderLifecycle.returnEligible OrderLifecycle.returnDeadline].
    pose proof (order_calculateTotals_again _ Hall) as Hagain.
    f_equal.
    + destruct (OrderLifecycle.paymentTerms o) as [terms|].
      * destruct (OrderLifecycle.isInvoice _ && Js.truthy terms).
        -- destruct (OrderLifecycle.toDate _) as [due|].
           ++ rewrite order_calculateTotals_setDueDate, Hagain.
              reflexivity.
           ++ exact Hagain.
        -- exact Hagain.
      * exact Hagain.
    + destruct (OrderLifecycle.returnDeadline o); [reflexivity|].
      destruct (OrderLifecycle.returnEligible o); reflexivity.
Qed.

Lemma X6_due_date_on_save_witness :
  ((30 <> 0)%Z
   /\ (- OrderLifecycle.maxTime <= 1000 + 30 * 86400000
       <= OrderLifecycle.maxTime)%Z)
  /\ Order.dueDate
       (OrderLifecycle.totals
          (OrderLifecycle.pre_save 1000
             (OrderLifecycle.mkOrder Scenario.orderC OrderLifecycle.DRAFT
                (Some OrderLifecycle.INVOICE) (Some (inject_Z 30)) true
                None)))
     = Some (1000 + 30 * 86400000)%Z.
Proof.
  assert (H : (30 <> 0)%Z) by discriminate.
  assert (Hr : (- OrderLifecycle.maxTime <= 1000 + 30 * 86400000
                <= OrderLifecycle.maxTime)%Z)
    by (unfold OrderLifecycle.maxTime; lia).
  split; [split; assumption|].
  exact (proj1 X6_due_date_on_save 1000%Z 30%Z
           (OrderLifecycle.mkOrder Scenario.orderC OrderLifecycle.DRAFT
              (Some OrderLifecycle.INVOICE) (Some (inject_Z 30)) true None)
           eq_refl eq_refl H Hr).
Defined.

(** ** Invoices: what a save does to the status *)

Lemma invoice_calculateTotals_inputs (i j : Invoice.IInvoice) :
  Invoice.items i = Invoice.items j ->
  Invoice.discount i = Invoice.discount j ->
  Invoice.total i = Invoice.total j ->
  Invoice.shippingCost i = Invoice.shippingCost j ->
  Invoice.otherCharges i = Invoice.otherCharges j ->
  Invoice.payments i = Invoice.payments j ->
  Invoice.currency i = Invoice.currency j ->
  Invoice.exchangeRate i = Invoice.exchangeRate j ->
  Invoice.totalInEuro i = Invoice.totalInEuro j ->
  Invoice.dueDate i = Invoice.dueDate j ->
  Invoice.status i = Invoice.status j ->
  Invoice.calculateTotals i = Invoice.calculateTotals j.
Proof.
  intros H1 H2 H0 H3 H4 H5 H6 H7 H8 H9 H10. unfold Invoice.calculateTotals.
  rewrite H1, H2, H0, H3, H4, H5, H6, H7, H8, H9, H10. reflexivity.
Qed.

(** X7.  What [markAsPaid] writes into the amounts does not survive a save:
    the save recomputes the paid and the outstanding amount from the
    payments, so saving an invoice marked as paid gives the same document as
    saving the invoice with only its status set to [PAID]. *)
Theorem X7_markAsPaid_then_save (now : Z) (i : Invoice.IInvoice) :
  Invoice.pre_save now (Invoice.markAsPaid i)
  = Invoice.pre_save now (Invoice.setStatus i Invoice.PAID).
Proof.
  unfold Invoice.pre_save.
  rewrite (invoice_calculateTotals_inputs (Invoice.markAsPaid i)
             (Invoice.setStatus i Invoice.PAID));
    reflexivity.
Qed.

Lemma invoice_calculateTotals_setStatus (i : Invoice.IInvoice)
    (s : Invoice.InvoiceStatus) :
  Invoice.calculateTotals (Invoice.setStatus i s)
  = Invoice.setStatus (Invoice.calculateTotals i) s.
Proof.
  unfold Invoice.calculateTotals.
  cbn [Invoice.setStatus Invoice.items Invoice.discount Invoice.shippingCost
         Invoice.otherCharges Invoice.payments Invoice.currency
         Invoice.exchangeRate Invoice.totalInEuro Invoice.dueDate
         Invoice.status Invoice.total].
  destruct (Invoice.reduce_items _ _) as [its s0]. reflexivity.
Qed.

Lemma invoice_setStatus_same (i : Invoice.IInvoice) :
  Invoice.setStatus i (Invoice.status i) = i.
Proof. destruct i; reflexivity. Qed.

(** X8.  Saving an invoice at a time [n1] and again at a later time [n2]
    leaves the same document as saving it once at [n2]; in particular a
    second save at the same instant changes nothing.  It holds with and
    without a discount on the invoice: without one the total is the stored
    total after every save. *)
Theorem X8_invoice_save_again (n1 n2 : Z) (i : Invoice.IInvoice) :
  (n1 <= n2)%Z ->
  Invoice.pre_save n2 (Invoice.pre_save n1 i) = Invoice.pre_save n2 i.
Proof.
  intros Hn.
  rewrite (invoice_pre_save_status n1 i).
  set (s1 := Invoice.status (Invoice.pre_save n1 i)).
  assert (Hs1 : s1 = Invoice.status (Invoice.pre_save n1 i)) by reflexivity.
  unfold Invoice.pre_save at 1 2.
  rewrite invoice_calculateTotals_setStatus, invoice_calculateTotals_again.
  cbn [Invoice.setStatus Invoice.outstandingAmount Invoice.paidAmount
         Invoice.dueDate Invoice.status].
  destruct (Js.le (Invoice.outstandingAmount (Invoice.calculateTotals i)) 0)
    eqn:E1; [reflexivity|].
  destruct (Js.gt (Invoice.paidAmount (Invoice.calculateTotals i)) 0)
    eqn:E2; [reflexivity|].
  unfold Invoice.pre_save in Hs1. rewrite E1, E2 in Hs1.
  destruct (invoice_outstandingAmount i) as (_ & Hst & Hd).
  rewrite Hst, Hd in *.
  destruct (Invoice.dueDate i <? n1)%Z eqn:D1.
  - apply Z.ltb_lt in D1.
    assert (D2 : (Invoice.dueDate i <? n2)%Z = true)
      by (apply Z.ltb_lt; lia).
    rewrite D2.
    destruct (Invoice.isCancelled (Invoice.status i)) eqn:C.
    + cbn [andb negb] in Hs1. rewrite Hst in Hs1. rewrite Hs1, C.
      cbn [andb negb]. rewrite <- Hst. rewrite invoice_setStatus_same.
      reflexivity.
    + cbn [andb negb Invoice.setStatus Invoice.status] in Hs1.
      rewrite Hs1. reflexivity.
  - cbn [andb] in Hs1. rewrite Hst in Hs1. rewrite Hs1.
    destruct ((Invoice.dueDate i <? n2)%Z
              && negb (Invoice.isCancelled (Invoice.status i)));
      [reflexivity|].
    rewrite <- Hst. rewrite invoice_setStatus_same. reflexivity.
Qed.

Lemma X8_invoice_save_again_witness :
  (0 <= 2000)%Z
  /\ Invoice.pre_save 2000 (Invoice.pre_save 0 ScenarioItems.invoiceB)
     = Invoice.pre_save 2000 ScenarioItems.invoiceB.
Proof.
  assert (H : (0 <= 2000)%Z) by lia.
  split; [exact H|].
  exact (X8_invoice_save_again 0 2000 ScenarioItems.invoiceB H).
Defined.



(** ** Expenses: the choice of the rate *)

(** X10.  Under the unique index of the exchange rates (one rate per
    currency pair and quotation date) the conversion of an expense does not
    depend on the order in which the rates are stored. *)
Theorem X10_rate_order_irrelevant (store store' : list Expense.IExchangeRate)
    (e : Expense.IExpense) :
  uniqueRates store -> Permutation store store' ->
  Expense.findOne store (Expense.currency e) (Expense.expenseDate e)
  = Expense.findOne store' (Expense.currency e) (Expense.expenseDate e)
  /\ Expense.pre_save store e = Expense.pre_save store' e.
Proof.
  intros Hu Hp.
  assert (Hf : Expense.findOne store (Expense.currency e)
                 (Expense.expenseDate e)
               = Expense.findOne store' (Expense.currency e)
                   (Expense.expenseDate e)).
  { pose proof (findOne_spec store (Expense.currency e)
                  (Expense.expenseDate e)) as H1.
    pose proof (findOne_spec store' (Expense.currency e)
                  (Expense.expenseDate e)) as H2.
    destruct (Expense.findOne store _ _) as [r|];
      destruct (Expense.findOne store' _ _) as [r'|].
    - destruct H1 as (I1 & S1 & M1). destruct H2 as (I2 & S2 & M2).
      apply (Permutation_in _ (Permutation_sym Hp)) in I2.
      assert (Hd : Expense.date r = Expense.date r').
      { specialize (M1 r' I2 S2).
        specialize (M2 r (Permutation_in _ Hp I1) S1). lia. }
      apply selected_spec in S1, S2.
      destruct S1 as (F1 & T1 & _). destruct S2 as (F2 & T2 & _).
      f_equal. apply Hu; try assumption; congruence.
    - destruct H1 as (I1 & S1 & _).
      rewrite (H2 r (Permutation_in _ Hp I1)) in S1. discriminate.
    - destruct H2 as (I2 & S2 & _).
      rewrite (H1 r' (Permutation_in _ (Permutation_sym Hp) I2)) in S2.
      discriminate.
    - reflexivity. }
  split; [exact Hf|]. unfold Expense.pre_save. now rewrite Hf.
Qed.

Lemma X10_rate_order_irrelevant_witness :
  uniqueRates
    [ScenarioRates.usdRate;
     ScenarioRates.withValidity
       (Expense.mkRate "USD" "EUR" 4 20 20 None true) 20 None]
  /\ Expense.pre_save
       [ScenarioRates.usdRate;
        ScenarioRates.withValidity
          (Expense.mkRate "USD" "EUR" 4 20 20 None true) 20 None]
       ScenarioRates.expenseE
     = Expense.pre_save
         [ScenarioRates.withValidity
            (Expense.mkRate "USD" "EUR" 4 20 20 None true) 20 None;
          ScenarioRates.usdRate]
         ScenarioRates.expenseE.
Proof.
  assert (Hu : uniqueRates
                 [ScenarioRates.usdRate;
                  ScenarioRates.withValidity
                    (Expense.mkRate "USD" "EUR" 4 20 20 None true) 20 None]).
  { intros r r' [<-|[<-|[]]] [<-|[<-|[]]] _ _ Hd;
      try reflexivity; discriminate Hd. }
  split; [exact Hu|].
  exact (proj2 (X10_rate_order_irrelevant _ _ ScenarioRates.expenseE Hu
                  (perm_swap _ _ []))).
Defined.

Lemma filter_none {A : Type} (f : A -> bool) (l : list A) :
  (forall x, In x l -> f x = false) -> filter f l = [].
Proof.
  induction l as [|x l IH]; intros H; cbn [filter]; [reflexivity|].
  rewrite (H x (or_introl eq_refl)). apply IH.
  intros y Hy. apply H. right. exact Hy.
Qed.

(** X11.  Rates that the query does not select (another currency pair, an
    inactive rate, a quotation date after the expense date) have no
    influence: adding any number of them to the stored rates, before or
    after the others, leaves the conversion of the expense as it is. *)
Theorem X11_unselected_rates_ignored
    (store extra : list Expense.IExchangeRate) (e : Expense.IExpense) :
  (forall r,
      In r extra ->
      Expense.fromCurrency r <> Expense.currency e
      \/ Expense.toCurrency r <> "EUR"%string
      \/ (Expense.expenseDate e < Expense.date r)%Z
      \/ Expense.isActive r = false) ->
  Expense.pre_save (store ++ extra) e = Expense.pre_save store e
  /\ Expense.pre_save (extra ++ store) e = Expense.pre_save store e.
Proof.
  intros H.
  assert (Hn : filter (Expense.selected (Expense.currency e)
                         (Expense.expenseDate e)) extra = []).
  { apply filter_none. intros r Hr.
    destruct (Expense.selected _ _ r) eqn:E; [|reflexivity].
    apply selected_spec in E. destruct E as (E1 & E2 & E3 & E4).
    destruct (H r Hr) as [N|[N|[N|N]]];
      [contradiction|contradiction|lia|congruence]. }
  unfold Expense.pre_save, Expense.findOne.
  rewrite !filter_app, Hn, app_nil_r. cbn [app]. split; reflexivity.
Qed.

Lemma X11_unselected_rates_ignored_witness :
  (forall r,
      In r [Expense.mkRate "GBP" "EUR" 3 5 5 None true] ->
      Expense.fromCurrency r <> Expense.currency ScenarioRates.expenseE
      \/ Expense.toCurrency r <> "EUR"%string
      \/ (Expense.expenseDate ScenarioRates.expenseE < Expense.date r)%Z
      \/ Expense.isActive r = false)
  /\ Expense.pre_save
       ([ScenarioRates.usdRate] ++ [Expense.mkRate "GBP" "EUR" 3 5 5 None true])
       ScenarioRates.expenseE
     = Expense.pre_save [ScenarioRates.usdRate] ScenarioRates.expenseE.
Proof.
  assert (H : forall r,
             In r [Expense.mkRate "GBP" "EUR" 3 5 5 None true] ->
             Expense.fromCurrency r <> Expense.currency ScenarioRates.expenseE
             \/ Expense.toCurrency r <> "EUR"%string
             \/ (Expense.expenseDate ScenarioRates.expenseE
                 < Expense.date r)%Z
             \/ Expense.isActive r = false).
  { intros r [<-|[]]. left. discriminate. }
  split; [exact H|].
  exact (proj1 (X11_unselected_rates_ignored [ScenarioRates.usdRate]
                  [Expense.mkRate "GBP" "EUR" 3 5 5 None true]
                  ScenarioRates.expenseE H)).
Defined.

(** ** Batches: saving twice, and the sorting figures *)

(** X12.  Saving a batch is idempotent: the second save recomputes the total
    cost, the cost per kg, the sorting duration and the productivity from
    the same entries and so leaves the batch as the first save left it. *)
Theorem X12_batch_save_idempotent (b : Batch.IBatch) :
  Batch.pre_save (Batch.pre_save b) = Batch.pre_save b.
Proof.
  destruct b as [rq sq u pp cur eur ship cus oth tc cpk od ws sd sp].
  unfold Batch.pre_save.
  cbn [Batch.receivedQuantity Batch.sortedQuantity Batch.unit
         Batch.purchasePrice Batch.currency Batch.euroEquivalent
         Batch.shippingCost Batch.customsDuty Batch.otherCosts
         Batch.totalCost Batch.costPerKg Batch.orderDate
         Batch.sortingWorkers Batch.sortingDuration
         Batch.sortingProductivity].
  destruct (Js.truthy pp) eqn:Ep.
  - cbn [Batch.receivedQuantity Batch.sortedQuantity Batch.unit
           Batch.purchasePrice Batch.shippingCost Batch.customsDuty
           Batch.otherCosts Batch.totalCost Batch.costPerKg
           Batch.sortingWorkers Batch.sortingDuration
           Batch.sortingProductivity].
    rewrite Ep.
    destruct rq as [r|]; [destruct (Js.truthy r && Batch.isKG u)|];
      destruct ws as [[|w ws]|]; destruct sq as [q|];
      try destruct (_ && (_ && _)); reflexivity.
  - cbn [Batch.receivedQuantity Batch.sortedQuantity Batch.unit
           Batch.purchasePrice Batch.shippingCost Batch.customsDuty
           Batch.otherCosts Batch.totalCost Batch.costPerKg
           Batch.sortingWorkers Batch.sortingDuration
           Batch.sortingProductivity].
    rewrite Ep.
    destruct ws as [[|w ws]|]; destruct sq as [q|];
      try destruct (_ && (_ && _)); reflexivity.
Qed.

Lemma addHours_sum (ws : list Batch.SortingWorker) (a : Q) :
  fold_left Batch.addHours ws a == a + sumOf workerHours ws.
Proof.
  revert a. induction ws as [|w ws IH]; intros a; cbn [fold_left sumOf].
  - ring.
  - rewrite IH. unfold Batch.addHours, workerHours.
    change (1000 * 60 * 60)%Z with 3600000%Z.
    destruct (Batch.startTime w), (Batch.endTime w); ring.
Qed.

(** X13.  For a batch with at least one sorting worker the sorting duration
    written by the save is the sum of the hours between start and end of the
    workers that have both, a worker still sorting adding nothing; when
    that duration is positive and a sorted quantity is set and not zero, the
    productivity written is that quantity per hour, so productivity times
    duration gives the sorted quantity back.  Without workers both figures
    are left as they were. *)
Theorem X13_sorting_figures (b : Batch.IBatch) :
  (forall w ws,
      Batch.sortingWorkers b = Some (w :: ws) ->
      (exists d,
          Batch.sortingDuration (Batch.pre_save b) = Some d
          /\ d == sumOf workerHours (w :: ws))
      /\ (forall sq,
             Batch.sortedQuantity b = Some sq -> ~ sq == 0 ->
             0 < sumOf workerHours (w :: ws) ->
             exists p,
               Batch.sortingProductivity (Batch.pre_save b) = Some p
               /\ p * sumOf workerHours (w :: ws) == sq))
  /\ (Batch.sortingWorkers b = None \/ Batch.sortingWorkers b = Some [] ->
      Batch.sortingDuration (Batch.pre_save b) = Batch.sortingDuration b
      /\ Batch.sortingProductivity (Batch.pre_save b)
         = Batch.sortingProductivity b).
Proof.
  split.
  - intros w ws Hw.
    assert (Hd : Batch.sortingDuration (Batch.pre_save b)
                 = Some (fold_left Batch.addHours (w :: ws) 0)).
    { unfold Batch.pre_save. rewrite Hw.
      destruct (Js.truthy (Batch.purchasePrice b)); reflexivity. }
    pose proof (addHours_sum (w :: ws) 0) as Hsum.
    rewrite Qplus_0_l in Hsum.
    split.
    + eexists. split; [exact Hd|exact Hsum].
    + intros sq Hsq Hnz Hpos.
      assert (Hp : Batch.sortingProductivity (Batch.pre_save b)
                   = Some (sq / fold_left Batch.addHours (w :: ws) 0)).
      { unfold Batch.pre_save. rewrite Hw, Hsq.
        assert (Hgt : Js.gt (fold_left Batch.addHours (w :: ws) 0) 0 = true)
          by (apply gt_spec; rewrite Hsum; exact Hpos).
        apply truthy_spec in Hnz. rewrite Hgt, Hnz.
        destruct (Js.truthy (Batch.purchasePrice b)); reflexivity. }
      eexists. split; [exact Hp|]. rewrite Hsum. field. lra.
  - intros [Hw|Hw]; unfold Batch.pre_save; rewrite Hw;
      destruct (Js.truthy (Batch.purchasePrice b));
      destruct (Batch.sortedQuantity b); split; reflexivity.
Qed.

Lemma X13_sorting_figures_witness :
  (Batch.sortingWorkers
     (Batch.mkBatch None (Some 90) Batch.KG 0 "EUR" 0 None None None None
        None 0
        (Some [Batch.mkWorker (Some 0%Z) (Some 7200000%Z);
               Batch.mkWorker (Some 0%Z) None])
        None None)
   = Some [Batch.mkWorker (Some 0%Z) (Some 7200000%Z);
           Batch.mkWorker (Some 0%Z) None])
  /\ exists d,
      Batch.sortingDuration
        (Batch.pre_save
           (Batch.mkBatch None (Some 90) Batch.KG 0 "EUR" 0 None None None
              None None 0
              (Some [Batch.mkWorker (Some 0%Z) (Some 7200000%Z);
                     Batch.mkWorker (Some 0%Z) None])
              None None)) = Some d
      /\ d == sumOf workerHours
                [Batch.mkWorker (Some 0%Z) (Some 7200000%Z);
                 Batch.mkWorker (Some 0%Z) None].
Proof.
  split; [reflexivity|].
  exact (proj1 (proj1 (X13_sorting_figures
                         (Batch.mkBatch None (Some 90) Batch.KG 0 "EUR" 0
                            None None None None None 0
                            (Some [Batch.mkWorker (Some 0%Z) (Some 7200000%Z);
                                   Batch.mkWorker (Some 0%Z) None])
                            None None))
                  _ _ eq_refl)).
Defined.

(** ** Transactions: conversion by the stored rate *)

(** X14.  A transaction in another currency with a stored, non-zero
    exchange rate gets the amount divided by that rate, so the amount in
    euro times the rate gives the amount back; a transaction in EUR gets its
    own amount; without a usable rate the amount in euro is left as it was.
    An invoice with the same currency and rate converts its total by the
    same rule. *)
Theorem X14_conversion_by_stored_rate :
  (forall (t : Transaction.ITransaction) (x : Q),
      Transaction.currency t <> "EUR"%string ->
      Transaction.exchangeRate t = Some x -> ~ x == 0 ->
      Transaction.amountInEuro (Transaction.pre_save t) * x
      == Transaction.amount t)
  /\ (forall t : Transaction.ITransaction,
         Transaction.currency t = "EUR"%string ->
         Transaction.amountInEuro (Transaction.pre_save t)
         = Transaction.amount t)
  /\ (forall t : Transaction.ITransaction,
         Transaction.currency t <> "EUR"%string ->
         Transaction.exchangeRate t = None
         \/ (exists x, Transaction.exchangeRate t = Some x /\ x == 0) ->
         Transaction.amountInEuro (Transaction.pre_save t)
         = Transaction.amountInEuro t)
  /\ (forall (i : Invoice.IInvoice) (t : Transaction.ITransaction),
         Transaction.currency t = Invoice.currency i ->
         Transaction.exchangeRate t = Invoice.exchangeRate i ->
         Transaction.amount t = Invoice.total (Invoice.calculateTotals i) ->
         Invoice.currency i = "EUR"%string
         \/ (exists x, Invoice.exchangeRate i = Some x /\ ~ x == 0) ->
         Invoice.totalInEuro (Invoice.calculateTotals i)
         = Some (Transaction.amountInEuro (Transaction.pre_save t))).
Proof.
  split; [|split; [|split]].
  - intros t x Hc Hx Hnz.
    cbn [Transaction.pre_save Transaction.amountInEuro].
    apply String.eqb_neq in Hc. rewrite Hc, Hx.
    pose proof Hnz as Ht. apply truthy_spec in Ht. rewrite Ht.
    field. exact Hnz.
  - intros t Hc. cbn [Transaction.pre_save Transaction.amountInEuro].
    apply String.eqb_eq in Hc. now rewrite Hc.
  - intros t Hc H. cbn [Transaction.pre_save Transaction.amountInEuro].
    apply String.eqb_neq in Hc. rewrite Hc.
    destruct H as [->|(x & -> & Hz)]; [reflexivity|].
    now rewrite (truthy_false _ Hz).
  - intros i t Hc Hx Ha H.
    cbn [Transaction.pre_save Transaction.amountInEuro].
    rewrite Hc, Hx, Ha.
    assert (Hi : Invoice.totalInEuro (Invoice.calculateTotals i)
                 = if String.eqb (Invoice.currency i) "EUR"
                   then Some (Invoice.total (Invoice.calculateTotals i))
                   else match Invoice.exchangeRate i with
                        | Some x =>
                            if Js.truthy x
                            then Some (Invoice.total
                                         (Invoice.calculateTotals i) / x)
                            else Invoice.totalInEuro i
                        | None => Invoice.totalInEuro i
                        end).
    { invoice_field. reflexivity. }
    rewrite Hi.
    destruct (String.eqb (Invoice.currency i) "EUR") eqn:E; [reflexivity|].
    destruct H as [H|(x & Hr & Hnz)].
    + apply String.eqb_eq in H. congruence.
    + rewrite Hr. apply truthy_spec in Hnz. now rewrite Hnz.
Qed.

Lemma X14_conversion_by_stored_rate_witness :
  (Transaction.currency (Transaction.mkTransaction 100 "USD" (Some 2) 0)
   <> "EUR"%string /\ ~ 2 == 0)
  /\ Transaction.amountInEuro
       (Transaction.pre_save (Transaction.mkTransaction 100 "USD" (Some 2) 0))
     * 2 == 100.
Proof.
  assert (H1 : Transaction.currency
                 (Transaction.mkTransaction 100 "USD" (Some 2) 0)
               <> "EUR"%string) by discriminate.
  assert (H2 : ~ 2 == 0) by discriminate.
  split; [split; assumption|].
  exact (proj1 X14_conversion_by_stored_rate
           (Transaction.mkTransaction 100 "USD" (Some 2) 0) 2
           H1 eq_refl H2).
Defined.

(** ** Suppliers *)

Lemma supplier_pre_save_fields (now : Z) (s : Supplier.ISupplier) :
  Supplier.contracts (Supplier.pre_save now s) = Supplier.contracts s
  /\ Supplier.shipments (Supplier.pre_save now s) = Supplier.shipments s
  /\ Supplier.payments (Supplier.pre_save now s) = Supplier.payments s
  /\ Supplier.hasActiveContract (Supplier.pre_save now s)
     = existsb (Supplier.inForce now) (Supplier.contracts s)
  /\ Supplier.outstandingAmount (Supplier.pre_save now s)
     = Supplier.totalInvoiced s - Supplier.totalPaid s.
Proof.
  unfold Supplier.pre_save.
  destruct (Supplier.shipments s) as [|sh rest] eqn:E;
    [repeat split; symmetry; exact E|].
  unfold Supplier.updateRating. cbn [Supplier.shipments].
  destruct (ProductMethods.sliceLast 10 (sh :: rest));
    cbn [Supplier.setRating Supplier.contracts Supplier.shipments
           Supplier.payments Supplier.hasActiveContract
           Supplier.outstandingAmount];
    repeat split.
Qed.

Lemma find_first {A : Type} (f : A -> bool) (l : list A) (x : A) :
  find f l = Some x ->
  exists before after,
    l = before ++ x :: after /\ f x = true
    /\ Forall (fun y => f y = false) before.
Proof.
  induction l as [|y l IH]; cbn [find]; [discriminate|].
  destruct (f y) eqn:E.
  - intros H. injection H as <-. exists [], l. repeat split; [exact E|constructor].
  - intros H. destruct (IH H) as (b & a & -> & Hx & Hb).
    exists (y :: b), a. repeat split; [exact Hx|constructor; assumption].
Qed.

(** X15.  The flag written by the save and [getActiveContract] agree: at a
    given time [hasActiveContract] is true exactly when [getActiveContract]
    returns a contract.  The contract returned is active and has no end date
    or one that is still ahead, and it is the first such contract of the
    supplier: none of the contracts listed before it is in force. *)
Theorem X15_active_contract (now : Z) (s : Supplier.ISupplier) :
  (Supplier.hasActiveContract (Supplier.pre_save now s) = true
   <-> Supplier.getActiveContract now s <> None)
  /\ (forall c,
         Supplier.getActiveContract now s = Some c ->
         Supplier.isActive c = true
         /\ (forall e, Supplier.endDate c = Some e -> (now < e)%Z)
         /\ exists before after,
             Supplier.contracts s = before ++ c :: after
             /\ Forall (fun y => Supplier.inForce now y = false) before).
Proof.
  destruct (supplier_pre_save_fields now s) as (_ & _ & _ & Hh & _).
  rewrite Hh. unfold Supplier.getActiveContract. split.
  - split.
    + intros H. apply existsb_exists in H. destruct H as (c & Hin & Hc).
      intros Hn. rewrite (find_none _ _ Hn c Hin) in Hc. discriminate.
    + intros H.
      destruct (find (Supplier.inForce now) (Supplier.contracts s)) as [c|]
        eqn:E; [|contradiction].
      apply find_some in E. apply existsb_exists. exists c. exact E.
  - intros c Hc. destruct (find_first _ _ _ Hc) as (b & a & Hl & Hf & Hb).
    unfold Supplier.inForce in Hf. apply andb_true_iff in Hf.
    destruct Hf as [Ha He]. split; [exact Ha|]. split.
    + intros e Hend. rewrite Hend in He. now apply Z.ltb_lt.
    + exists b, a. split; assumption.
Qed.

Lemma X15_active_contract_witness :
  Supplier.getActiveContract 50
    (Supplier.mkSupplier 0 0
       [Supplier.mkContract "C-1" (Some 40%Z) true;
        Supplier.mkContract "C-2" (Some 90%Z) true]
       false [] [] (Supplier.mkRating 0 0 0 0 0 0 0 None))
  = Some (Supplier.mkContract "C-2" (Some 90%Z) true)
  /\ Supplier.isActive (Supplier.mkContract "C-2" (Some 90%Z) true) = true.
Proof.
  split; [reflexivity|].
  exact (proj1 (proj2 (X15_active_contract 50
                         (Supplier.mkSupplier 0 0
                            [Supplier.mkContract "C-1" (Some 40%Z) true;
                             Supplier.mkContract "C-2" (Some 90%Z) true]
                            false [] []
                            (Supplier.mkRating 0 0 0 0 0 0 0 None)))
                  _ eq_refl)).
Defined.




(** *** Counting and averaging *)

Lemma len_cons {A : Type} (x : A) (l : list A) :
  Supplier.len (x :: l) == Supplier.len l + 1.
Proof.
  unfold Supplier.len. cbn [List.length].
  rewrite Nat2Z.inj_succ, <- Z.add_1_r, inject_Z_plus. reflexivity.
Qed.

Lemma len_nonneg {A : Type} (l : list A) : 0 <= Supplier.len l.
Proof.
  unfold Supplier.len. change 0 with (inject_Z 0).
  rewrite <- Zle_Qle. lia.
Qed.

Lemma len_pos {A : Type} (x : A) (l : list A) : 0 < Supplier.len (x :: l).
Proof.
  rewrite len_cons. pose proof (len_nonneg l). lra.
Qed.

Lemma len_filter_le {A : Type} (f : A -> bool) (l : list A) :
  Supplier.len (filter f l) <= Supplier.len l.
Proof.
  unfold Supplier.len. rewrite <- Zle_Qle.
  apply Nat2Z.inj_le, filter_length_le.
Qed.

Lemma sum_sumOf (l : list Q) : Supplier.sum l == sumOf (fun x => x) l.
Proof.
  unfold Supplier.sum.
  change (fold_left Qplus l 0) with (fold_left (fun s x => s + x) l 0).
  rewrite (fold_left_sum (fun x => x)). ring.
Qed.

Lemma sumOf_bounds (lo hi : Q) (l : list Q) :
  Forall (fun x => lo <= x <= hi) l ->
  lo * Supplier.len l <= sumOf (fun x => x) l
  /\ sumOf (fun x => x) l <= hi * Supplier.len l.
Proof.
  induction 1 as [|x l Hx Hl IH]; cbn [sumOf].
  - change (Supplier.len (@nil Q)) with 0. split; lra.
  - rewrite len_cons. destruct IH. split; nra.
Qed.

Lemma average_bounds (lo hi x : Q) (l : list Q) :
  Forall (fun y => lo <= y <= hi) (x :: l) ->
  lo <= Supplier.sum (x :: l) / Supplier.len (x :: l)
  /\ Supplier.sum (x :: l) / Supplier.len (x :: l) <= hi.
Proof.
  intros H. destruct (sumOf_bounds lo hi _ H) as [H1 H2].
  pose proof (len_pos x l) as Hp. rewrite sum_sumOf. split.
  - apply Qle_shift_div_l; assumption.
  - apply Qle_shift_div_r; assumption.
Qed.

Lemma ratio_bounds (a b : Q) :
  0 <= a -> a <= b -> 0 < b -> 0 <= a / b /\ a / b <= 1.
Proof.
  intros H0 Hab Hb. split.
  - apply Qle_shift_div_l; [exact Hb|lra].
  - apply Qle_shift_div_r; [exact Hb|lra].
Qed.

Lemma sliceLast_cons {A : Type} (n : nat) (x : A) (l : list A) :
  exists y l', ProductMethods.sliceLast (S n) (x :: l) = y :: l'.
Proof.
  pose proof (sliceLast_length (S n) (x :: l)) as H.
  destruct (ProductMethods.sliceLast (S n) (x :: l)) as [|y l'].
  - cbn [List.length] in H. lia.
  - exists y, l'. reflexivity.
Qed.

Lemma sliceLast_In {A : Type} (n : nat) (l : list A) (x : A) :
  In x (ProductMethods.sliceLast n l) -> In x l.
Proof.
  intros H. rewrite (sliceLast_suffix n l). apply in_or_app. right. exact H.
Qed.

(** *** The rating *)

(** The five scores computed by [updateRating] from the recent shipments
    and the stored rating. *)
Lemma updateRating_scores (now : Z) (s : Supplier.ISupplier)
    (x : Supplier.IShipment) (rest : list Supplier.IShipment) :
  Supplier.shipments s = x :: rest ->
  let recent := ProductMethods.sliceLast 10 (Supplier.shipments s) in
  let scores :=
    map (fun sh => orZero (Supplier.qualityRating sh))
      (filter Supplier.hasRating recent) in
  let delivered :=
    filter (fun sh => Supplier.isDelivered (Supplier.status sh)) recent in
  let r' := Supplier.rating (Supplier.updateRating now s) in
  Supplier.qualityScore r'
  = match scores with
    | [] => Supplier.qualityScore (Supplier.rating s)
    | _ :: _ => Supplier.sum scores / Supplier.len scores
    end
  /\ Supplier.deliveryScore r'
     = match delivered with
       | [] => 0
       | _ :: _ =>
           Supplier.len (filter Supplier.onTime delivered)
           / Supplier.len delivered * 5
       end
  /\ Supplier.communicationScore r'
     = (if Js.truthy (Supplier.communicationScore (Supplier.rating s))
        then Supplier.communicationScore (Supplier.rating s) else 4)
  /\ Supplier.priceScore r'
     = (if Js.truthy (Supplier.priceScore (Supplier.rating s))
        then Supplier.priceScore (Supplier.rating s) else 4)
  /\ Supplier.overallScore r'
     = (Supplier.qualityScore r' + Supplier.deliveryScore r'
        + Supplier.communicationScore r' + Supplier.priceScore r') / 4
  /\ Supplier.totalShipments r' = Supplier.len (Supplier.shipments s)
  /\ Supplier.successfulShipments r'
     = Supplier.len
         (filter (fun sh => Supplier.isDelivered (Supplier.status sh))
            (Supplier.shipments s)).
Proof.
  intros Hs. unfold Supplier.updateRating. rewrite Hs.
  destruct (sliceLast_cons 9 x rest) as (y & l' & Hr). rewrite Hr.
  cbn [Supplier.setRating Supplier.rating Supplier.qualityScore
         Supplier.deliveryScore Supplier.communicationScore
         Supplier.priceScore Supplier.overallScore Supplier.totalShipments
         Supplier.successfulShipments].
  repeat split.
Qed.

Lemma delivery_in_range (l : list Supplier.IShipment) :
  0 <= match l with
       | [] => 0
       | _ :: _ =>
           Supplier.len (filter Supplier.onTime l) / Supplier.len l * 5
       end <= 5.
Proof.
  destruct l as [|x l]; [split; discriminate|].
  destruct (ratio_bounds (Supplier.len (filter Supplier.onTime (x :: l)))
              (Supplier.len (x :: l)) (len_nonneg _) (len_filter_le _ _)
              (len_pos x l)) as [H0 H1].
  split; lra.
Qed.

(** X17.  For a supplier with at least one shipment, [updateRating] gives a
    delivery score between 0 and 5, counts as successful no more shipments
    than there are, and so leaves a success rate between 0 and 100. *)
Theorem X17_delivery_and_success (now : Z) (s : Supplier.ISupplier)
    (x : Supplier.IShipment) (rest : list Supplier.IShipment) :
  Supplier.shipments s = x :: rest ->
  let s' := Supplier.updateRating now s in
  0 <= Supplier.deliveryScore (Supplier.rating s') <= 5
  /\ 0 <= Supplier.successfulShipments (Supplier.rating s')
     <= Supplier.totalShipments (Supplier.rating s')
  /\ 0 <= Supplier.successRate s' <= 100.
Proof.
  intros Hs s'. subst s'.
  destruct (updateRating_scores now s x rest Hs)
    as (_ & Hd & _ & _ & _ & Ht & Hsucc).
  split; [rewrite Hd; apply delivery_in_range|].
  assert (Hc : 0 <= Supplier.successfulShipments
                      (Supplier.rating (Supplier.updateRating now s))
               <= Supplier.totalShipments
                    (Supplier.rating (Supplier.updateRating now s))).
  { rewrite Hsucc, Ht. split; [apply len_nonneg|apply len_filter_le]. }
  split; [exact Hc|].
  unfold Supplier.successRate.
  assert (Hpos : 0 < Supplier.totalShipments
                       (Supplier.rating (Supplier.updateRating now s)))
    by (rewrite Ht, Hs; apply len_pos).
  destruct (Qeq_bool _ 0) eqn:E; [split; discriminate|].
  destruct Hc as [Hc0 Hc1].
  destruct (ratio_bounds _ _ Hc0 Hc1 Hpos) as [H0 H1]. split; lra.
Qed.

Lemma X17_delivery_and_success_witness :
  Supplier.shipments
    (Supplier.mkSupplier 0 0 [] false
       [Supplier.mkShipment (Some 10%Z) (Some 12%Z) [] None Supplier.DELIVERED;
        Supplier.mkShipment None None [] (Some 4) Supplier.DELIVERED]
       [] (Supplier.mkRating 0 0 0 0 0 0 0 None))
  = [Supplier.mkShipment (Some 10%Z) (Some 12%Z) [] None Supplier.DELIVERED;
     Supplier.mkShipment None None [] (Some 4) Supplier.DELIVERED]
  /\ 0 <= Supplier.deliveryScore
            (Supplier.rating
               (Supplier.updateRating 0
                  (Supplier.mkSupplier 0 0 [] false
                     [Supplier.mkShipment (Some 10%Z) (Some 12%Z) [] None
                        Supplier.DELIVERED;
                      Supplier.mkShipment None None [] (Some 4)
                        Supplier.DELIVERED]
                     [] (Supplier.mkRating 0 0 0 0 0 0 0 None)))) <= 5.
Proof.
  split; [reflexivity|].
  exact (proj1 (X17_delivery_and_success 0
                  (Supplier.mkSupplier 0 0 [] false
                     [Supplier.mkShipment (Some 10%Z) (Some 12%Z) [] None
                        Supplier.DELIVERED;
                      Supplier.mkShipment None None [] (Some 4)
                        Supplier.DELIVERED]
                     [] (Supplier.mkRating 0 0 0 0 0 0 0 None))
                  _ _ eq_refl)).
Defined.

Lemma truthy_or_4 (x : Q) :
  0 <= x <= 5 -> 0 <= (if Js.truthy x then x else 4) <= 5.
Proof.
  intros H. destruct (Js.truthy x); [exact H|split; discriminate].
Qed.

(** X18.  The range of the scores is kept: if the stored scores lie between
    0 and 5 and so does every quality rating of a shipment, then after
    [updateRating], and after a save, every score of the rating, the overall
    score included, lies between 0 and 5 again. *)
Theorem X18_scores_stay_in_range (now : Z) (s : Supplier.ISupplier) :
  scoresInRange (Supplier.rating s) ->
  (forall sh q,
      In sh (Supplier.shipments s) -> Supplier.qualityRating sh = Some q ->
      0 <= q <= 5) ->
  scoresInRange (Supplier.rating (Supplier.updateRating now s))
  /\ scoresInRange (Supplier.rating (Supplier.pre_save now s)).
Proof.
  intros Hr Hq.
  assert (Hu : forall t,
             Supplier.rating t = Supplier.rating s ->
             Supplier.shipments t = Supplier.shipments s ->
             scoresInRange (Supplier.rating (Supplier.updateRating now t))).
  { intros t Ht Hsh.
    destruct (Supplier.shipments t) as [|x rest] eqn:E.
    - unfold Supplier.updateRating. rewrite E. cbn. rewrite Ht. exact Hr.
    - destruct (updateRating_scores now t x rest E)
        as (Hqs & Hd & Hc & Hp & Ho & _).
      destruct Hr as (R1 & _ & R3 & R4 & _).
      assert (Q1 : 0 <= Supplier.qualityScore
                          (Supplier.rating (Supplier.updateRating now t))
                   <= 5).
      { rewrite Hqs.
        destruct (map _ _) as [|y ys] eqn:Em; [rewrite Ht; exact R1|].
        apply (average_bounds 0 5). rewrite <- Em.
        apply Forall_forall. intros v Hv. apply in_map_iff in Hv.
        destruct Hv as (sh & <- & Hin). apply filter_In in Hin.
        destruct Hin as [Hin Hhas]. apply sliceLast_In in Hin.
        unfold Supplier.hasRating in Hhas.
        destruct (Supplier.qualityRating sh) as [q|] eqn:Eq; [|discriminate].
        cbn [orZero]. apply (Hq sh q); [|exact Eq].
        rewrite <- Hsh. rewrite E in Hin. exact Hin. }
      assert (Q2 : 0 <= Supplier.deliveryScore
                          (Supplier.rating (Supplier.updateRating now t))
                   <= 5)
        by (rewrite Hd; apply delivery_in_range).
      assert (Q3 : 0 <= Supplier.communicationScore
                          (Supplier.rating (Supplier.updateRating now t))
                   <= 5)
        by (rewrite Hc, Ht; apply truthy_or_4; exact R3).
      assert (Q4 : 0 <= Supplier.priceScore
                          (Supplier.rating (Supplier.updateRating now t))
                   <= 5)
        by (rewrite Hp, Ht; apply truthy_or_4; exact R4).
      repeat split; try tauto; rewrite Ho.
      + apply Qle_shift_div_l; [reflexivity|]. lra.
      + apply Qle_shift_div_r; [reflexivity|]. lra. }
  split; [apply (Hu s); reflexivity|].
  unfold Supplier.pre_save.
  destruct (Supplier.shipments s) as [|x rest] eqn:E; [exact Hr|].
  apply Hu; reflexivity.
Qed.

Lemma X18_scores_stay_in_range_witness :
  scoresInRange (Supplier.mkRating 3 0 0 5 2 0 0 None)
  /\ scoresInRange
       (Supplier.rating
          (Supplier.updateRating 0
             (Supplier.mkSupplier 0 0 [] false
                [Supplier.mkShipment None None [] (Some 4) Supplier.DELIVERED]
                [] (Supplier.mkRating 3 0 0 5 2 0 0 None)))).
Proof.
  assert (Hr : scoresInRange (Supplier.mkRating 3 0 0 5 2 0 0 None))
    by (unfold scoresInRange; cbn; repeat split; discriminate).
  split; [exact Hr|].
  refine (proj1 (X18_scores_stay_in_range 0
                   (Supplier.mkSupplier 0 0 [] false
                      [Supplier.mkShipment None None [] (Some 4)
                         Supplier.DELIVERED]
                      [] (Supplier.mkRating 3 0 0 5 2 0 0 None))
                   Hr _)).
  intros sh q [<-|[]] Hq. injection Hq as <-. split; discriminate.
Defined.

(** X19.  Only the last ten shipments count for the scores: whatever
    shipments come before the last ten, the quality, delivery,
    communication, price and overall scores after [updateRating] are those
    the last ten alone would give. *)
Theorem X19_last_ten_shipments (now : Z) (s : Supplier.ISupplier)
    (older recent : list Supplier.IShipment) :
  List.length recent = 10%nat ->
  let r := Supplier.rating
             (Supplier.updateRating now (withShipments s (older ++ recent))) in
  let r' := Supplier.rating
              (Supplier.updateRating now (withShipments s recent)) in
  Supplier.qualityScore r = Supplier.qualityScore r'
  /\ Supplier.deliveryScore r = Supplier.deliveryScore r'
  /\ Supplier.communicationScore r = Supplier.communicationScore r'
  /\ Supplier.priceScore r = Supplier.priceScore r'
  /\ Supplier.overallScore r = Supplier.overallScore r'.
Proof.
  intros Hlen.
  assert (H1 : ProductMethods.sliceLast 10 (older ++ recent) = recent).
  { unfold ProductMethods.sliceLast. rewrite length_app, Hlen.
    replace (List.length older + 10 - 10)%nat with (List.length older) by lia.
    rewrite skipn_app, skipn_all, Nat.sub_diag. reflexivity. }
  assert (H2 : ProductMethods.sliceLast 10 recent = recent).
  { unfold ProductMethods.sliceLast. rewrite Hlen. reflexivity. }
  destruct recent as [|x rest]; [discriminate|].
  unfold Supplier.updateRating.
  cbn [withShipments Supplier.shipments Supplier.rating].
  rewrite H1, H2.
  cbn [Supplier.setRating Supplier.rating Supplier.qualityScore
         Supplier.deliveryScore Supplier.communicationScore
         Supplier.priceScore Supplier.overallScore].
  repeat split.
Qed.

Lemma X19_last_ten_shipments_witness :
  List.length
    (List.repeat
       (Supplier.mkShipment None None [] (Some 5) Supplier.DELIVERED) 10)
  = 10%nat
  /\ Supplier.qualityScore
       (Supplier.rating
          (Supplier.updateRating 0
             (withShipments
                (Supplier.mkSupplier 0 0 [] false [] []
                   (Supplier.mkRating 0 0 0 0 0 0 0 None))
                ([Supplier.mkShipment None None [] (Some 1) Supplier.CANCELLED]
                 ++ List.repeat
                      (Supplier.mkShipment None None [] (Some 5)
                         Supplier.DELIVERED) 10))))
     = Supplier.qualityScore
         (Supplier.rating
            (Supplier.updateRating 0
               (withShipments
                  (Supplier.mkSupplier 0 0 [] false [] []
                     (Supplier.mkRating 0 0 0 0 0 0 0 None))
                  (List.repeat
                     (Supplier.mkShipment None None [] (Some 5)
                        Supplier.DELIVERED) 10)))).
Proof.
  split; [reflexivity|].
  exact (proj1 (X19_last_ten_shipments 0
                  (Supplier.mkSupplier 0 0 [] false [] []
                     (Supplier.mkRating 0 0 0 0 0 0 0 None))
                  [Supplier.mkShipment None None [] (Some 1)
                     Supplier.CANCELLED]
                  (List.repeat
                     (Supplier.mkShipment None None [] (Some 5)
                        Supplier.DELIVERED) 10)
                  eq_refl)).
Defined.

Lemma paymentTimes_In (s : Supplier.ISupplier) (v : Q) :
  In v (flat_map
          (fun shipment =>
             flat_map Supplier.paymentDays (Supplier.invoices shipment))
          (Supplier.shipments s))
  <-> exists ms, paidAfter s ms /\ v = inject_Z (ms / 86400000)%Z.
Proof.
  rewrite in_flat_map. split.
  - intros (sh & Hsh & Hv). apply in_flat_map in Hv.
    destruct Hv as (inv & Hinv & Hv). unfold Supplier.paymentDays in Hv.
    destruct (Supplier.paymentDate inv) as [paid|] eqn:Ep; [|destruct Hv].
    destruct (Supplier.issueDate inv) as [issued|] eqn:Ei; [|destruct Hv].
    destruct Hv as [<-|[]].
    exists (paid - issued)%Z. split; [|reflexivity].
    exists sh, inv, issued, paid. repeat split; assumption.
  - intros (ms & (sh & inv & issued & paid & Hsh & Hinv & Ei & Ep & ->) & ->).
    exists sh. split; [exact Hsh|]. apply in_flat_map.
    exists inv. split; [exact Hinv|]. unfold Supplier.paymentDays.
    rewrite Ep, Ei. left. reflexivity.
Qed.

(** X20.  The average payment time is 0 when no invoice carries both an
    issue and a payment date.  Otherwise it is the mean of the whole days
    between issue and payment of the invoices that carry both, so when each
    of them was paid at least [lo] and at most [hi] whole days after its
    issue, the average lies between [lo] and [hi]. *)
Theorem X20_average_payment_time (s : Supplier.ISupplier) :
  ((forall ms, ~ paidAfter s ms) ->
   Supplier.calculateAveragePaymentTime s = 0)
  /\ (forall lo hi : Z,
         (exists ms, paidAfter s ms) ->
         (forall ms,
             paidAfter s ms ->
             (lo * 86400000 <= ms < (hi + 1) * 86400000)%Z) ->
         inject_Z lo <= Supplier.calculateAveragePaymentTime s
         /\ Supplier.calculateAveragePaymentTime s <= inject_Z hi).
Proof.
  unfold Supplier.calculateAveragePaymentTime.
  pose proof (paymentTimes_In s) as Hin.
  destruct (flat_map _ (Supplier.shipments s)) as [|v vs] eqn:E.
  - split; [reflexivity|].
    intros lo hi (ms & Hms) _. exfalso.
    apply (proj2 (Hin (inject_Z (ms / 86400000)%Z))).
    exists ms. split; [exact Hms|reflexivity].
  - split.
    + intros Hno. exfalso.
      destruct (proj1 (Hin v) (or_introl eq_refl)) as (ms & Hms & _).
      exact (Hno ms Hms).
    + intros lo hi _ Hb. apply average_bounds.
      apply Forall_forall. intros y Hy.
      destruct (proj1 (Hin y) Hy) as (ms & Hms & ->).
      specialize (Hb ms Hms). rewrite <- !Zle_Qle. split.
      * apply Z.div_le_lower_bound; lia.
      * apply Z.lt_succ_r, Z.div_lt_upper_bound; lia.
Qed.

Lemma X20_average_payment_time_witness :
  (exists ms,
      paidAfter
        (Supplier.mkSupplier 0 0 [] false
           [Supplier.mkShipment None None
              [Supplier.mkInvoice (Some 0%Z) 100 (Some 200000000%Z)]
              None Supplier.DELIVERED]
           [] (Supplier.mkRating 0 0 0 0 0 0 0 None)) ms)
  /\ inject_Z 2
     <= Supplier.calculateAveragePaymentTime
          (Supplier.mkSupplier 0 0 [] false
             [Supplier.mkShipment None None
                [Supplier.mkInvoice (Some 0%Z) 100 (Some 200000000%Z)]
                None Supplier.DELIVERED]
             [] (Supplier.mkRating 0 0 0 0 0 0 0 None)).
Proof.
  assert (He : exists ms,
             paidAfter
               (Supplier.mkSupplier 0 0 [] false
                  [Supplier.mkShipment None None
                     [Supplier.mkInvoice (Some 0%Z) 100
                        (Some 200000000%Z)]
                     None Supplier.DELIVERED]
                  [] (Supplier.mkRating 0 0 0 0 0 0 0 None)) ms).
  { exists 200000000%Z,
      (Supplier.mkShipment None None
         [Supplier.mkInvoice (Some 0%Z) 100 (Some 200000000%Z)]
         None Supplier.DELIVERED),
      (Supplier.mkInvoice (Some 0%Z) 100 (Some 200000000%Z)),
      0%Z, 200000000%Z.
    split; [left; reflexivity|]. split; [left; reflexivity|].
    split; [reflexivity|]. split; reflexivity. }
  split; [exact He|].
  refine (proj1 (proj2 (X20_average_payment_time _) 2%Z 2%Z He _)).
  intros ms (sh & inv & issued & paid & [<-|[]] & [<-|[]] & Hi & Hp & ->).
  injection Hi as <-. injection Hp as <-. lia.
Defined.

(** ** Payroll *)

Lemma addAmount_entries (l : list string) :
  fold_left Payroll.addAmount l (Js.Num 0)
  = match l with
    | [] => Js.Num 0
    | _ :: _ => Js.NaN
    end.
Proof.
  destruct l as [|a l]; cbn [fold_left]; [reflexivity|].
  unfold Payroll.addAmount at 2.
  induction l as [|b l IH]; cbn [fold_left]; [reflexivity|exact IH].
Qed.

(** X21.  After a save earnings, deductions and net pay add up, and a
    second save changes nothing.  The entries of [allowances] and
    [deductions] are strings and [bonus] is a string, none with an amount:
    the bonus never counts; with no allowance the total earnings are the
    basic salary plus the overtime amount plus the commission (an absent
    commission counting for nothing), and with an allowance entered they
    stay what they were; with no deduction the total deductions are the
    total tax, and with a deduction entered they stay what they were. *)
Theorem X21_net_pay (p : Payroll.IPayroll) :
  let p' := Payroll.pre_save p in
  Payroll.netPay p' + Payroll.totalDeductions p' == Payroll.totalEarnings p'
  /\ Payroll.pre_save p' = p'
  /\ (Payroll.allowances p = [] ->
      Payroll.totalEarnings p'
      == Payroll.basicSalary p + Payroll.overtime_amount p
         + orZero (Payroll.commission p))
  /\ (Payroll.allowances p <> [] ->
      Payroll.totalEarnings p' = Payroll.totalEarnings p)
  /\ (Payroll.deductions p = [] ->
      Payroll.totalDeductions p' == Payroll.tax_totalTax p)
  /\ (Payroll.deductions p <> [] ->
      Payroll.totalDeductions p' = Payroll.totalDeductions p).
Proof.
  cbv zeta. unfold Payroll.pre_save.
  cbn [Payroll.netPay Payroll.totalDeductions Payroll.totalEarnings
         Payroll.basicSalary Payroll.allowances Payroll.overtime_amount
         Payroll.bonus Payroll.commission Payroll.deductions
         Payroll.tax_totalTax].
  rewrite !addAmount_entries.
  split; [ring|]. split; [|split; [|split; [|split]]].
  - destruct (Payroll.allowances p), (Payroll.deductions p); reflexivity.
  - intros ->. cbn [Js.assign]. rewrite or0_orZero. ring.
  - intros H. destruct (Payroll.allowances p); [now elim H|reflexivity].
  - intros ->. cbn [Js.add Js.assign]. ring.
  - intros H. destruct (Payroll.deductions p); [now elim H|reflexivity].
Qed.

Lemma X21_net_pay_witness :
  Payroll.allowances
    (Payroll.mkPayroll 2000 [] 150 (Some "YEAR_END"%string) (Some 50) 0
       ["PENSION"%string] 300 400 0)
  = []
  /\ Payroll.totalEarnings
       (Payroll.pre_save
          (Payroll.mkPayroll 2000 [] 150 (Some "YEAR_END"%string) (Some 50)
             0 ["PENSION"%string] 300 400 0))
     == 2000 + 150 + orZero (Some 50).
Proof.
  split; [reflexivity|].
  exact (proj1 (proj2 (proj2 (X21_net_pay
                                (Payroll.mkPayroll 2000 [] 150
                                   (Some "YEAR_END"%string) (Some 50) 0
                                   ["PENSION"%string] 300 400 0))))
           eq_refl).
Defined.

(** ** Attendance and leave *)

(** X23.  When both check times are recorded the save splits the hours
    worked (the time between check-in and check-out less the break minutes)
    into regular and overtime hours that add up to the total: regular hours
    never exceed 8, overtime is never negative and is positive exactly when
    the total exceeds 8, in which case the attendance is flagged as
    overtime. *)
Theorem X23_hours_split (scheduledStart : Z -> string -> option Z)
    (a : Employee.IAttendance) (checkIn checkOut : Z) :
  Employee.actualCheckIn a = Some checkIn ->
  Employee.actualCheckOut a = Some checkOut ->
  let a' := Employee.pre_save scheduledStart a in
  exists t r o,
    Employee.totalHours a' = Some t
    /\ Employee.regularHours a' = Some r
    /\ Employee.overtimeHours a' = Some o
    /\ t == (inject_Z (checkOut - checkIn)
             - orZero (Employee.totalBreakTime a) * 60000) / 3600000
    /\ r + o == t /\ r <= 8 /\ 0 <= o
    /\ (0 < o <-> 8 < t)
    /\ (8 < t -> Employee.isOvertime a' = true).
Proof.
  intros Hin Hout a'. subst a'. unfold Employee.pre_save. rewrite Hin, Hout.
  cbn [Employee.totalHours Employee.regularHours Employee.overtimeHours
         Employee.isOvertime].
  set (t := (inject_Z (checkOut - checkIn)
             - Js.or0 (Employee.totalBreakTime a) * 60 * 1000)
            / inject_Z (1000 * 60 * 60)).
  exists t.
  destruct (Js.gt t 8) eqn:E.
  - apply gt_spec in E. exists 8, (t - 8).
    repeat split; try reflexivity; try lra.
    subst t. rewrite or0_orZero. change (inject_Z (1000 * 60 * 60))
      with 3600000. field.
  - assert (Hle : t <= 8).
    { destruct (Qlt_le_dec 8 t) as [H|H]; [|exact H].
      apply gt_spec in H. congruence. }
    exists t, 0.
    repeat split; try reflexivity; try lra.
    subst t. rewrite or0_orZero. change (inject_Z (1000 * 60 * 60))
      with 3600000. field.
Qed.

Lemma X23_hours_split_witness :
  (Employee.actualCheckIn
     (Employee.mkAttendance 0 "08:00" (Some 0%Z) (Some 36000000%Z) None None
        None None None None None (Some 60) false) = Some 0%Z
   /\ Employee.actualCheckOut
        (Employee.mkAttendance 0 "08:00" (Some 0%Z) (Some 36000000%Z) None
           None None None None None None (Some 60) false)
      = Some 36000000%Z)
  /\ exists t r o,
      Employee.totalHours
        (Employee.pre_save (fun _ _ => Some 0%Z)
           (Employee.mkAttendance 0 "08:00" (Some 0%Z) (Some 36000000%Z)
              None None None None None None None (Some 60) false)) = Some t
      /\ Employee.regularHours
           (Employee.pre_save (fun _ _ => Some 0%Z)
              (Employee.mkAttendance 0 "08:00" (Some 0%Z) (Some 36000000%Z)
                 None None None None None None None (Some 60) false))
         = Some r
      /\ Employee.overtimeHours
           (Employee.pre_save (fun _ _ => Some 0%Z)
              (Employee.mkAttendance 0 "08:00" (Some 0%Z) (Some 36000000%Z)
                 None None None None None None None (Some 60) false))
         = Some o
      /\ r + o == t.
Proof.
  split; [split; reflexivity|].
  destruct (X23_hours_split (fun _ _ => Some 0%Z)
              (Employee.mkAttendance 0 "08:00" (Some 0%Z) (Some 36000000%Z)
                 None None None None None None None (Some 60) false)
              0 36000000 eq_refl eq_refl)
    as (t & r & o & Ht & Hr & Ho & _ & Hsum & _).
  exists t, r, o. repeat split; assumption.
Defined.

(** X24.  The save never overrides a status other than [PRESENT]: an
    attendance marked absent, on leave, late and so on keeps its status.
    Without both check times the save changes nothing at all.  With both,
    an attendance whose status is unset or [PRESENT] and whose check-in is
    more than 30 whole minutes after the scheduled start becomes [LATE]. *)
Theorem X24_attendance_status (scheduledStart : Z -> string -> option Z)
    (a : Employee.IAttendance) :
  (forall st,
      Employee.status a = Some st -> st <> Employee.PRESENT ->
      Employee.status (Employee.pre_save scheduledStart a) = Some st)
  /\ (Employee.actualCheckIn a = None \/ Employee.actualCheckOut a = None ->
      Employee.pre_save scheduledStart a = a)
  /\ (forall checkIn checkOut start,
         Employee.actualCheckIn a = Some checkIn ->
         Employee.actualCheckOut a = Some checkOut ->
         scheduledStart (Employee.date a) (Employee.scheduledStartTime a)
         = Some start ->
         Employee.status a = None
         \/ Employee.status a = Some Employee.PRESENT ->
         (start + 31 * 60000 <= checkIn)%Z ->
         Employee.status (Employee.pre_save scheduledStart a)
         = Some Employee.LATE).
Proof.
  split; [|split].
  - intros st Hs Hne. unfold Employee.pre_save.
    destruct (Employee.actualCheckIn a); [|exact Hs].
    destruct (Employee.actualCheckOut a); [|exact Hs].
    cbn [Employee.status]. rewrite Hs.
    destruct st; try reflexivity. contradiction.
  - intros [H|H]; unfold Employee.pre_save; rewrite H;
      [|destruct (Employee.actualCheckIn a)]; reflexivity.
  - intros checkIn checkOut start Hin Hout Hst Hs Hlate.
    unfold Employee.pre_save. rewrite Hin, Hout, Hst.
    cbn [Employee.status].
    assert (Hp : Employee.isPresentOrUnset (Employee.status a) = true)
      by (destruct Hs as [->| ->]; reflexivity).
    rewrite Hp.
    assert (Hlt : (start <? checkIn)%Z = true) by (apply Z.ltb_lt; lia).
    rewrite Hlt.
    assert (Hm : Js.gt (inject_Z ((checkIn - start) / (1000 * 60))%Z) 30
                 = true).
    { apply gt_spec. change 30 with (inject_Z 30). rewrite <- Zlt_Qlt.
      apply Z.lt_le_trans with 31%Z; [lia|].
      apply Z.div_le_lower_bound; lia. }
    now rewrite Hm.
Qed.

Lemma X24_attendance_status_witness :
  (Employee.status
     (Employee.mkAttendance 0 "08:00" (Some 0%Z) (Some 36000000%Z)
        (Some Employee.ON_LEAVE) None None None (Some 45) None None None
        false) = Some Employee.ON_LEAVE
   /\ Employee.ON_LEAVE <> Employee.PRESENT)
  /\ Employee.status
       (Employee.pre_save (fun _ _ => Some 0%Z)
          (Employee.mkAttendance 0 "08:00" (Some 0%Z) (Some 36000000%Z)
             (Some Employee.ON_LEAVE) None None None (Some 45) None None None
             false)) = Some Employee.ON_LEAVE.
Proof.
  assert (H : Employee.ON_LEAVE <> Employee.PRESENT) by discriminate.
  split; [split; [reflexivity|exact H]|].
  exact (proj1 (X24_attendance_status (fun _ _ => Some 0%Z)
                  (Employee.mkAttendance 0 "08:00" (Some 0%Z)
                     (Some 36000000%Z) (Some Employee.ON_LEAVE) None None
                     None (Some 45) None None None false))
           Employee.ON_LEAVE eq_refl H).
Defined.

Lemma sumOf_nonneg {A : Type} (f : A -> Q) (l : list A) :
  (forall x, In x l -> 0 <= f x) -> 0 <= sumOf f l.
Proof.
  induction l as [|x l IH]; intros H; cbn [sumOf]; [discriminate|].
  assert (H0 : 0 <= f x) by (apply H; left; reflexivity).
  assert (H1 : 0 <= sumOf f l) by (apply IH; intros y Hy; apply H; right; exact Hy).
  lra.
Qed.

Lemma addBreak_sum (bs : list Employee.Break) (a : Q) :
  fold_left Employee.addBreak bs a == a + sumOf breakMinutes bs.
Proof.
  revert a. induction bs as [|b bs IH]; intros a; cbn [fold_left sumOf].
  - ring.
  - rewrite IH. unfold Employee.addBreak, breakMinutes, Js.truthy.
    change (inject_Z (1000 * 60)) with 60000.
    destruct (Employee.duration b) as [d|];
      [destruct (Qeq_bool d 0); cbn [negb]|];
      destruct (Employee.startTime b), (Employee.endTime b); ring.
Qed.

(** X25.  The break time of an attendance is the sum over its breaks of the
    minutes each one counts for: the recorded duration when it is set and
    not zero, whatever the times say; else the minutes between start and
    end; nothing for a break that is still open.  Without breaks it is 0,
    and it is never negative when no duration is negative and no break ends
    before it starts. *)
Theorem X25_break_time (a : Employee.IAttendance) :
  Employee.calculateBreakTime a
  == sumOf breakMinutes (optList (Employee.breaks a))
  /\ ((forall b,
          In b (optList (Employee.breaks a)) ->
          (forall d, Employee.duration b = Some d -> 0 <= d)
          /\ (forall s e,
                 Employee.startTime b = Some s -> Employee.endTime b = Some e ->
                 (s <= e)%Z)) ->
      0 <= Employee.calculateBreakTime a).
Proof.
  assert (H : Employee.calculateBreakTime a
              == sumOf breakMinutes (optList (Employee.breaks a))).
  { unfold Employee.calculateBreakTime.
    destruct (Employee.breaks a) as [[|b bs]|]; cbn [optList sumOf];
      try reflexivity.
    rewrite addBreak_sum. cbn [sumOf]. ring. }
  split; [exact H|]. intros Hb. rewrite H.
  apply sumOf_nonneg. intros b Hin.
  destruct (Hb b Hin) as [Hd Ht].
  unfold breakMinutes.
  assert (Hf : 0 <= match Employee.startTime b, Employee.endTime b with
                    | Some s, Some e => inject_Z (e - s) / 60000
                    | _, _ => 0
                    end).
  { destruct (Employee.startTime b) as [s|]; [|discriminate].
    destruct (Employee.endTime b) as [e|]; [|discriminate].
    apply Qle_shift_div_l; [reflexivity|]. rewrite Qmult_0_l.
    change 0 with (inject_Z 0). rewrite <- Zle_Qle.
    specialize (Ht s e eq_refl eq_refl). lia. }
  destruct (Employee.duration b) as [d|]; [|exact Hf].
  destruct (Qeq_bool d 0); [exact Hf|]. apply (Hd d eq_refl).
Qed.

Lemma X25_break_time_witness :
  (forall b,
      In b (optList
              (Employee.breaks
                 (Employee.mkAttendance 0 "08:00" None None None None None
                    None None None
                    (Some [Employee.mkBreak (Some 0%Z) (Some 600000%Z)
                             (Some 15);
                           Employee.mkBreak (Some 0%Z) (Some 600000%Z) None])
                    None false))) ->
      (forall d, Employee.duration b = Some d -> 0 <= d)
      /\ (forall s e,
             Employee.startTime b = Some s -> Employee.endTime b = Some e ->
             (s <= e)%Z))
  /\ 0 <= Employee.calculateBreakTime
            (Employee.mkAttendance 0 "08:00" None None None None None None
               None None
               (Some [Employee.mkBreak (Some 0%Z) (Some 600000%Z) (Some 15);
                      Employee.mkBreak (Some 0%Z) (Some 600000%Z) None])
               None false).
Proof.
  assert (H : forall b,
             In b (optList
                     (Employee.breaks
                        (Employee.mkAttendance 0 "08:00" None None None None
                           None None None None
                           (Some [Employee.mkBreak (Some 0%Z)
                                    (Some 600000%Z) (Some 15);
                                  Employee.mkBreak (Some 0%Z)
                                    (Some 600000%Z) None])
                           None false))) ->
             (forall d, Employee.duration b = Some d -> 0 <= d)
             /\ (forall s e,
                    Employee.startTime b = Some s ->
                    Employee.endTime b = Some e -> (s <= e)%Z)).
  { intros b [<-|[<-|[]]]; split.
    - intros d Hd. injection Hd as <-. discriminate.
    - intros s e Hs He. injection Hs as <-. injection He as <-. lia.
    - intros d Hd. discriminate Hd.
    - intros s e Hs He. injection Hs as <-. injection He as <-. lia. }
  split; [exact H|].
  exact (proj2 (X25_break_time _) H).
Defined.


(** ** The numbers given to new documents *)

Lemma append_inj_l (p s1 s2 : string) :
  String.append p s1 = String.append p s2 -> s1 = s2.
Proof.
  induction p as [|c p IH]; cbn [String.append]; intros H; [exact H|].
  injection H as H. exact (IH H).
Qed.

Lemma read_padded (k : nat) (d : Decimal.uint) :
  NilEmpty.uint_of_string
    (String.append (Numbering.zeros k) (NilEmpty.string_of_uint d))
  = Some (leadingZeros k d).
Proof.
  induction k as [|k IH]; cbn [Numbering.zeros String.append leadingZeros].
  - apply NilEmpty.usu.
  - cbn [NilEmpty.uint_of_string]. rewrite IH. reflexivity.
Qed.

Lemma leadingZeros_value (k : nat) (d : Decimal.uint) :
  N.of_uint (leadingZeros k d) = N.of_uint d.
Proof.
  induction k as [|k IH]; cbn [leadingZeros]; [reflexivity|].
  rewrite <- IH. reflexivity.
Qed.

Lemma toString_digits (n : N) :
  Numbering.toString n = NilEmpty.string_of_uint (N.to_uint n).
Proof.
  unfold Numbering.toString, NilZero.string_of_uint.
  destruct (N.to_uint n) eqn:E; try reflexivity.
  exfalso. destruct n as [|p]; [discriminate E|].
  exact (DecimalPos.Unsigned.to_uint_nonnil p E).
Qed.

Lemma padStart_inj (k : nat) (a b : N) :
  Numbering.padStart k (Numbering.toString a)
  = Numbering.padStart k (Numbering.toString b) ->
  a = b.
Proof.
  unfold Numbering.padStart. rewrite !toString_digits. intros H.
  apply (f_equal NilEmpty.uint_of_string) in H.
  rewrite !read_padded in H. injection H as H.
  apply (f_equal N.of_uint) in H.
  rewrite !leadingZeros_value, !DecimalN.Unsigned.of_to in H. exact H.
Qed.

Lemma employeeIdOf_count (r : Numbering.UserRole) (c1 c2 : N) :
  Numbering.employeeIdOf r c1 = Numbering.employeeIdOf r c2 -> c1 = c2.
Proof.
  intros H. unfold Numbering.employeeIdOf in H.
  do 2 apply append_inj_l in H.
  apply padStart_inj in H. lia.
Qed.

(** X27.  Numbers generated for different counts differ: on a given day two
    orders with different counts get different order numbers, and likewise
    the batches of a month, the invoices of a type and year and the
    employees of a role.  The sequence is padded with zeros but never cut,
    so this holds beyond 9999 (or 99999) documents as well. *)
Theorem X27_numbers_distinct :
  (forall year month0 day c1 c2 : N,
      Numbering.orderNumber year month0 day c1
      = Numbering.orderNumber year month0 day c2 -> c1 = c2)
  /\ (forall year month0 c1 c2 : N,
         Numbering.batchNumber year month0 c1
         = Numbering.batchNumber year month0 c2 -> c1 = c2)
  /\ (forall (t : Numbering.InvoiceType) (year c1 c2 : N),
         Numbering.invoiceNumber t year c1 = Numbering.invoiceNumber t year c2 ->
         c1 = c2)
  /\ (forall (r : Numbering.UserRole) (c1 c2 : N),
         Numbering.employeeIdOf r c1 = Numbering.employeeIdOf r c2 ->
         c1 = c2).
Proof.
  split; [|split; [|split]].
  - intros year month0 day c1 c2 H. unfold Numbering.orderNumber in H.
    do 5 apply append_inj_l in H.
    apply padStart_inj in H. lia.
  - intros year month0 c1 c2 H. unfold Numbering.batchNumber in H.
    do 4 apply append_inj_l in H.
    apply padStart_inj in H. lia.
  - intros t year c1 c2 H. unfold Numbering.invoiceNumber in H.
    do 4 apply append_inj_l in H.
    apply padStart_inj in H. lia.
  - exact employeeIdOf_count.
Qed.

Lemma X27_numbers_distinct_witness :
  Numbering.orderNumber 2025 0 7 41 = "ORD-20250107-0042"%string
  /\ Numbering.orderNumber 2025 0 7 (40 + 1) = Numbering.orderNumber 2025 0 7 41
  /\ (40 + 1 = 41)%N.
Proof.
  split; [reflexivity|]. split; [reflexivity|].
  exact (proj1 X27_numbers_distinct 2025%N 0%N 7%N (40 + 1)%N 41%N eq_refl).
Defined.

(** X28.  The number of a purchase invoice never equals the number of an
    invoice of another type, and an employee id tells the role: two roles
    never give the same id, whatever the counts. *)
Theorem X28_numbers_tell_the_kind :
  (forall (t : Numbering.InvoiceType) (y y' c c' : N),
      t <> Numbering.PURCHASE ->
      Numbering.invoiceNumber Numbering.PURCHASE y c
      <> Numbering.invoiceNumber t y' c')
  /\ (forall (r r' : Numbering.UserRole) (c c' : N),
         Numbering.employeeIdOf r c = Numbering.employeeIdOf r' c' ->
         r = r' /\ c = c').
Proof.
  split.
  - intros t y y' c c' Ht H. unfold Numbering.invoiceNumber in H.
    destruct t; try contradiction; cbn in H; discriminate H.
  - intros r r' c c' H.
    assert (Hr : r = r').
    { unfold Numbering.employeeIdOf in H.
      destruct r, r'; try reflexivity; cbn in H; discriminate H. }
    subst r'. split; [reflexivity|].
    exact (employeeIdOf_count r c c' H).
Qed.

Lemma X28_numbers_tell_the_kind_witness :
  Numbering.SALES <> Numbering.PURCHASE
  /\ Numbering.invoiceNumber Numbering.PURCHASE 2025 0
     <> Numbering.invoiceNumber Numbering.SALES 2025 0.
Proof.
  assert (H : Numbering.SALES <> Numbering.PURCHASE) by discriminate.
  split; [exact H|].
  exact (proj1 X28_numbers_tell_the_kind Numbering.SALES 2025%N 2025%N
           0%N 0%N H).
Defined.

(** ** Orders: the counts *)

Lemma order_forEach_items_quantity (its : list Order.IOrderItem)
    (l : Order.Locals) :
  Order.l_totalQuantity (snd (Order.forEach_items its l))
  == Order.l_totalQuantity l + sumOf Order.quantity its.
Proof.
  revert l.
  induction its as [|it rest IH]; intros l; cbn [Order.forEach_items].
  - cbn. ring.
  - destruct (Order.item_body it l) as [i1 l1] eqn:E.
    specialize (IH l1).
    destruct (Order.forEach_items rest l1) as [r1 l2].
    cbn [fst snd sumOf] in *. rewrite IH.
    unfold Order.item_body in E. injection E as _ <-.
    cbn [Order.l_totalQuantity]. ring.
Qed.

(** X29.  [calculateTotals] keeps the items in number, and the order
    discounts as well; it sets [totalItems] to the number of items and
    [totalQuantity] to the sum of their quantities. *)
Theorem X29_order_counts (o : Order.IOrder) :
  let o' := Order.calculateTotals o in
  List.length (Order.items o') = List.length (Order.items o)
  /\ Order.totalItems o' = inject_Z (Z.of_nat (List.length (Order.items o')))
  /\ Order.totalQuantity o' == sumOf Order.quantity (Order.items o)
  /\ Order.totalQuantity o' == sumOf Order.quantity (Order.items o').
Proof.
  cbv zeta.
  pose proof (order_forEach_items_length (Order.items o)
                (Order.mkLocals 0 0 (Js.Num 0) 0)) as Hl.
  pose proof (order_forEach_items_quantity (Order.items o)
                (Order.mkLocals 0 0 (Js.Num 0) 0)) as Hq.
  pose proof (order_forEach_items_computed (Order.items o)
                (Order.mkLocals 0 0 (Js.Num 0) 0)) as Hc.
  assert (Hsame : forall a b,
             Forall2 orderItemComputed a b ->
             sumOf Order.quantity b == sumOf Order.quantity a).
  { induction 1 as [|x y a b Hxy _ IH]; cbn [sumOf]; [reflexivity|].
    destruct Hxy as (_ & Hqty & _). rewrite Hqty, IH. reflexivity. }
  specialize (Hsame _ _ Hc).
  unfold Order.calculateTotals.
  destruct (Order.forEach_items _ _) as [its l].
  cbn [fst snd Order.l_totalQuantity] in *.
  destruct (Order.discounts o) as [ds|];
    [destruct (Order.forEach_discounts _ _ _) as [ds' dt]|];
    cbn [Order.items Order.totalItems Order.totalQuantity];
    rewrite Hl, Hq, Hsame; repeat split; ring.
Qed.

(** ** Products: the days in inventory *)

(** X30.  For a sold product with a sale date the save writes the number of
    whole days between creation and sale: [d] days means at least [d] and
    less than [d] + 1 times 24 hours, so a product sold within its first day
    has 0 days and one sold on or after its creation never has a negative
    number.  For a product that is not sold, or has no sale date, the figure
    is left as it was. *)
Theorem X30_days_in_inventory (p : ProductAge.IProduct) :
  (forall sold,
      ProductAge.status p = ProductAge.SOLD ->
      ProductAge.soldAt p = Some sold ->
      exists d,
        ProductAge.daysInInventory (ProductAge.pre_save p) = Some d
        /\ (d * 86400000 <= sold - ProductAge.createdAt p
            < (d + 1) * 86400000)%Z
        /\ ((ProductAge.createdAt p <= sold)%Z -> (0 <= d)%Z))
  /\ (ProductAge.status p <> ProductAge.SOLD \/ ProductAge.soldAt p = None ->
      ProductAge.daysInInventory (ProductAge.pre_save p)
      = ProductAge.daysInInventory p).
Proof.
  split.
  - intros sold Hs Hsold.
    cbn [ProductAge.pre_save ProductAge.daysInInventory].
    rewrite Hsold, Hs. cbn [ProductAge.isSold].
    eexists. split; [reflexivity|].
    change (1000 * 60 * 60 * 24)%Z with 86400000%Z.
    pose proof (Z.div_mod (sold - ProductAge.createdAt p) 86400000) as Hdm.
    pose proof (Z.mod_pos_bound (sold - ProductAge.createdAt p) 86400000)
      as Hm.
    split; [lia|]. intros Hle. apply Z.div_pos; lia.
  - intros [H|H]; cbn [ProductAge.pre_save ProductAge.daysInInventory].
    + destruct (ProductAge.soldAt p); [|reflexivity].
      destruct (ProductAge.status p); try reflexivity. contradiction.
    + rewrite H. reflexivity.
Qed.

Lemma X30_days_in_inventory_witness :
  (ProductAge.status
     (ProductAge.mkProduct ProductAge.SOLD 0 (Some 200000000%Z) None)
   = ProductAge.SOLD)
  /\ exists d,
      ProductAge.daysInInventory
        (ProductAge.pre_save
           (ProductAge.mkProduct ProductAge.SOLD 0 (Some 200000000%Z) None))
      = Some d
      /\ (d * 86400000 <= 200000000 - 0 < (d + 1) * 86400000)%Z.
Proof.
  split; [reflexivity|].
  destruct (proj1 (X30_days_in_inventory
                     (ProductAge.mkProduct ProductAge.SOLD 0
                        (Some 200000000%Z) None))
              200000000%Z eq_refl eq_refl) as (d & Hd & Hb & _).
  exists d. split; [exact Hd|exact Hb].
Defined.
